(** * AI-MEDIA-DETECTION front-end: a shallow embedding of the React client

    The repository is a browser front-end: an HTTP client (services/api),
    a file intake widget (UploadArea), preview components, two result
    renderers (Results, VideoResults) and the controller (App).

    The embedding follows the JavaScript source:
    - JS numbers are IEEE-754 binary64 values ([spec_float] with precision
      53 and maximal exponent 1024), so [/] and [*] round as the browser
      does and [toFixed] works on the exact value of the double;
    - code that can throw runs in the exception monad [js];
    - code that talks to the browser or the network threads a [World];
    - a Detection Result is the JSON object of the data contract, every
      field optional (an absent field reads as [undefined]).

    Purely presentational attributes (static [className] and [style]
    strings, mouse handlers) are left out of the rendered trees; every
    expression that reads the Detection Result is kept, in source order.

    Of [App] and [UploadArea] the video-aware revision is the one embedded
    (the one that imports [VideoPreview], [VideoResults] and
    [detectVideo]). *)

From Stdlib Require Import ZArith NArith Arith String Ascii List Bool Lia.
From Stdlib Require Import Floats.SpecFloat DecimalString.
Import ListNotations.

Local Open Scope string_scope.
Local Open Scope Z_scope.

Set Warnings "-register-all".

(** [a === b] on two strings. *)
Notation "a === b" := (String.eqb a b) (at level 70, no associativity).

(** ** JavaScript numbers *)

Definition number : Type := spec_float.

Module Num.

Definition prec : Z := 53.
Definition emax : Z := 1024.

(** The double nearest to an integer literal. *)
Definition of_Z (n : Z) : number := binary_normalize prec emax n 0 false.

Definition NaN : number := S754_nan.
Definition zero : number := S754_zero false.
Definition hundred : number := of_Z 100.

Definition div (x y : number) : number := SFdiv prec emax x y.
Definition mul (x y : number) : number := SFmul prec emax x y.
Definition sub (x y : number) : number := SFsub prec emax x y.

(** [x > y] on numbers; false as soon as one side is NaN. *)
Definition gt (x y : number) : bool := SFltb y x.

Definition lt (x y : number) : bool := SFltb x y.

(** [file.size] as a number: exact below [2^53]. *)
Definition of_N (n : N) : number := of_Z (Z.of_N n).

(** ToBoolean on a number: [+0], [-0] and [NaN] are falsy. *)
Definition truthy (x : number) : bool :=
  match x with
  | S754_zero _ | S754_nan => false
  | _ => true
  end.

(** The decimal literal [n / 10^d], e.g. [decimal 873 1] is [87.3]: both
    operands are exact doubles and the quotient is rounded once, which is
    the double a JSON parser produces for that literal. *)
Definition decimal (n : Z) (d : nat) : number :=
  div (of_Z n) (of_Z (10 ^ Z.of_nat d)).

End Num.

(** ** Strings built at run time

    [Number::toString] on an arbitrary double (shortest round-trip digits)
    is not evaluated: a computed string is a sequence of pieces, where
    [NumText x] stands for the characters of [Number::toString(x)] and
    [UrlText u] for the [blob:] URL string of object URL number [u]. *)

Inductive piece : Type :=
| Chars (s : string)
| NumText (x : number)
| UrlText (u : nat).

Definition text : Type := list piece.

(** ** The Detection Result (data contract of the detection API) *)

(** One row of [individual_results]. *)
Record ModelResult : Type := {
  row_model : option string;
  row_prediction : option string;
  row_confidence : option number
}.

(** One row of [model_breakdown]. *)
Record ModelBreakdown : Type := {
  mb_model : option string;
  mb_prediction : option string;
  mb_confidence : option number;
  mb_fake_frame_count : option number;
  mb_real_frame_count : option number
}.

Record Analysis : Type := {
  total_frames_analyzed : option number;
  fake_frames : option number;
  real_frames : option number;
  uncertain_frames : option number
}.

Record VideoInfo : Type := {
  duration : option number;
  fps : option number;
  resolution : option string
}.

Record DetectionResult : Type := {
  success : option bool;
  error : option string;
  verdict : option string;
  confidence : option number;
  fake_probability : option number;
  real_probability : option number;
  agreement_level : option string;
  individual_results : option (list ModelResult);
  recommendation : option string;
  analysis : option Analysis;
  video_info : option VideoInfo;
  processing_time_seconds : option number;
  model_breakdown : option (list ModelBreakdown);
  suspicious_frames : option (list number);
  confidence_timeline : option (list number)
}.

(** [payload.error], under a name that stays visible next to the
    controller's own [error] state. *)
Definition payload_error (payload : DetectionResult) : option string :=
  error payload.

(** The object with no field at all, [{}]. *)
Definition empty_result : DetectionResult := {|
  success := None; error := None; verdict := None; confidence := None;
  fake_probability := None; real_probability := None;
  agreement_level := None; individual_results := None;
  recommendation := None; analysis := None; video_info := None;
  processing_time_seconds := None; model_breakdown := None;
  suspicious_frames := None; confidence_timeline := None
|}.

(** The health object of [GET /health]. *)
Record Health : Type := {
  status : option string;
  detector_ready : option bool
}.

(** A user-chosen file: name, declared content type, size in bytes. *)
Record File : Type := {
  name : string;
  type : string;
  size : N
}.

(** ** Exceptions

    Besides the built-in error classes, the error axios rejects with: its
    [response] is set when the server answered (with a non-2xx status),
    its [request] when the request was sent and nothing came back. *)

Record AxiosResponse : Type := {
  http_status : Z;
  data : DetectionResult
}.

Inductive exn : Type :=
| TypeError (message : string)
| RangeError (message : string)
| Error (message : string)
| AxiosError (message : string) (response : option AxiosResponse)
    (request : bool).

Definition message (e : exn) : string :=
  match e with
  | TypeError m | RangeError m | Error m | AxiosError m _ _ => m
  end.

(** [error.response] and [error.request]: [undefined] on anything that is
    not an axios error. *)
Definition response (e : exn) : option AxiosResponse :=
  match e with
  | AxiosError _ r _ => r
  | _ => None
  end.

Definition request (e : exn) : bool :=
  match e with
  | AxiosError _ _ sent => sent
  | _ => false
  end.

Inductive js (A : Type) : Type :=
| Return (a : A)
| Throw (e : exn).

Arguments Return {A} a.
Arguments Throw {A} e.

(** Sequencing, shared by pure-but-throwing code ([js]) and code with
    effects on the browser ([M], below). *)
Class Monad (m : Type -> Type) : Type := {
  ret : forall {A : Type}, A -> m A;
  bind : forall {A B : Type}, m A -> (A -> m B) -> m B
}.

Notation "x <- c ;; k" := (bind c (fun x => k))
  (at level 61, c at next level, right associativity).
Notation "c ;;; k" := (bind c (fun _ => k))
  (at level 61, right associativity).

#[export] Instance js_monad : Monad js := {
  ret := fun A a => Return a;
  bind := fun A B c k =>
    match c with
    | Return a => k a
    | Throw e => Throw e
    end
}.

(** [xs.map((x, idx) => f x idx)] for a callback that may throw: elements
    are visited left to right and the first exception aborts the loop. *)
Fixpoint map_from {A B : Type} (f : A -> nat -> js B) (idx : nat)
  (xs : list A) : js (list B) :=
  match xs with
  | [] => Return []
  | x :: rest =>
      y <- f x idx ;;
      ys <- map_from f (S idx) rest ;;
      Return (y :: ys)
  end.

(** [receiver.map(callback)]: reading [map] off [undefined] throws. *)
Definition Array_map {A B : Type} (receiver : option (list A))
  (name : string) (f : A -> nat -> js B) : js (list B) :=
  match receiver with
  | None =>
      Throw (TypeError
        ("Cannot read properties of undefined (reading 'map'): " ++ name))
  | Some xs => map_from f 0 xs
  end.

(** ** Number.prototype.toFixed *)

Module Fixed.

Definition digits (n : Z) : string :=
  NilEmpty.string_of_uint (N.to_uint (Z.to_N n)).

Fixpoint zeros (k : nat) : string :=
  match k with
  | O => EmptyString
  | S k' => String "0" (zeros k')
  end.

(** The integer [n] for which [n / 10^f] is closest to [m * 2^e]; of two
    such integers the larger one. *)
Definition scaled_round (m : positive) (e : Z) (f : nat) : Z :=
  let num := Zpos m * 10 ^ Z.of_nat f in
  if 0 <=? e then num * 2 ^ e
  else let den := 2 ^ (- e) in (2 * num + den) / (2 * den).

(** [m * 2^e >= 10^21]. *)
Definition ge_1e21 (m : positive) (e : Z) : bool :=
  if 0 <=? e then 10 ^ 21 <=? Zpos m * 2 ^ e
  else 10 ^ 21 * 2 ^ (- e) <=? Zpos m.

(** Steps 10.b-10.c of the algorithm: place the decimal point. *)
Definition place_point (n : Z) (f : nat) : string :=
  let m := digits n in
  match f with
  | O => m
  | _ =>
      let k := String.length m in
      let m := if (k <=? f)%nat then zeros (f + 1 - k) ++ m else m in
      let k := String.length m in
      substring 0 (k - f) m ++ "." ++ substring (k - f) f m
  end.

Definition toFixed (x : number) (fractionDigits : nat) : js text :=
  if (100 <? fractionDigits)%nat then
    Throw (RangeError "toFixed() digits argument must be between 0 and 100")
  else
    match x with
    | S754_nan | S754_infinity _ => Return [NumText x]
    | S754_zero _ => Return [Chars (place_point 0 fractionDigits)]
    | S754_finite s m e =>
        let sign := if s then "-" else "" in
        if ge_1e21 m e then
          Return [Chars sign; NumText (S754_finite false m e)]
        else
          Return [Chars (sign ++
                         place_point (scaled_round m e fractionDigits)
                                     fractionDigits)]
    end.

End Fixed.

(** ** Primitive values that reach the rendered tree *)

Definition ObjectURL : Type := nat.

Inductive value : Type :=
| VUndefined
| VNull
| VBool (b : bool)
| VNum (x : number)
| VStr (t : text)
| VUrl (u : ObjectURL)   (* the [blob:] string naming registry entry [u] *)
| VFun (handler : string). (* a function-valued attribute, by its name *)

Definition str (s : string) : value := VStr [Chars s].

Definition of_string (o : option string) : value :=
  match o with
  | Some s => str s
  | None => VUndefined
  end.

Definition of_number (o : option number) : value :=
  match o with
  | Some x => VNum x
  | None => VUndefined
  end.

(** [Number::toString] never yields the empty string. *)
Definition piece_empty (p : piece) : bool :=
  match p with
  | Chars EmptyString => true
  | _ => false
  end.

(** ToBoolean: [undefined], [false], [0], [NaN] and [""] are falsy. *)
Definition truthy (v : value) : bool :=
  match v with
  | VUndefined | VNull => false
  | VBool b => b
  | VNum x => Num.truthy x
  | VStr t => negb (forallb piece_empty t)
  | VUrl _ | VFun _ => true
  end.

(** [a || b]. *)
Definition or_else (a b : value) : value := if truthy a then a else b.

(** ToNumber on the values that occur as operands: [undefined] is NaN. *)
Definition ToNumber (o : option number) : number :=
  match o with
  | Some x => x
  | None => Num.NaN
  end.

(** ToString, as a template literal applies it to an interpolated value. *)
Definition ToString (v : value) : text :=
  match v with
  | VUndefined => [Chars "undefined"]
  | VNull => [Chars "null"]
  | VBool true => [Chars "true"]
  | VBool false => [Chars "false"]
  | VNum x => [NumText x]
  | VStr t => t
  | VUrl u => [UrlText u]
  | VFun handler => [Chars handler]
  end.

(** A template literal: the concatenation of its chunks, each interpolated
    value already passed through [ToString]. *)
Definition lit (s : string) : text := [Chars s].
Definition template (chunks : list text) : value := VStr (List.concat chunks).

(** [receiver.toFixed(digits)] as a method call on a value that may be
    [undefined] (reading the property throws) or not a number (the
    property is [undefined], so calling it throws). *)
Definition call_toFixed (receiver : value) (name : string) (digits : nat)
  : js text :=
  match receiver with
  | VNum x => Fixed.toFixed x digits
  | VUndefined =>
      Throw (TypeError
        ("Cannot read properties of undefined (reading 'toFixed'): " ++ name))
  | VNull =>
      Throw (TypeError
        ("Cannot read properties of null (reading 'toFixed'): " ++ name))
  | _ => Throw (TypeError (name ++ ".toFixed is not a function"))
  end.

(** ** React elements *)

Inductive node : Type :=
| Val (v : value)
| Elem (tag : string) (props : list (string * value)) (children : list node).

Definition T (s : string) : node := Val (str s).

(** An element without recorded attributes. *)
Definition el (tag : string) (children : list node) : node :=
  Elem tag [] children.

(** [object?.field]: [undefined] when the object is absent. *)
Definition opt_chain {A B : Type} (object : option A) (field : A -> option B)
  : option B :=
  match object with
  | Some o => field o
  | None => None
  end.

Notation "o ?. f" := (opt_chain o f) (at level 20, left associativity).

(** [x || 0] on a numeric field. *)
Definition or_zero (x : option number) : number :=
  match x with
  | Some n => if Num.truthy n then n else Num.zero
  | None => Num.zero
  end.

(** [receiver.length]: reading [length] off [undefined] throws. *)
Definition Array_length {A : Type} (receiver : option (list A))
  (name : string) : js number :=
  match receiver with
  | None =>
      Throw (TypeError
        ("Cannot read properties of undefined (reading 'length'): " ++ name))
  | Some xs => Return (Num.of_Z (Z.of_nat (List.length xs)))
  end.

(** [array && array.length > 0 && element]: the value of the chain is
    [undefined] for an absent array, [false] for an empty one, and the
    element otherwise (an array is always truthy). *)
Definition when_nonempty {A : Type} (array : option (list A))
  (name : string) (element : js node) : js node :=
  match array with
  | None => Return (Val VUndefined)
  | Some _ =>
      len <- Array_length array name ;;
      if Num.gt len Num.zero then element
      else Return (Val (VBool false))
  end.

(** ** components/VideoResults *)

Module VideoResults.

Definition getVerdictColor (verdict : option string) : string :=
  match verdict with
  | Some v =>
      if v === "FAKE" then "danger"
      else if v === "REAL" then "success"
      else if v === "UNCERTAIN" then "warning"
      else "secondary"
  | None => "secondary"
  end.

Definition getVerdictIcon (verdict : option string) : string :=
  match verdict with
  | Some v =>
      if v === "FAKE" then "⚠️"
      else if v === "REAL" then "✓"
      else if v === "UNCERTAIN" then "?"
      else ""
  | None => ""
  end.

Definition getAgreementColor (level : option string) : string :=
  match level with
  | Some l =>
      if l === "HIGH" then "success"
      else if l === "MEDIUM" then "warning"
      else if l === "LOW" then "danger"
      else "secondary"
  | None => "secondary"
  end.

Definition totalFrames (result : DetectionResult) : number :=
  or_zero (analysis result ?. total_frames_analyzed).
Definition fakeFrames (result : DetectionResult) : number :=
  or_zero (analysis result ?. fake_frames).
Definition realFrames (result : DetectionResult) : number :=
  or_zero (analysis result ?. real_frames).
Definition uncertainFrames (result : DetectionResult) : number :=
  or_zero (analysis result ?. uncertain_frames).

(** [total > 0 ? (frames / total * 100).toFixed(1) : 0]: a string when the
    total is positive, the number [0] otherwise. *)
Definition percent (frames total : number) : js value :=
  if Num.gt total Num.zero then
    t <- Fixed.toFixed (Num.mul (Num.div frames total) Num.hundred) 1 ;;
    Return (VStr t)
  else Return (VNum Num.zero).

Definition fakePercent (result : DetectionResult) : js value :=
  percent (fakeFrames result) (totalFrames result).
Definition realPercent (result : DetectionResult) : js value :=
  percent (realFrames result) (totalFrames result).

(** A label/value line of the "Video Information" column. *)
Definition info_line (label : string) (v : value) (unit : list node) : node :=
  el "div" [el "span" [T label]; el "strong" (Val v :: unit)].

Definition verdict_card (result : DetectionResult) : node :=
  el "Card" [el "Card.Body" [el "div" [
    el "div" [T (getVerdictIcon (verdict result))];
    Elem "h2"
      [("className", str ("text-" ++ getVerdictColor (verdict result)))]
      [Val (of_string (verdict result)); T " VIDEO"];
    el "h4" [Val (of_number (confidence result)); T "% Confidence"];
    Elem "ProgressBar"
      [("now", of_number (confidence result));
       ("variant", str (getVerdictColor (verdict result)));
       ("label", template [ToString (of_number (confidence result));
                           lit "%"])]
      [];
    el "div" [
      Elem "Badge"
        [("bg", str (getAgreementColor (agreement_level result)))]
        [Val (of_string (agreement_level result)); T " Frame Agreement"];
      Elem "Badge" [("bg", str "info")]
        [Val (VNum (totalFrames result)); T " Frames Analyzed"]]]]].

Definition frame_bar (variant label : string) (frames : number)
  (pct : value) : node :=
  el "div" [
    el "div" [
      Elem "span" [("className", str ("text-" ++ variant))] [T label];
      el "strong" [Val (VNum frames); T " ("; Val pct; T "%)"]];
    Elem "ProgressBar" [("variant", str variant); ("now", pct)] []].

Definition analysis_card (result : DetectionResult) (fakePct realPct : value)
  : node :=
  el "Card" [
    el "Card.Header" [el "h5" [T "Video Analysis"]];
    el "Card.Body" [el "Row" [
      el "Col" [
        el "h6" [T "Video Information"];
        el "div" [
          info_line "Duration:"
            (or_else (of_number (video_info result ?. duration)) (str "N/A"))
            [T "s"];
          info_line "FPS:"
            (or_else (of_number (video_info result ?. fps)) (str "N/A")) [];
          info_line "Resolution:"
            (or_else (of_string (video_info result ?. resolution))
                     (str "N/A")) [];
          info_line "Processing Time:"
            (or_else (of_number (processing_time_seconds result))
                     (str "N/A"))
            [T "s"]]];
      el "Col" [
        el "h6" [T "Frame Breakdown"];
        frame_bar "danger" " FAKE Frames:" (fakeFrames result) fakePct;
        frame_bar "success" " REAL Frames:" (realFrames result) realPct;
        if Num.gt (uncertainFrames result) Num.zero then
          el "div" [el "div" [
            Elem "span" [("className", str "text-warning")]
              [T " UNCERTAIN Frames:"];
            el "strong" [Val (VNum (uncertainFrames result))]]]
        else Val (VBool false)]]]].

Definition key (idx : nat) : string * value :=
  ("key", VNum (Num.of_Z (Z.of_nat idx))).

Definition breakdown_row (model : ModelBreakdown) (idx : nat) : js node :=
  Return (Elem "tr" [key idx] [
    el "td" [el "strong" [Val (of_string (mb_model model))]];
    el "td" [
      Elem "Badge" [("bg", str (getVerdictColor (mb_prediction model)))]
        [Val (of_string (mb_prediction model))]];
    el "td" [Val (of_number (mb_confidence model)); T "%"];
    el "td" [Val (of_number (mb_fake_frame_count model))];
    el "td" [Val (of_number (mb_real_frame_count model))]]).

Definition breakdown_card (result : DetectionResult) : js node :=
  trs <- Array_map (model_breakdown result) "result.model_breakdown"
           breakdown_row ;;
  Return (el "Card" [
    el "Card.Header" [el "h5" [T "Model Breakdown"]];
    el "Card.Body" [el "Table" [
      el "thead" [el "tr" [
        el "th" [T "Model"]; el "th" [T "Prediction"];
        el "th" [T "Avg Confidence"]; el "th" [T "Fake Frames"];
        el "th" [T "Real Frames"]]];
      el "tbody" trs]]]).

Definition suspicious_badge (frameIdx : number) (idx : nat) : js node :=
  Return (Elem "Badge" [key idx; ("bg", str "danger")]
            [T "Frame "; Val (VNum frameIdx)]).

Definition suspicious_card (result : DetectionResult) : js node :=
  count <- Array_length (suspicious_frames result)
             "result.suspicious_frames" ;;
  badges <- Array_map (suspicious_frames result) "result.suspicious_frames"
              suspicious_badge ;;
  Return (el "Card" [
    el "Card.Header" [el "h5" [T "⚠️ Suspicious Frames Detected"]];
    el "Card.Body" [
      el "p" [
        el "strong" [Val (VNum count)];
        T " frames show high probability of manipulation:"];
      el "div" badges;
      el "small" [T "Suspicious frames have >70% fake probability"]]]).

Definition bar_color (confidence : number) : string :=
  if Num.gt confidence (Num.of_Z 70) then "#dc3545"
  else if Num.gt confidence (Num.of_Z 50) then "#ffc107"
  else "#198754".

Definition timeline_bar (confidence : number) (idx : nat) : js node :=
  let color := bar_color confidence in
  shown <- call_toFixed (VNum confidence) "confidence" 1 ;;
  Return (Elem "div"
    [key idx;
     ("style.height", template [ToString (VNum confidence); lit "%"]);
     ("style.backgroundColor", str color);
     ("title", template [lit "Frame ";
                         ToString (VNum (Num.of_Z (Z.of_nat idx)));
                         lit ": "; shown; lit "%"])]
    []).

Definition timeline_card (result : DetectionResult) : js node :=
  bars <- Array_map (confidence_timeline result) "result.confidence_timeline"
            timeline_bar ;;
  count <- Array_length (confidence_timeline result)
             "result.confidence_timeline" ;;
  Return (el "Card" [
    el "Card.Header" [el "h5" [T "Confidence Timeline"]];
    el "Card.Body" [
      Elem "div" [("className", str "confidence-timeline")] bars;
      el "div" [
        el "span" [T "Frame 0"];
        el "span" [T "Frame ";
                   Val (VNum (Num.sub count (Num.of_Z 1)))]];
      el "small" [T "Hover over bars to see individual frame confidence"]]]).

Definition VideoResults (result : DetectionResult) : js node :=
  fakePct <- fakePercent result ;;
  realPct <- realPercent result ;;
  breakdown <- when_nonempty (model_breakdown result)
                 "result.model_breakdown" (breakdown_card result) ;;
  suspicious <- when_nonempty (suspicious_frames result)
                  "result.suspicious_frames" (suspicious_card result) ;;
  timeline <- when_nonempty (confidence_timeline result)
                "result.confidence_timeline" (timeline_card result) ;;
  Return (Elem "div" [("className", str "video-results")] [
    verdict_card result;
    analysis_card result fakePct realPct;
    breakdown;
    suspicious;
    timeline]).

End VideoResults.

(** ** components/Results *)

Module Results.

Definition getVerdictVariant (verdict : option string) : string :=
  match verdict with
  | Some v =>
      if v === "FAKE" then "danger"
      else if v === "REAL" then "success"
      else if v === "UNCERTAIN" then "warning"
      else "secondary"
  | None => "secondary"
  end.

Definition getVerdictIcon (verdict : option string) : string :=
  match verdict with
  | Some v =>
      if v === "FAKE" then "🔴"
      else if v === "REAL" then "🟢"
      else if v === "UNCERTAIN" then "🟡"
      else "⚪"
  | None => "⚪"
  end.

Definition getAgreementBadge (level : option string) : string :=
  match level with
  | Some l =>
      if l === "HIGH" then "success"
      else if l === "MEDIUM" then "warning"
      else if l === "LOW" then "danger"
      else "secondary"
  | None => "secondary"
  end.

(** The banner: icon, verdict, confidence with two decimals, agreement. *)
Definition banner (result : DetectionResult) : js node :=
  shown <- call_toFixed (of_number (confidence result))
             "result.confidence" 2 ;;
  Return (el "div" [
    el "h2" [T (getVerdictIcon (verdict result)); T " ";
             Val (of_string (verdict result))];
    el "h4" [T "Confidence: "; Val (VStr shown); T "%"];
    Elem "Badge" [("bg", str (getAgreementBadge (agreement_level result)))]
      [T "Agreement: "; Val (of_string (agreement_level result))]]).

(** One segment of the proportion bar: [probability * 100] is NaN when the
    probability is absent, and [toFixed] is then called on that number. *)
Definition segment (variant : string) (probability : option number)
  (suffix : string) (k : Z) : js node :=
  let now := Num.mul (ToNumber probability) Num.hundred in
  shown <- call_toFixed (VNum now) "probability" 1 ;;
  Return (Elem "ProgressBar"
    [("variant", str variant);
     ("now", VNum now);
     ("label", template [shown; lit suffix]);
     ("key", VNum (Num.of_Z k))]
    []).

Definition model_card (model : ModelResult) (index : nat) : js node :=
  shown <- call_toFixed (of_number (row_confidence model))
             "model.confidence" 1 ;;
  Return (Elem "Card"
    [("key", VNum (Num.of_Z (Z.of_nat index))); ("bg", str "light")]
    [el "Card.Body" [el "div" [
       el "div" [el "strong" [Val (of_string (row_model model))]];
       el "div" [
         Elem "Badge"
           [("bg", str (getVerdictVariant (row_prediction model)))]
           [Val (of_string (row_prediction model))];
         T " ";
         el "span" [Val (VStr shown); T "%"]]]]]).

(** A row whose [confidence] is there, so that [toFixed] can be called. *)
Definition has_confidence (row : ModelResult) : Prop :=
  row_confidence row <> None.

Definition Results (result : DetectionResult) : js node :=
  head <- banner result ;;
  fake <- segment "danger" (fake_probability result) "% Fake" 1 ;;
  real <- segment "success" (real_probability result) "% Real" 2 ;;
  cards <- Array_map (individual_results result) "result.individual_results"
             model_card ;;
  Return (Elem "Card" [("className", str "mt-4 results-card")] [
    el "Card.Body" [
      head;
      el "ProgressBar" [fake; real];
      el "h6" [T "Individual Models:"];
      Elem "div" [("className", str "models-breakdown")] cards;
      Elem "Alert" [("variant", str "info")] [
        el "div" [
          el "i" [];
          el "div" [el "strong" [T "Recommendation:"]; T " ";
                    Val (of_string (recommendation result))]]]]]).

End Results.

(** ** The browser and the network

    What the code can observe or change outside React state: the alerts
    shown, the console, the HTTP requests issued (oldest first), and the
    object URLs created and revoked.  The server is an oracle: its answer
    may depend on how many requests were issued before. *)

Record Request : Type := {
  method : string;
  url : string;
  formData : list (string * File);
  headers : list (string * string);
  timeout : option Z   (* milliseconds; [None] when the option is not given *)
}.

Inductive Outcome (A : Type) : Type :=
| Fulfilled (body : A)
| Rejected (err : exn).

Arguments Fulfilled {A} body.
Arguments Rejected {A} err.

Record World : Type := {
  alerts : list string;
  console : list string;
  requests : list Request;
  created : list (ObjectURL * File);
  revoked : list ObjectURL;
  health_endpoint : nat -> Outcome Health;
  detect_endpoint : nat -> Request -> Outcome DetectionResult
}.

Definition M (A : Type) : Type := World -> js A * World.

#[export] Instance M_monad : Monad M := {
  ret := fun A a w => (Return a, w);
  bind := fun A B c k w =>
    match c w with
    | (Return a, w') => k a w'
    | (Throw e, w') => (Throw e, w')
    end
}.

Definition throw {A : Type} (e : exn) : M A := fun w => (Throw e, w).

(** [try { body } catch (error) { handler }]. *)
Definition try_catch {A : Type} (body : M A) (handler : exn -> M A) : M A :=
  fun w =>
    match body w with
    | (Return a, w') => (Return a, w')
    | (Throw e, w') => handler e w'
    end.

Definition alert (msg : string) : M unit := fun w =>
  (Return tt,
   {| alerts := alerts w ++ [msg]; console := console w;
      requests := requests w; created := created w; revoked := revoked w;
      health_endpoint := health_endpoint w;
      detect_endpoint := detect_endpoint w |}).

Definition console_error (label : string) : M unit := fun w =>
  (Return tt,
   {| alerts := alerts w; console := console w ++ [label];
      requests := requests w; created := created w; revoked := revoked w;
      health_endpoint := health_endpoint w;
      detect_endpoint := detect_endpoint w |}).

Definition log_request (r : Request) (w : World) : World :=
  {| alerts := alerts w; console := console w;
     requests := requests w ++ [r]; created := created w;
     revoked := revoked w; health_endpoint := health_endpoint w;
     detect_endpoint := detect_endpoint w |}.

(** [URL.createObjectURL(file)]: a fresh URL, registered until revoked. *)
Definition createObjectURL (file : File) : M ObjectURL := fun w =>
  let u := List.length (created w) in
  (Return u,
   {| alerts := alerts w; console := console w; requests := requests w;
      created := created w ++ [(u, file)]; revoked := revoked w;
      health_endpoint := health_endpoint w;
      detect_endpoint := detect_endpoint w |}).

Definition revokeObjectURL (u : ObjectURL) : M unit := fun w =>
  (Return tt,
   {| alerts := alerts w; console := console w; requests := requests w;
      created := created w; revoked := revoked w ++ [u];
      health_endpoint := health_endpoint w;
      detect_endpoint := detect_endpoint w |}).

(** How often a URL was released, and whether it is still registered. *)
Definition releases (u : ObjectURL) (w : World) : nat :=
  count_occ Nat.eq_dec (revoked w) u.

Definition live (u : ObjectURL) (w : World) : bool :=
  existsb (fun cf => Nat.eqb (fst cf) u) (created w)
  && negb (existsb (Nat.eqb u) (revoked w)).

(** [axios.get(url)] and [axios.post(url, formData, config)]: one request
    leaves the browser; the promise fulfils with [response.data] in hand or
    rejects. *)
Definition axios_get (target : string) : M Health := fun w =>
  let r := {| method := "GET"; url := target; formData := [];
              headers := []; timeout := None |} in
  match health_endpoint w (List.length (requests w)) with
  | Fulfilled body => (Return body, log_request r w)
  | Rejected err => (Throw err, log_request r w)
  end.

Definition axios_post (target : string) (form : list (string * File))
  (hdrs : list (string * string)) (limit : option Z) : M DetectionResult :=
  fun w =>
    let r := {| method := "POST"; url := target; formData := form;
                headers := hdrs; timeout := limit |} in
    match detect_endpoint w (List.length (requests w)) r with
    | Fulfilled body => (Return body, log_request r w)
    | Rejected err => (Throw err, log_request r w)
    end.

(** [x || fallback] on a string that may be absent: the empty string is
    falsy as well. *)
Definition or_default (x : option string) (fallback : string) : string :=
  match x with
  | Some s => if s === "" then fallback else s
  | None => fallback
  end.

(** ** services/api *)

Module Api.

Definition API_BASE_URL : string := "http://localhost:5000/api".

Definition checkHealth : M Health :=
  try_catch
    (axios_get (API_BASE_URL ++ "/health"))
    (fun error =>
       console_error "Health check failed:" ;;;
       throw error).

Definition detectImage (file : File) : M DetectionResult :=
  try_catch
    (let formData := [("file", file)] in
     axios_post (API_BASE_URL ++ "/detect") formData
       [("Content-Type", "multipart/form-data")] None)
    (fun error =>
       console_error "Detection failed:" ;;;
       match response error with
       | Some r =>
           throw (Error (or_default (payload_error (data r)) "Detection failed"))
       | None =>
           if request error then throw (Error "Cannot connect to server")
           else throw (Error "An error occurred while processing the request")
       end).

Definition detectVideo (file : File) : M DetectionResult :=
  try_catch
    (let formData := [("video", file)] in
     axios_post (API_BASE_URL ++ "/detect_video") formData
       [("Content-Type", "multipart/form-data")] (Some 300000))
    (fun error =>
       console_error "Video detection failed:" ;;;
       match response error with
       | Some r =>
           throw (Error (or_default (payload_error (data r))
                                    "Video detection failed"))
       | None =>
           if request error then throw (Error "Cannot connect to server")
           else throw (Error "An error occurred while processing the video")
       end).

End Api.

(** ** components/UploadArea *)

Module UploadArea.

(** [handleFile(file)].  The callback [onFileSelect] belongs to the parent;
    the result is [Some r] when the callback ran (with its result [r]) and
    [None] when [handleFile] returned before reaching it. *)
Definition handleFile {R : Type} (onFileSelect : File -> M R) (file : File)
  : M (option R) :=
  let isImage := String.prefix "image/" (type file) in
  let isVideo := String.prefix "video/" (type file) in
  if negb isImage && negb isVideo then
    alert "Please select an image or video file" ;;;
    ret None
  else
    let maxSize := (if isVideo then 50 * 1024 * 1024 else 16 * 1024 * 1024)%N in
    let maxSizeText := if isVideo then "50MB" else "16MB" in
    if (maxSize <? size file)%N then
      alert ("File too large. Maximum size is " ++ maxSizeText) ;;;
      ret None
    else
      r <- onFileSelect file ;;
      ret (Some r).

(** [handleDrop] and [handleFileInput]: only the first file of the list
    is looked at. *)
Definition handleFileInput {R : Type} (onFileSelect : File -> M R)
  (files : list File) : M (option R) :=
  match files with
  | first :: _ => handleFile onFileSelect first
  | [] => ret None
  end.

(** The drag handlers.  [isDragging] is the component's one state cell;
    each handler returns its next value. *)
Definition handleDragOver (isDragging : bool) : bool := true.

Definition handleDragLeave (isDragging : bool) : bool := false.

Definition handleDrop {R : Type} (onFileSelect : File -> M R)
  (files : list File) (isDragging : bool) : bool * M (option R) :=
  (false,
   match files with
   | first :: _ => handleFile onFileSelect first
   | [] => ret None
   end).

(** [`upload-area ${isDragging ? 'dragging' : ''}`]. *)
Definition className (isDragging : bool) : string :=
  "upload-area " ++ (if isDragging then "dragging" else "").

End UploadArea.

(** ** components/ImagePreview and components/VideoPreview *)

Definition lift {A : Type} (c : js A) : M A := fun w => (c, w).

Module ImagePreview.

Definition ImagePreview (file : File) (imageUrl : value) : js node :=
  kb <- call_toFixed (VNum (Num.div (Num.of_N (size file)) (Num.of_Z 1024)))
          "file.size / 1024" 2 ;;
  Return (el "Card" [el "Card.Body" [
    el "div" [
      el "h6" [T "Preview"];
      Elem "Button" [("onClick", VFun "onRemove")] [T "Remove"]];
    el "div" [Elem "img" [("src", imageUrl); ("alt", str "Preview")] []];
    el "div" [
      el "div" [el "strong" [T "File:"]; T " "; T (name file)];
      el "div" [el "strong" [T "Size:"]; T " "; Val (VStr kb); T " KB"];
      el "div" [el "strong" [T "Type:"]; T " "; T (type file)]]]]).

End ImagePreview.

Module VideoPreview.

Definition formatFileSize (bytes : number) : js value :=
  if Num.lt bytes (Num.of_Z 1024) then
    Return (template [ToString (VNum bytes); lit " B"])
  else if Num.lt bytes (Num.of_Z (1024 * 1024)) then
    t <- call_toFixed (VNum (Num.div bytes (Num.of_Z 1024)))
           "bytes / 1024" 1 ;;
    Return (template [t; lit " KB"])
  else
    t <- call_toFixed (VNum (Num.div bytes (Num.of_Z (1024 * 1024))))
           "bytes / (1024 * 1024)" 1 ;;
    Return (template [t; lit " MB"]).

(** Every call of the component creates an object URL; nothing in the
    component revokes it. *)
Definition VideoPreview (file : File) : M node :=
  videoUrl <- createObjectURL file ;;
  shown <- lift (formatFileSize (Num.of_N (size file))) ;;
  ret (el "Card" [el "Card.Body" [
    el "h5" [T "Video Preview"];
    el "div" [
      Elem "video" [("controls", VBool true)] [
        Elem "source" [("src", VUrl videoUrl); ("type", str (type file))] [];
        T "Your browser does not support the video tag."]];
    el "div" [
      el "div" [el "span" [T "Filename:"]; el "span" [T (name file)]];
      el "div" [el "span" [T "Format:"];
                el "span" [Val (or_else (str (type file)) (str "Unknown"))]];
      el "div" [el "span" [T "Size:"]; el "span" [Val shown]]]]]).

End VideoPreview.

(** ** App: the controller *)

Module App.

Inductive ApiStatus : Type := checking | ready | not_ready | offline.

Definition ApiStatus_eqb (a b : ApiStatus) : bool :=
  match a, b with
  | checking, checking | ready, ready
  | not_ready, not_ready | offline, offline => true
  | _, _ => false
  end.

(** The six [useState] cells; [None] is [null]. *)
Record State : Type := {
  selectedFile : option File;
  imageUrl : option ObjectURL;
  loading : bool;
  result : option DetectionResult;
  error : option string;
  apiStatus : ApiStatus
}.

Definition initial : State := {|
  selectedFile := None; imageUrl := None; loading := false;
  result := None; error := None; apiStatus := checking
|}.

Definition setSelectedFile (v : option File) (st : State) : State :=
  {| selectedFile := v; imageUrl := imageUrl st; loading := loading st;
     result := result st; error := error st; apiStatus := apiStatus st |}.
Definition setImageUrl (v : option ObjectURL) (st : State) : State :=
  {| selectedFile := selectedFile st; imageUrl := v; loading := loading st;
     result := result st; error := error st; apiStatus := apiStatus st |}.
Definition setLoading (v : bool) (st : State) : State :=
  {| selectedFile := selectedFile st; imageUrl := imageUrl st; loading := v;
     result := result st; error := error st; apiStatus := apiStatus st |}.
Definition setResult (v : option DetectionResult) (st : State) : State :=
  {| selectedFile := selectedFile st; imageUrl := imageUrl st;
     loading := loading st; result := v; error := error st;
     apiStatus := apiStatus st |}.
Definition setError (v : option string) (st : State) : State :=
  {| selectedFile := selectedFile st; imageUrl := imageUrl st;
     loading := loading st; result := result st; error := v;
     apiStatus := apiStatus st |}.
Definition setApiStatus (v : ApiStatus) (st : State) : State :=
  {| selectedFile := selectedFile st; imageUrl := imageUrl st;
     loading := loading st; result := result st; error := error st;
     apiStatus := v |}.

(** ToBoolean on an optional boolean field. *)
Definition flag (b : option bool) : bool :=
  match b with
  | Some true => true
  | _ => false
  end.

(** A handler that catches everything it runs: the state it leaves, and
    the world. *)
Definition Handler : Type := State -> World -> State * World.

Definition checkApiHealth : Handler := fun st w =>
  match Api.checkHealth w with
  | (Return health, w') =>
      if match status health with
         | Some s => s === "ok"
         | None => false
         end && flag (detector_ready health)
      then (setApiStatus ready st, w')
      else (setApiStatus not_ready st, w')
  | (Throw err, w') => (setApiStatus offline st, w')
  end.

Definition handleFileSelect (file : File) (st : State) : M State :=
  u <- createObjectURL file ;;
  ret (setError None (setResult None
        (setImageUrl (Some u) (setSelectedFile (Some file) st)))).

Definition handleRemove (st : State) : M State :=
  match imageUrl st with
  | Some u => revokeObjectURL u
  | None => ret tt
  end ;;;
  ret (setError None (setResult None
        (setImageUrl None (setSelectedFile None st)))).

Definition isVideo (st : State) : bool :=
  match selectedFile st with
  | Some file => String.prefix "video/" (type file)
  | None => false
  end.

(** [handleAnalyze], run to completion: the state updates before the
    request, the request, and the updates after it, with no other event in
    between. *)
Definition handleAnalyze : Handler := fun st w =>
  match selectedFile st with
  | None => (st, w)
  | Some file =>
      let st := setResult None (setError None (setLoading true st)) in
      let (outcome, w') :=
        (if isVideo st then Api.detectVideo file else Api.detectImage file) w
      in
      let st :=
        match outcome with
        | Return response =>
            if flag (success response) then setResult (Some response) st
            else setError
                   (Some (or_default (payload_error response)
                                     "Detection failed")) st
        | Throw err => setError (Some (message err)) st
        end in
      (setLoading false st, w')
  end.

(** [disabled={loading || apiStatus !== 'ready'}] on the analyze button. *)
Definition analyzeDisabled (st : State) : bool :=
  loading st || negb (ApiStatus_eqb (apiStatus st) ready).

(** What [App()] returns: host elements and, unexpanded, the elements of
    the child components with their props. *)
Inductive child : Type :=
| Host (n : node)
| UploadAreaEl
| ImagePreviewEl (file : File) (url : option ObjectURL)
| VideoPreviewEl (file : File)
| ResultsEl (result : DetectionResult)
| VideoResultsEl (result : DetectionResult).

Definition status_alerts (st : State) : list child :=
  [Host (if negb (ApiStatus_eqb (apiStatus st) ready) then
           Elem "Alert"
             [("variant",
               str (if ApiStatus_eqb (apiStatus st) offline then "danger"
                    else "warning"))]
             [el "div" [
                el "div" [
                  Val (if ApiStatus_eqb (apiStatus st) checking
                       then str " Checking API status" else VBool false);
                  Val (if ApiStatus_eqb (apiStatus st) offline
                       then str "Cannot connect to API" else VBool false);
                  Val (if ApiStatus_eqb (apiStatus st) not_ready
                       then str " API is running but detector is not ready"
                       else VBool false)];
                Elem "Button" [("onClick", VFun "checkApiHealth")]
                  [T "Retry"]]]
         else Val (VBool false));
   Host (if ApiStatus_eqb (apiStatus st) ready then
           Elem "Alert" [("variant", str "success")] [T "✓ API is ready"]
         else Val (VBool false))].

Definition analyze_button (st : State) : node :=
  el "div" [
    Elem "Button"
      [("onClick", VFun "handleAnalyze");
       ("disabled", VBool (analyzeDisabled st))]
      (if loading st then
         [el "Spinner" [];
          T (if isVideo st then "Analyzing Video..." else "Analyzing...")]
       else
         [Val (template
                 [lit "Analyze ";
                  lit (if isVideo st then "Video" else "Image")])])].

Definition App (st : State) : list child :=
  status_alerts st ++
  [match selectedFile st with
   | None => UploadAreaEl
   | Some _ => Host (Val (VBool false))
   end;
   match selectedFile st with
   | Some file =>
       if isVideo st then VideoPreviewEl file
       else ImagePreviewEl file (imageUrl st)
   | None => Host (Val VNull)
   end;
   match selectedFile st, result st with
   | Some _, None => Host (analyze_button st)
   | Some _, Some _ => Host (Val (VBool false))
   | None, _ => Host (Val VNull)
   end;
   match error st with
   | Some e =>
       if e === "" then Host (T "")
       else Host (Elem "Alert" [("variant", str "danger")]
                    [el "strong" [T "Error:"]; T " "; T e])
   | None => Host (Val VNull)
   end] ++
  match result st with
  | Some r =>
      [if isVideo st then VideoResultsEl r else ResultsEl r;
       Host (el "div" [
         Elem "Button" [("onClick", VFun "handleRemove")]
           [T "Analyze Another "; T (if isVideo st then "Video" else "Image")]])]
  | None => [Host (Val VNull)]
  end.

(** React calls each child component of the returned tree once. *)
Definition mount (c : child) : M node :=
  match c with
  | Host n => ret n
  | UploadAreaEl =>
      ret (Elem "UploadArea" [("onFileSelect", VFun "handleFileSelect")] [])
  | ImagePreviewEl file url =>
      lift (ImagePreview.ImagePreview file
              (match url with Some u => VUrl u | None => VNull end))
  | VideoPreviewEl file => VideoPreview.VideoPreview file
  | ResultsEl r => lift (Results.Results r)
  | VideoResultsEl r => lift (VideoResults.VideoResults r)
  end.

Fixpoint mount_all (cs : list child) : M (list node) :=
  match cs with
  | [] => ret []
  | c :: rest =>
      n <- mount c ;;
      ns <- mount_all rest ;;
      ret (n :: ns)
  end.

Definition render (st : State) : M (list node) := mount_all (App st).

(** What the user can do; each event runs its handler, then React renders
    the new state.  A render that throws leaves the state as the handler
    set it.  The two [async] handlers are run to completion within their
    event, so the render of the loading state and the events that may come
    before the answer are not part of these sessions; [Async] below has
    them. *)
Inductive Event : Type :=
| Mount
| Retry
| ChooseFile (file : File)
| ClickRemove
| ClickAnalyze.

Definition handle (ev : Event) : Handler := fun st w =>
  match ev with
  | Mount | Retry => checkApiHealth st w
  | ChooseFile file =>
      match UploadArea.handleFile (fun f => handleFileSelect f st) file w with
      | (Return (Some st'), w') => (st', w')
      | (_, w') => (st, w')
      end
  | ClickRemove =>
      match handleRemove st w with
      | (Return st', w') => (st', w')
      | (Throw _, w') => (st, w')
      end
  | ClickAnalyze => handleAnalyze st w
  end.

(** Which events the rendered page offers: the retry button sits in the
    status alert, the upload area is shown without a file, the remove
    handler is wired to the image preview and to the button under a result,
    and the analyze button is shown for a file without result unless it is
    disabled. *)
Definition offered (st : State) (ev : Event) : bool :=
  match ev with
  | Mount => true
  | Retry => negb (ApiStatus_eqb (apiStatus st) ready)
  | ChooseFile _ =>
      match selectedFile st with
      | None => true
      | Some _ => false
      end
  | ClickRemove =>
      match result st, selectedFile st with
      | Some _, _ => true
      | None, Some _ => negb (isVideo st)
      | None, None => false
      end
  | ClickAnalyze =>
      match selectedFile st, result st with
      | Some _, None => negb (analyzeDisabled st)
      | _, _ => false
      end
  end.

Definition step (ev : Event) (sw : State * World) : State * World :=
  let (st, w) := handle ev (fst sw) (snd sw) in
  (st, snd (render st w)).

(** A session: [None] as soon as an event is not on offer. *)
Fixpoint run (evs : list Event) (sw : State * World)
  : option (State * World) :=
  match evs with
  | [] => Some sw
  | ev :: rest =>
      if offered (fst sw) ev then run rest (step ev sw) else None
  end.

End App.

(** ** The two upload requests, as [detectImage] and [detectVideo] build
    them for a file *)

Definition image_request (file : File) : Request :=
  {| method := "POST"; url := "http://localhost:5000/api/detect";
     formData := [("file", file)];
     headers := [("Content-Type", "multipart/form-data")];
     timeout := None |}.

Definition video_request (file : File) : Request :=
  {| method := "POST"; url := "http://localhost:5000/api/detect_video";
     formData := [("video", file)];
     headers := [("Content-Type", "multipart/form-data")];
     timeout := Some 300000 |}.

(** ** Bookkeeping of object URLs over a session *)

(** A child whose rendering creates no object URL. *)
Definition keeps_urls (c : App.child) : Prop :=
  match c with
  | App.VideoPreviewEl _ => False
  | _ => True
  end.

(** An event that does not bring a video in. *)
Definition no_video (ev : App.Event) : Prop :=
  match ev with
  | App.ChooseFile file => String.prefix "video/" (type file) = false
  | _ => True
  end.

(** Every object URL made so far is either the one the controller holds,
    not revoked yet, or was revoked, once. *)
Record urls_accounted (st : App.State) (w : World) : Prop := {
  held_with_file :
    App.selectedFile st = None -> App.imageUrl st = None;
  shows_no_video : App.isVideo st = false;
  revoked_once : NoDup (revoked w);
  revoked_were_created :
    forall u, In u (revoked w) -> (u < List.length (created w))%nat;
  held_is_live :
    forall u, App.imageUrl st = Some u ->
              (u < List.length (created w))%nat /\ ~ In u (revoked w);
  others_revoked :
    forall u, (u < List.length (created w))%nat ->
              App.imageUrl st <> Some u -> In u (revoked w)
}.

(** ** The image-only revision of the controller and of the intake
    (src/frontend/src/App.js and components/UploadArea.jsx) *)

Module ImageOnly.

Definition handleFile {R : Type} (onFileSelect : File -> M R) (file : File)
  : M (option R) :=
  if negb (String.prefix "image/" (type file)) then
    alert "Please select an image file" ;;;
    ret None
  else if (16 * 1024 * 1024 <? size file)%N then
    alert "File too large. Maximum size is 16MB" ;;;
    ret None
  else
    r <- onFileSelect file ;;
    ret (Some r).

Definition handleAnalyze : App.Handler := fun st w =>
  match App.selectedFile st with
  | None => (st, w)
  | Some file =>
      let st :=
        App.setResult None (App.setError None (App.setLoading true st)) in
      let (outcome, w') := Api.detectImage file w in
      let st :=
        match outcome with
        | Return detectionResult =>
            if App.flag (success detectionResult)
            then App.setResult (Some detectionResult) st
            else App.setError
                   (Some (or_default (payload_error detectionResult)
                                     "Detection failed")) st
        | Throw err => App.setError (Some (message err)) st
        end in
      (App.setLoading false st, w')
  end.

End ImageOnly.

(** ** What the rendered page lets the user click *)

Definition prop (key : string) (props : list (string * value))
  : option value :=
  option_map snd (find (fun kv => fst kv === key) props).

(** The handlers bound to [onClick] under a node; a [disabled] element
    fires none. *)
Fixpoint clickable (n : node) : list string :=
  match n with
  | Val _ => []
  | Elem _ props children =>
      match prop "onClick" props, prop "disabled" props with
      | Some (VFun handler), Some (VBool true) => []
      | Some (VFun handler), _ => [handler]
      | _, _ => []
      end ++ flat_map clickable children
  end.

(** The controller's handlers a child of [App] is wired to: [UploadArea]
    gets [onFileSelect={handleFileSelect}], [ImagePreview] gets
    [onRemove={handleRemove}] on a button that is never disabled; the other
    components get none. *)
Definition wired (c : App.child) : list string :=
  match c with
  | App.Host n => clickable n
  | App.UploadAreaEl => ["handleFileSelect"]
  | App.ImagePreviewEl _ _ => ["handleRemove"]
  | _ => []
  end.

Definition page_handlers (st : App.State) : list string :=
  flat_map wired (App.App st).

(** ** State and world conditions kept over a session *)

(** The has-file / has-result / has-error combinations the controller
    keeps between two events. *)
Record consistent (st : App.State) : Prop := {
  not_loading : App.loading st = false;
  no_file_no_rest :
    App.selectedFile st = None ->
    App.imageUrl st = None /\ App.result st = None /\ App.error st = None;
  file_has_url : App.selectedFile st <> None -> App.imageUrl st <> None;
  result_excludes_error : App.result st <> None -> App.error st = None
}.

(** Object URLs are numbered in the order they were made. *)
Definition numbered (w : World) : Prop :=
  map fst (created w) = seq 0 (List.length (created w)).

(** Everything but the object URLs made. *)
Definition same_but_created (w w' : World) : Prop :=
  alerts w' = alerts w /\ console w' = console w
  /\ requests w' = requests w /\ revoked w' = revoked w
  /\ health_endpoint w' = health_endpoint w
  /\ detect_endpoint w' = detect_endpoint w.

(** ** The controller with its requests in flight

    [checkApiHealth] and [handleAnalyze] are [async]: each runs up to its
    [await] and returns; the page goes on taking events, and the rest of
    the function runs when axios settles.  Here a call that was sent waits
    in the page with the answer it will get, and settles at an event of its
    own.  The setters of the continuation act on the cells as they are
    then; [isVideo] and [selectedFile] are the ones of the render in which
    the button was clicked. *)

Module Async.

(** A promise that settles with [answer]. *)
Definition settled {A : Type} (answer : Outcome A) : M A := fun w =>
  (match answer with
   | Fulfilled body => Return body
   | Rejected err => Throw err
   end, w).

(** The request leaves the browser; the answer comes later. *)
Definition send_get (target : string) (w : World) : Outcome Health * World :=
  (health_endpoint w (List.length (requests w)),
   log_request {| method := "GET"; url := target; formData := [];
                  headers := []; timeout := None |} w).

Definition send_post (target : string) (form : list (string * File))
  (hdrs : list (string * string)) (limit : option Z) (w : World)
  : Outcome DetectionResult * World :=
  let r := {| method := "POST"; url := target; formData := form;
              headers := hdrs; timeout := limit |} in
  (detect_endpoint w (List.length (requests w)) r, log_request r w).

(** The three functions of services/api from their [await] on. *)
Definition checkHealth_resumed (answer : Outcome Health) : M Health :=
  try_catch (settled answer)
    (fun error =>
       console_error "Health check failed:" ;;;
       throw error).

Definition detectImage_resumed (answer : Outcome DetectionResult)
  : M DetectionResult :=
  try_catch (settled answer)
    (fun error =>
       console_error "Detection failed:" ;;;
       match response error with
       | Some r =>
           throw (Error (or_default (payload_error (data r)) "Detection failed"))
       | None =>
           if request error then throw (Error "Cannot connect to server")
           else throw (Error "An error occurred while processing the request")
       end).

Definition detectVideo_resumed (answer : Outcome DetectionResult)
  : M DetectionResult :=
  try_catch (settled answer)
    (fun error =>
       console_error "Video detection failed:" ;;;
       match response error with
       | Some r =>
           throw (Error (or_default (payload_error (data r))
                                    "Video detection failed"))
       | None =>
           if request error then throw (Error "Cannot connect to server")
           else throw (Error "An error occurred while processing the video")
       end).

(** A call waiting at its [await]. *)
Inductive Call : Type :=
| HealthCall (answer : Outcome Health)
| ImageCall (answer : Outcome DetectionResult)
| VideoCall (answer : Outcome DetectionResult).

Definition is_upload (c : Call) : bool :=
  match c with
  | HealthCall _ => false
  | ImageCall _ | VideoCall _ => true
  end.

(** The cells of the controller and the calls in flight, oldest first. *)
Record Page : Type := {
  cells : App.State;
  waiting : list Call
}.

Definition initial : Page := {| cells := App.initial; waiting := [] |}.

Definition uploads (p : Page) : nat :=
  List.length (filter is_upload (waiting p)).

(** [checkApiHealth] up to [await checkHealth()]. *)
Definition checkApiHealth_begin (p : Page) (w : World) : Page * World :=
  let (answer, w') := send_get (Api.API_BASE_URL ++ "/health") w in
  ({| cells := cells p; waiting := waiting p ++ [HealthCall answer] |}, w').

(** [handleAnalyze] up to [await detectVideo(...)] or
    [await detectImage(...)]. *)
Definition handleAnalyze_begin (p : Page) (w : World) : Page * World :=
  match App.selectedFile (cells p) with
  | None => (p, w)
  | Some file =>
      let st :=
        App.setResult None
          (App.setError None (App.setLoading true (cells p))) in
      if App.isVideo (cells p) then
        let (answer, w') :=
          send_post (Api.API_BASE_URL ++ "/detect_video") [("video", file)]
            [("Content-Type", "multipart/form-data")] (Some 300000) w in
        ({| cells := st; waiting := waiting p ++ [VideoCall answer] |}, w')
      else
        let (answer, w') :=
          send_post (Api.API_BASE_URL ++ "/detect") [("file", file)]
            [("Content-Type", "multipart/form-data")] None w in
        ({| cells := st; waiting := waiting p ++ [ImageCall answer] |}, w')
  end.

(** [handleAnalyze] after its [await]: the [try] block's tail, the [catch]
    and the [finally]. *)
Definition handleAnalyze_resumed (outcome : js DetectionResult)
  (st : App.State) : App.State :=
  App.setLoading false
    match outcome with
    | Return response =>
        if App.flag (success response) then App.setResult (Some response) st
        else App.setError
               (Some (or_default (payload_error response)
                                 "Detection failed")) st
    | Throw err => App.setError (Some (message err)) st
    end.

(** The rest of the function that sent [c]. *)
Definition settle (c : Call) : App.Handler := fun st w =>
  match c with
  | HealthCall answer =>
      match checkHealth_resumed answer w with
      | (Return health, w') =>
          if match status health with
             | Some s => s === "ok"
             | None => false
             end && App.flag (detector_ready health)
          then (App.setApiStatus App.ready st, w')
          else (App.setApiStatus App.not_ready st, w')
      | (Throw err, w') => (App.setApiStatus App.offline st, w')
      end
  | ImageCall answer =>
      let (outcome, w') := detectImage_resumed answer w in
      (handleAnalyze_resumed outcome st, w')
  | VideoCall answer =>
      let (outcome, w') := detectVideo_resumed answer w in
      (handleAnalyze_resumed outcome st, w')
  end.

(** The [i]-th element taken out of a list. *)
Fixpoint take_out {A : Type} (i : nat) (l : list A) : option (A * list A) :=
  match l, i with
  | [], _ => None
  | x :: rest, O => Some (x, rest)
  | x :: rest, S j =>
      match take_out j rest with
      | Some (y, rest') => Some (y, x :: rest')
      | None => None
      end
  end.

(** The user's events, and a call in flight settling; calls settle in any
    order. *)
Inductive Event : Type :=
| User (ev : App.Event)
| Settles (i : nat).

Definition handle (ev : Event) (p : Page) (w : World) : Page * World :=
  match ev with
  | User App.Mount | User App.Retry => checkApiHealth_begin p w
  | User App.ClickAnalyze => handleAnalyze_begin p w
  | User ev =>
      let (st, w') := App.handle ev (cells p) w in
      ({| cells := st; waiting := waiting p |}, w')
  | Settles i =>
      match take_out i (waiting p) with
      | Some (c, rest) =>
          let (st, w') := settle c (cells p) w in
          ({| cells := st; waiting := rest |}, w')
      | None => (p, w)
      end
  end.

(** The page offers what its cells make it show; a call can settle while
    it is in flight. *)
Definition offered (p : Page) (ev : Event) : bool :=
  match ev with
  | User ev => App.offered (cells p) ev
  | Settles i => (i <? List.length (waiting p))%nat
  end.

(** React renders after every event, also after the first half of an
    [async] handler. *)
Definition step (ev : Event) (pw : Page * World) : Page * World :=
  let (p, w) := handle ev (fst pw) (snd pw) in
  (p, snd (App.render (cells p) w)).

Fixpoint run (evs : list Event) (pw : Page * World)
  : option (Page * World) :=
  match evs with
  | [] => Some pw
  | ev :: rest =>
      if offered (fst pw) ev then run rest (step ev pw) else None
  end.

End Async.

(** What holds of the cells and of the calls in flight between two
    events. *)
Record in_step (p : Async.Page) : Prop := {
  one_upload_while_loading :
    Async.uploads p
    = (if App.loading (Async.cells p) then 1 else 0)%nat;
  loading_shows_nothing :
    App.loading (Async.cells p) = true ->
    App.result (Async.cells p) = None /\ App.error (Async.cells p) = None;
  result_or_error :
    App.result (Async.cells p) <> None -> App.error (Async.cells p) = None;
  no_file_no_url :
    App.selectedFile (Async.cells p) = None ->
    App.imageUrl (Async.cells p) = None;
  file_with_url :
    App.selectedFile (Async.cells p) <> None ->
    App.imageUrl (Async.cells p) <> None
}.

(** ** Concrete inputs used by the examples below *)

Module Sample.

Definition photo : File :=
  {| name := "portrait.png"; type := "image/png"; size := 2048000 |}.
Definition clip : File :=
  {| name := "clip.mp4"; type := "video/mp4"; size := 3000000 |}.
Definition notes : File :=
  {| name := "notes.pdf"; type := "application/pdf"; size := 1024 |}.
Definition long_clip : File :=
  {| name := "long.mp4"; type := "video/mp4"; size := 60000000 |}.
Definition big_photo : File :=
  {| name := "scan.png"; type := "image/png"; size := 20000000 |}.

(** [{total_frames_analyzed:100, fake_frames:62, real_frames:35,
      uncertain_frames:3}]. *)
Definition frames_100 : Analysis := {|
  total_frames_analyzed := Some (Num.of_Z 100);
  fake_frames := Some (Num.of_Z 62);
  real_frames := Some (Num.of_Z 35);
  uncertain_frames := Some (Num.of_Z 3)
|}.

Definition with_analysis (a : option Analysis) : DetectionResult := {|
  success := Some true; error := None; verdict := Some "FAKE";
  confidence := Some (Num.decimal 873 1);
  fake_probability := None; real_probability := None;
  agreement_level := Some "HIGH"; individual_results := None;
  recommendation := None; analysis := a; video_info := None;
  processing_time_seconds := None; model_breakdown := None;
  suspicious_frames := None; confidence_timeline := None
|}.

(** An image result [{verdict:"FAKE", confidence:87.3, ...}] with the given
    [individual_results]. *)
Definition fake_873 (rows : option (list ModelResult)) : DetectionResult := {|
  success := Some true; error := None; verdict := Some "FAKE";
  confidence := Some (Num.decimal 873 1);
  fake_probability := Some (Num.decimal 873 3);
  real_probability := Some (Num.decimal 127 3);
  agreement_level := Some "HIGH"; individual_results := rows;
  recommendation := Some "Likely AI-generated"; analysis := None;
  video_info := None; processing_time_seconds := None;
  model_breakdown := None; suspicious_frames := None;
  confidence_timeline := None
|}.

Definition one_row : ModelResult := {|
  row_model := Some "EfficientNet";
  row_prediction := Some "FAKE";
  row_confidence := Some (Num.decimal 912 1)
|}.

(** A successful video result. *)
Definition video_ok : DetectionResult := with_analysis (Some frames_100).

(** [{success:false, error:e}]. *)
Definition failure (e : option string) : DetectionResult := {|
  success := Some false; error := e; verdict := None; confidence := None;
  fake_probability := None; real_probability := None;
  agreement_level := None; individual_results := None;
  recommendation := None; analysis := None; video_info := None;
  processing_time_seconds := None; model_breakdown := None;
  suspicious_frames := None; confidence_timeline := None
|}.

(** A browser with nothing logged, in front of the given server. *)
Definition world (health : nat -> Outcome Health)
  (detect : nat -> Request -> Outcome DetectionResult) : World := {|
  alerts := []; console := []; requests := []; created := []; revoked := [];
  health_endpoint := health; detect_endpoint := detect
|}.

Definition healthy : Health :=
  {| status := Some "ok"; detector_ready := Some true |}.

Definition unreachable : exn := AxiosError "Network Error" None true.

Definition offline_world : World :=
  world (fun _ => Rejected unreachable) (fun _ _ => Rejected unreachable).

(** A server that answers every detection request with [payload]. *)
Definition answering (payload : DetectionResult) : World :=
  world (fun _ => Fulfilled healthy) (fun _ _ => Fulfilled payload).

(** A server that rejects every detection request with [err]. *)
Definition rejecting (err : exn) : World :=
  world (fun _ => Fulfilled healthy) (fun _ _ => Rejected err).

Definition selected (file : File) (u : ObjectURL) : App.State := {|
  App.selectedFile := Some file; App.imageUrl := Some u;
  App.loading := false; App.result := None; App.error := None;
  App.apiStatus := App.ready
|}.

End Sample.

(** * Properties *)

(** ** Numbers and [toFixed] *)

Lemma toFixed_returns (x : number) (digits : nat) :
  (digits <= 100)%nat -> exists t, Fixed.toFixed x digits = Return t.
Proof.
  intros Hd. unfold Fixed.toFixed.
  destruct (Nat.ltb_spec 100 digits) as [Hlt | _]; [lia |].
  destruct x as [s | s | | s m e]; try (eexists; reflexivity).
  destruct (Fixed.ge_1e21 m e); eexists; reflexivity.
Qed.

(** Values a browser console gives for the same calls. *)
Example toFixed_87_3 :
  Fixed.toFixed (Num.decimal 873 1) 2 = Return [Chars "87.30"].
Proof. reflexivity. Qed.

Example toFixed_1_005 :
  Fixed.toFixed (Num.decimal 1005 3) 2 = Return [Chars "1.00"].
Proof. reflexivity. Qed.

Example toFixed_2_5 :
  Fixed.toFixed (Num.decimal 25 1) 0 = Return [Chars "3"].
Proof. reflexivity. Qed.

Example toFixed_minus_small :
  Fixed.toFixed (SFopp (Num.decimal 1 3)) 1 = Return [Chars "-0.0"].
Proof. reflexivity. Qed.

Example seven_percent_is_inexact :
  Num.mul (Num.decimal 7 2) Num.hundred <> Num.of_Z 7
  /\ Fixed.toFixed (Num.mul (Num.decimal 7 2) Num.hundred) 1
     = Return [Chars "7.0"].
Proof. split; [discriminate | reflexivity]. Qed.

Lemma call_toFixed_number (x : number) (name : string) (digits : nat) :
  (digits <= 100)%nat ->
  exists t, call_toFixed (VNum x) name digits = Return t.
Proof. intros Hd. simpl. now apply toFixed_returns. Qed.

Lemma or_zero_falsy (x : option number) :
  x = None \/ (exists s, x = Some (S754_zero s)) -> or_zero x = Num.zero.
Proof.
  intros [-> | [s ->]]; reflexivity.
Qed.

Lemma percent_total (frames total : number) :
  exists v, VideoResults.percent frames total = Return v.
Proof.
  unfold VideoResults.percent.
  destruct (Num.gt total Num.zero); [| eexists; reflexivity].
  destruct (toFixed_returns
              (Num.mul (Num.div frames total) Num.hundred) 1) as [t Ht];
    [lia |].
  rewrite Ht. eexists; reflexivity.
Qed.

(** ** Lists mapped with a callback that may throw *)

Lemma map_from_total {A B : Type} (f : A -> nat -> js B) (xs : list A) :
  Forall (fun x => forall i, exists y, f x i = Return y) xs ->
  forall idx, exists ys,
    map_from f idx xs = Return ys /\ List.length ys = List.length xs.
Proof.
  induction 1 as [| x rest Hx _ IH]; intros idx; simpl.
  - exists []. split; reflexivity.
  - destruct (Hx idx) as [y Hy]. destruct (IH (S idx)) as [ys [Hys Hlen]].
    rewrite Hy, Hys. exists (y :: ys). split; simpl; congruence.
Qed.

(** ** File intake *)

Lemma image_is_not_video (t : string) :
  String.prefix "image/" t = true -> String.prefix "video/" t = false.
Proof.
  intros H. destruct t as [| c t']; [discriminate H |].
  change (String.prefix "image/" (String c t'))
    with (if ascii_dec "i" c then String.prefix "mage/" t' else false) in H.
  destruct (ascii_dec "i" c) as [<- | _]; [reflexivity | discriminate H].
Qed.

(** C5. File intake classifies by declared content type: a file that is
    neither image nor video raises the alert and the callback is not run,
    whatever it is; a video above 50MB or an image above 16MB raises the
    alert naming that ceiling; any other file is handed, unchanged, to the
    callback.  The image ceiling is 16MB, the video ceiling 50MB, between
    three and four times the image one. *)
Theorem C5_intake_classifies_by_type_and_size :
  forall (R : Type) (onFileSelect : File -> M R) (file : File) (w : World),
    (String.prefix "image/" (type file) = false ->
     String.prefix "video/" (type file) = false ->
     UploadArea.handleFile onFileSelect file w
     = (alert "Please select an image or video file" ;;; ret None) w)
    /\ (String.prefix "video/" (type file) = true ->
        (50 * 1024 * 1024 < size file)%N ->
        UploadArea.handleFile onFileSelect file w
        = (alert "File too large. Maximum size is 50MB" ;;; ret None) w)
    /\ (String.prefix "image/" (type file) = true ->
        (16 * 1024 * 1024 < size file)%N ->
        UploadArea.handleFile onFileSelect file w
        = (alert "File too large. Maximum size is 16MB" ;;; ret None) w)
    /\ (String.prefix "video/" (type file) = true ->
        (size file <= 50 * 1024 * 1024)%N ->
        UploadArea.handleFile onFileSelect file w
        = (r <- onFileSelect file ;; ret (Some r)) w)
    /\ (String.prefix "image/" (type file) = true ->
        (size file <= 16 * 1024 * 1024)%N ->
        UploadArea.handleFile onFileSelect file w
        = (r <- onFileSelect file ;; ret (Some r)) w)
    /\ (10 * 1024 * 1024 <= 16 * 1024 * 1024 < 30 * 1024 * 1024)%N
    /\ (3 * (16 * 1024 * 1024) <= 50 * 1024 * 1024 < 4 * (16 * 1024 * 1024))%N.
Proof.
  intros R onFileSelect file w. unfold UploadArea.handleFile.
  repeat split; try lia.
  - intros Hi Hv. now rewrite Hi, Hv.
  - intros Hv Hsz. rewrite Hv, andb_false_r.
    destruct (N.ltb_spec (50 * 1024 * 1024) (size file));
      [reflexivity | lia].
  - intros Hi Hsz. rewrite Hi, (image_is_not_video _ Hi). cbn [negb andb].
    destruct (N.ltb_spec (16 * 1024 * 1024) (size file));
      [reflexivity | lia].
  - intros Hv Hsz. rewrite Hv, andb_false_r.
    destruct (N.ltb_spec (50 * 1024 * 1024) (size file));
      [lia | reflexivity].
  - intros Hi Hsz. rewrite Hi, (image_is_not_video _ Hi). cbn [negb andb].
    destruct (N.ltb_spec (16 * 1024 * 1024) (size file));
      [lia | reflexivity].
Qed.

(** The five cases of C5 on five files: a PDF, a 60MB video, a 20MB image,
    a 3MB video and a 2MB image. *)
Lemma C5_intake_examples :
  let cb := fun f => App.handleFileSelect f App.initial in
  let w := Sample.offline_world in
  UploadArea.handleFile cb Sample.notes w
  = (alert "Please select an image or video file" ;;; ret None) w
  /\ UploadArea.handleFile cb Sample.long_clip w
     = (alert "File too large. Maximum size is 50MB" ;;; ret None) w
  /\ UploadArea.handleFile cb Sample.big_photo w
     = (alert "File too large. Maximum size is 16MB" ;;; ret None) w
  /\ UploadArea.handleFile cb Sample.clip w
     = (r <- cb Sample.clip ;; ret (Some r)) w
  /\ UploadArea.handleFile cb Sample.photo w
     = (r <- cb Sample.photo ;; ret (Some r)) w.
Proof.
  intros cb w.
  split; [| split; [| split; [| split]]].
  - destruct (C5_intake_classifies_by_type_and_size _ cb Sample.notes w)
      as (H & _).
    apply H; reflexivity.
  - destruct (C5_intake_classifies_by_type_and_size _ cb Sample.long_clip w)
      as (_ & H & _).
    apply H; reflexivity.
  - destruct (C5_intake_classifies_by_type_and_size _ cb Sample.big_photo w)
      as (_ & _ & H & _).
    apply H; reflexivity.
  - destruct (C5_intake_classifies_by_type_and_size _ cb Sample.clip w)
      as (_ & _ & _ & H & _).
    apply H; [reflexivity | discriminate].
  - destruct (C5_intake_classifies_by_type_and_size _ cb Sample.photo w)
      as (_ & _ & _ & _ & H & _).
    apply H; [reflexivity | discriminate].
Defined.

(** ** Verdict and agreement markers *)



(** ** Frame percentages of the video renderer *)

(** C8. With 62 fake and 35 real frames out of 100 analysed, the video
    renderer computes the percentages ["62.0"] and ["35.0"]. *)
Theorem C8_frame_percentages_of_100 :
  forall result : DetectionResult,
    analysis result = Some Sample.frames_100 ->
    VideoResults.fakePercent result = Return (str "62.0")
    /\ VideoResults.realPercent result = Return (str "35.0").
Proof.
  intros result Ha.
  unfold VideoResults.fakePercent, VideoResults.realPercent,
    VideoResults.fakeFrames, VideoResults.realFrames,
    VideoResults.totalFrames.
  rewrite Ha. split; vm_compute; reflexivity.
Qed.

Lemma C8_frame_percentages_example :
  VideoResults.fakePercent (Sample.with_analysis (Some Sample.frames_100))
  = Return (str "62.0")
  /\ VideoResults.realPercent (Sample.with_analysis (Some Sample.frames_100))
     = Return (str "35.0").
Proof.
  apply (C8_frame_percentages_of_100
           (Sample.with_analysis (Some Sample.frames_100))).
  reflexivity.
Defined.

Lemma zero_total_gives_zero_percent (result : DetectionResult) :
  (analysis result = None
   \/ analysis result ?. total_frames_analyzed = None
   \/ exists s, analysis result ?. total_frames_analyzed
                = Some (S754_zero s)) ->
  VideoResults.fakePercent result = Return (VNum Num.zero)
  /\ VideoResults.realPercent result = Return (VNum Num.zero).
Proof.
  intros H.
  assert (Htotal : VideoResults.totalFrames result = Num.zero).
  { unfold VideoResults.totalFrames. apply or_zero_falsy.
    destruct H as [H | [H | H]]; [left; now rewrite H | now left | now right]. }
  unfold VideoResults.fakePercent, VideoResults.realPercent,
    VideoResults.percent.
  rewrite Htotal. split; reflexivity.
Qed.

(** C10. When [analysis] is absent, or its [total_frames_analyzed] is
    absent or zero, both percentages are the number [0]: the division is
    not evaluated.  A frame count that is absent reads as [0]. *)
Theorem C10_percentages_guarded :
  forall result : DetectionResult,
    (analysis result = None
     \/ analysis result ?. total_frames_analyzed = None
     \/ exists s, analysis result ?. total_frames_analyzed
                  = Some (S754_zero s)) ->
    VideoResults.fakePercent result = Return (VNum Num.zero)
    /\ VideoResults.realPercent result = Return (VNum Num.zero)
    /\ VideoResults.totalFrames result = Num.zero
    /\ (analysis result ?. fake_frames = None ->
        VideoResults.fakeFrames result = Num.zero)
    /\ (analysis result ?. real_frames = None ->
        VideoResults.realFrames result = Num.zero)
    /\ (analysis result ?. uncertain_frames = None ->
        VideoResults.uncertainFrames result = Num.zero).
Proof.
  intros result H.
  assert (Htotal : VideoResults.totalFrames result = Num.zero).
  { unfold VideoResults.totalFrames. apply or_zero_falsy.
    destruct H as [H | [H | H]]; [left; now rewrite H | now left | now right]. }
  unfold VideoResults.fakePercent, VideoResults.realPercent,
    VideoResults.percent.
  rewrite Htotal.
  repeat split; try reflexivity;
    intros Hnone;
    unfold VideoResults.fakeFrames, VideoResults.realFrames,
      VideoResults.uncertainFrames; now rewrite Hnone.
Qed.

(** C10 at a result without [analysis] and at one that analysed no frame. *)
Lemma C10_percentages_guarded_examples :
  VideoResults.fakePercent (Sample.with_analysis None) = Return (VNum Num.zero)
  /\ VideoResults.realPercent
       (Sample.with_analysis
          (Some {| total_frames_analyzed := Some (Num.of_Z 0);
                   fake_frames := None; real_frames := None;
                   uncertain_frames := None |}))
     = Return (VNum Num.zero).
Proof.
  split.
  - apply (C10_percentages_guarded (Sample.with_analysis None)).
    left. reflexivity.
  - apply (C10_percentages_guarded
             (Sample.with_analysis
                (Some {| total_frames_analyzed := Some (Num.of_Z 0);
                         fake_frames := None; real_frames := None;
                         uncertain_frames := None |}))).
    right. right. exists false. reflexivity.
Defined.

(** ** The result renderers on results with missing parts *)

Lemma when_nonempty_total {A : Type} (array : option (list A))
  (name : string) (element : js node) :
  (forall xs, array = Some xs -> exists n, element = Return n) ->
  exists n,
    when_nonempty array name element = Return n
    /\ (array = None -> n = Val VUndefined)
    /\ (array = Some [] -> n = Val (VBool false)).
Proof.
  intros Hel. destruct array as [xs |]; simpl.
  - destruct (Num.gt (Num.of_Z (Z.of_nat (List.length xs))) Num.zero) eqn:Hgt.
    + destruct (Hel xs eq_refl) as [n Hn]. exists n.
      repeat split; [exact Hn | discriminate |].
      intros Hnil. injection Hnil as ->. discriminate Hgt.
    + exists (Val (VBool false)). repeat split; discriminate.
  - exists (Val VUndefined). repeat split; discriminate.
Qed.

Lemma breakdown_card_total (result : DetectionResult)
  (rows : list ModelBreakdown) :
  model_breakdown result = Some rows ->
  exists n, VideoResults.breakdown_card result = Return n.
Proof.
  intros H. unfold VideoResults.breakdown_card. rewrite H. simpl.
  destruct (map_from_total VideoResults.breakdown_row rows) with (idx := 0%nat)
    as [trs [Htrs _]].
  - apply Forall_forall. intros row _ i. eexists; reflexivity.
  - rewrite Htrs. eexists; reflexivity.
Qed.

Lemma suspicious_card_total (result : DetectionResult)
  (frames : list number) :
  suspicious_frames result = Some frames ->
  exists n, VideoResults.suspicious_card result = Return n.
Proof.
  intros H. unfold VideoResults.suspicious_card. rewrite H. simpl.
  destruct (map_from_total VideoResults.suspicious_badge frames)
    with (idx := 0%nat) as [badges [Hb _]].
  - apply Forall_forall. intros frame _ i. eexists; reflexivity.
  - rewrite Hb. eexists; reflexivity.
Qed.

Lemma timeline_card_total (result : DetectionResult)
  (timeline : list number) :
  confidence_timeline result = Some timeline ->
  exists n, VideoResults.timeline_card result = Return n.
Proof.
  intros H. unfold VideoResults.timeline_card. rewrite H. simpl.
  destruct (map_from_total VideoResults.timeline_bar timeline)
    with (idx := 0%nat) as [bars [Hb _]].
  - apply Forall_forall. intros c _ i. unfold VideoResults.timeline_bar.
    destruct (call_toFixed_number c "confidence" 1) as [t Ht]; [lia |].
    rewrite Ht. eexists; reflexivity.
  - rewrite Hb. eexists; reflexivity.
Qed.

Lemma model_card_total (row : ModelResult) (index : nat) :
  Results.has_confidence row ->
  exists n, Results.model_card row index = Return n.
Proof.
  unfold Results.has_confidence, Results.model_card. intros H.
  destruct (row_confidence row) as [c |]; [| contradiction].
  destruct (call_toFixed_number c "model.confidence" 1) as [t Ht]; [lia |].
  simpl of_number. rewrite Ht. eexists; reflexivity.
Qed.

Lemma segment_total (variant : string) (probability : option number)
  (suffix : string) (k : Z) :
  exists n, Results.segment variant probability suffix k = Return n.
Proof.
  unfold Results.segment.
  destruct (call_toFixed_number
              (Num.mul (ToNumber probability) Num.hundred) "probability" 1)
    as [t Ht]; [lia |].
  rewrite Ht. eexists; reflexivity.
Qed.

(** The two renderers on the empty object [{}]. *)
Example video_renderer_on_empty_object :
  exists cards,
    VideoResults.VideoResults empty_result
    = Return (Elem "div" [("className", str "video-results")]
                (cards ++ [Val VUndefined; Val VUndefined; Val VUndefined])).
Proof. eexists [_; _]. reflexivity. Qed.

Example image_renderer_on_empty_object :
  Results.Results empty_result
  = Throw (TypeError
      "Cannot read properties of undefined (reading 'toFixed'): result.confidence").
Proof. reflexivity. Qed.

(** C1.  The image renderer throws where the specification has it render
    without throwing.  On the successful result [{success:true,
    verdict:"FAKE", confidence:87.3, fake_probability:0.873,
    real_probability:0.127, agreement_level:"HIGH", recommendation:...}]
    that carries no [individual_results], [Results] reads [map] off
    [undefined] (part_001 l.380) and throws a [TypeError]: the per-model
    panel is not suppressed, nothing is rendered.  The video renderer
    guards its own per-model list ([result.model_breakdown && ...length >
    0], l.197) and returns a tree on the same result; the image renderer
    has no such guard. *)
Theorem C1_results_throws_without_individual_results :
  success (Sample.fake_873 None) = Some true
  /\ verdict (Sample.fake_873 None) = Some "FAKE"
  /\ confidence (Sample.fake_873 None) = Some (Num.decimal 873 1)
  /\ individual_results (Sample.fake_873 None) = None
  /\ Results.Results (Sample.fake_873 None)
     = Throw (TypeError
         "Cannot read properties of undefined (reading 'map'): result.individual_results")
  /\ ~ (exists tree, Results.Results (Sample.fake_873 None) = Return tree)
  /\ model_breakdown (Sample.fake_873 None) = None
  /\ (exists tree,
        VideoResults.VideoResults (Sample.fake_873 None) = Return tree).
Proof.
  repeat split.
  - intros [tree H]. vm_compute in H. discriminate H.
  - eexists. vm_compute. reflexivity.
Qed.

(** Where the renderers do return.  The video renderer returns a tree for
    every Detection Result: an absent [model_breakdown],
    [suspicious_frames] or [confidence_timeline] leaves [undefined] in the
    place of its card (an empty one leaves [false]), an absent [analysis]
    gives the percentages [0], an absent [video_info] shows [N/A].  The
    image renderer returns a tree on the results whose [confidence] is a
    number and whose [individual_results] is a list, empty or not, of rows
    that carry a confidence; on verdict FAKE with confidence 87.3 its
    banner is the red circle, FAKE, and [Confidence: 87.30%]. *)
Lemma renderers_on_optional_fields :
  forall result : DetectionResult,
    (exists fakePct realPct breakdown suspicious timeline,
       VideoResults.VideoResults result
       = Return (Elem "div" [("className", str "video-results")]
                   [VideoResults.verdict_card result;
                    VideoResults.analysis_card result fakePct realPct;
                    breakdown; suspicious; timeline])
       /\ (model_breakdown result = None -> breakdown = Val VUndefined)
       /\ (model_breakdown result = Some [] -> breakdown = Val (VBool false))
       /\ (suspicious_frames result = None -> suspicious = Val VUndefined)
       /\ (suspicious_frames result = Some [] ->
           suspicious = Val (VBool false))
       /\ (confidence_timeline result = None -> timeline = Val VUndefined)
       /\ (confidence_timeline result = Some [] ->
           timeline = Val (VBool false))
       /\ (analysis result = None ->
           fakePct = VNum Num.zero /\ realPct = VNum Num.zero)
       /\ (video_info result = None ->
           or_else (of_number (video_info result ?. duration)) (str "N/A")
           = str "N/A"
           /\ or_else (of_number (video_info result ?. fps)) (str "N/A")
              = str "N/A"
           /\ or_else (of_string (video_info result ?. resolution))
                (str "N/A") = str "N/A"))
    /\ (forall (c : number) (rows : list ModelResult),
          confidence result = Some c ->
          individual_results result = Some rows ->
          Forall Results.has_confidence rows ->
          exists shown fake real cards,
            Fixed.toFixed c 2 = Return shown
            /\ List.length cards = List.length rows
            /\ Results.Results result
               = Return (Elem "Card" [("className", str "mt-4 results-card")]
                  [el "Card.Body" [
                     el "div" [
                       el "h2" [T (Results.getVerdictIcon (verdict result));
                                T " "; Val (of_string (verdict result))];
                       el "h4" [T "Confidence: "; Val (VStr shown); T "%"];
                       Elem "Badge"
                         [("bg", str (Results.getAgreementBadge
                                        (agreement_level result)))]
                         [T "Agreement: ";
                          Val (of_string (agreement_level result))]];
                     el "ProgressBar" [fake; real];
                     el "h6" [T "Individual Models:"];
                     Elem "div" [("className", str "models-breakdown")] cards;
                     Elem "Alert" [("variant", str "info")] [
                       el "div" [
                         el "i" [];
                         el "div" [el "strong" [T "Recommendation:"]; T " ";
                                   Val (of_string (recommendation result))]]]]])
            /\ (verdict result = Some "FAKE" ->
                c = Num.decimal 873 1 ->
                Results.getVerdictIcon (verdict result) = "🔴"
                /\ of_string (verdict result) = str "FAKE"
                /\ shown = [Chars "87.30"])).
Proof.
  intros result. split.
  - unfold VideoResults.VideoResults.
    destruct (percent_total (VideoResults.fakeFrames result)
                (VideoResults.totalFrames result)) as [fp Hfp].
    destruct (percent_total (VideoResults.realFrames result)
                (VideoResults.totalFrames result)) as [rp Hrp].
    destruct (when_nonempty_total (model_breakdown result)
                "result.model_breakdown"
                (VideoResults.breakdown_card result))
      as (b & Hb & Hb1 & Hb2);
      [intros xs; apply breakdown_card_total |].
    destruct (when_nonempty_total (suspicious_frames result)
                "result.suspicious_frames"
                (VideoResults.suspicious_card result))
      as (s & Hs & Hs1 & Hs2);
      [intros xs; apply suspicious_card_total |].
    destruct (when_nonempty_total (confidence_timeline result)
                "result.confidence_timeline"
                (VideoResults.timeline_card result))
      as (t & Ht & Ht1 & Ht2);
      [intros xs; apply timeline_card_total |].
    exists fp, rp, b, s, t.
    unfold VideoResults.fakePercent, VideoResults.realPercent.
    rewrite Hfp, Hrp. simpl bind. rewrite Hb, Hs, Ht.
    repeat split; auto.
    + destruct (zero_total_gives_zero_percent result) as (H1 & H2);
        [now left |].
      unfold VideoResults.fakePercent in H1. congruence.
    + destruct (zero_total_gives_zero_percent result) as (H1 & H2);
        [now left |].
      unfold VideoResults.realPercent in H2. congruence.
    + now rewrite H.
    + now rewrite H.
    + now rewrite H.
  - intros c rows Hc Hrows Hall.
    destruct (toFixed_returns c 2) as [shown Hshown]; [lia |].
    destruct (segment_total "danger" (fake_probability result) "% Fake" 1)
      as [fake Hfake].
    destruct (segment_total "success" (real_probability result) "% Real" 2)
      as [real Hreal].
    destruct (map_from_total Results.model_card rows) with (idx := 0%nat)
      as (cards & Hcards & Hlen).
    { apply Forall_forall. intros row Hin i. apply model_card_total.
      now apply (proj1 (Forall_forall _ _) Hall). }
    exists shown, fake, real, cards.
    repeat split; auto.
    + unfold Results.Results, Results.banner.
      rewrite Hc. simpl of_number. simpl call_toFixed. rewrite Hshown.
      simpl bind. rewrite Hfake, Hreal, Hrows. simpl Array_map.
      rewrite Hcards. reflexivity.
    + now rewrite H.
    + now rewrite H.
    + subst c. vm_compute in Hshown. congruence.
Qed.

(** The FAKE / 87.3 result with no row and with one row. *)
Lemma fake_873_banner :
  (exists tree, Results.Results (Sample.fake_873 (Some [])) = Return tree)
  /\ (exists tree,
        Results.Results (Sample.fake_873 (Some [Sample.one_row]))
        = Return tree)
  /\ Results.banner (Sample.fake_873 (Some []))
     = Return (el "div" [
         el "h2" [T "🔴"; T " "; T "FAKE"];
         el "h4" [T "Confidence: "; T "87.30"; T "%"];
         Elem "Badge" [("bg", str "success")] [T "Agreement: "; T "HIGH"]]).
Proof.
  split; [| split].
  - destruct (renderers_on_optional_fields (Sample.fake_873 (Some [])))
      as [_ H].
    destruct (H (Num.decimal 873 1) [] eq_refl eq_refl (Forall_nil _))
      as (shown & fake & real & cards & _ & _ & Hr & _).
    eexists. exact Hr.
  - destruct (renderers_on_optional_fields
                (Sample.fake_873 (Some [Sample.one_row]))) as [_ H].
    destruct (H (Num.decimal 873 1) [Sample.one_row] eq_refl eq_refl)
      as (shown & fake & real & cards & _ & _ & Hr & _).
    + constructor; [discriminate | constructor].
    + eexists. exact Hr.
  - reflexivity.
Defined.

(** ** The HTTP client *)

Lemma detectImage_fulfilled (file : File) (w : World)
  (body : DetectionResult) :
  detect_endpoint w (List.length (requests w)) (image_request file)
  = Fulfilled body ->
  Api.detectImage file w = (Return body, log_request (image_request file) w).
Proof.
  intros H. unfold Api.detectImage, try_catch, axios_post.
  change (Api.API_BASE_URL ++ "/detect")
    with "http://localhost:5000/api/detect".
  fold (image_request file). now rewrite H.
Qed.

Lemma detectVideo_fulfilled (file : File) (w : World)
  (body : DetectionResult) :
  detect_endpoint w (List.length (requests w)) (video_request file)
  = Fulfilled body ->
  Api.detectVideo file w = (Return body, log_request (video_request file) w).
Proof.
  intros H. unfold Api.detectVideo, try_catch, axios_post.
  change (Api.API_BASE_URL ++ "/detect_video")
    with "http://localhost:5000/api/detect_video".
  fold (video_request file). now rewrite H.
Qed.

Lemma detectImage_rejected (file : File) (w : World) (err : exn) :
  detect_endpoint w (List.length (requests w)) (image_request file)
  = Rejected err ->
  Api.detectImage file w
  = (Throw (Error
       match response err with
       | Some r => or_default (payload_error (data r)) "Detection failed"
       | None =>
           if request err then "Cannot connect to server"
           else "An error occurred while processing the request"
       end),
     snd (console_error "Detection failed:"
            (log_request (image_request file) w))).
Proof.
  intros H. unfold Api.detectImage, try_catch, axios_post.
  change (Api.API_BASE_URL ++ "/detect")
    with "http://localhost:5000/api/detect".
  fold (image_request file). rewrite H. simpl.
  destruct (response err) as [r |]; [reflexivity |].
  destruct (request err); reflexivity.
Qed.

Lemma detectVideo_rejected (file : File) (w : World) (err : exn) :
  detect_endpoint w (List.length (requests w)) (video_request file)
  = Rejected err ->
  Api.detectVideo file w
  = (Throw (Error
       match response err with
       | Some r =>
           or_default (payload_error (data r)) "Video detection failed"
       | None =>
           if request err then "Cannot connect to server"
           else "An error occurred while processing the video"
       end),
     snd (console_error "Video detection failed:"
            (log_request (video_request file) w))).
Proof.
  intros H. unfold Api.detectVideo, try_catch, axios_post.
  change (Api.API_BASE_URL ++ "/detect_video")
    with "http://localhost:5000/api/detect_video".
  fold (video_request file). rewrite H. simpl.
  destruct (response err) as [r |]; [reflexivity |].
  destruct (request err); reflexivity.
Qed.

Lemma or_default_nonempty (s fallback : string) :
  s <> "" -> or_default (Some s) fallback = s.
Proof.
  intros H. unfold or_default.
  now destruct (String.eqb_spec s "").
Qed.

Lemma or_default_missing (x : option string) (fallback : string) :
  x = None \/ x = Some "" -> or_default x fallback = fallback.
Proof. intros [-> | ->]; reflexivity. Qed.

(** [{success:false, error:""}] from the server, with status 500: the
    error string is there, and the message raised is the fallback. *)
Lemma C3_empty_server_error_falls_back :
  let err := AxiosError "Request failed with status code 500"
               (Some {| http_status := 500;
                        data := Sample.failure (Some "") |}) true in
  payload_error (Sample.failure (Some "")) = Some ""
  /\ fst (Api.detectImage Sample.photo (Sample.rejecting err))
     = Throw (Error "Detection failed")
  /\ fst (Api.detectVideo Sample.clip (Sample.rejecting err))
     = Throw (Error "Video detection failed")
  /\ fst (Api.detectImage Sample.photo (Sample.rejecting err))
     <> Throw (Error "").
Proof. repeat split. discriminate. Qed.

(** C3, as the code has it.  A rejected upload raises one [Error] whose
    message follows the taxonomy, in this order: with a server response,
    its error string when that is a non-empty string and the fallback of
    the endpoint otherwise; without response but with the request sent,
    "Cannot connect to server"; otherwise the generic message of the
    endpoint.  One request was issued, none after the failure. *)
Theorem C3_failure_taxonomy :
  forall (file : File) (w : World) (err : exn),
    (forall r, detect_endpoint w (List.length (requests w)) r
               = Rejected err) ->
    exists (msgImage msgVideo : string) (wImage wVideo : World),
      Api.detectImage file w = (Throw (Error msgImage), wImage)
      /\ Api.detectVideo file w = (Throw (Error msgVideo), wVideo)
      /\ requests wImage = (requests w ++ [image_request file])%list
      /\ requests wVideo = (requests w ++ [video_request file])%list
      /\ (forall resp s,
            response err = Some resp ->
            payload_error (data resp) = Some s -> s <> "" ->
            msgImage = s /\ msgVideo = s)
      /\ (forall resp,
            response err = Some resp ->
            payload_error (data resp) = None
            \/ payload_error (data resp) = Some "" ->
            msgImage = "Detection failed"
            /\ msgVideo = "Video detection failed")
      /\ (response err = None -> request err = true ->
          msgImage = "Cannot connect to server"
          /\ msgVideo = "Cannot connect to server")
      /\ (response err = None -> request err = false ->
          msgImage = "An error occurred while processing the request"
          /\ msgVideo = "An error occurred while processing the video").
Proof.
  intros file w err Hrej.
  do 4 eexists.
  split; [apply detectImage_rejected, Hrej |].
  split; [apply detectVideo_rejected, Hrej |].
  split; [reflexivity |]. split; [reflexivity |].
  repeat split.
  - rewrite H, H0. now apply or_default_nonempty.
  - rewrite H, H0. now apply or_default_nonempty.
  - rewrite H. now apply or_default_missing.
  - rewrite H. now apply or_default_missing.
  - now rewrite H, H0.
  - now rewrite H, H0.
  - now rewrite H, H0.
  - now rewrite H, H0.
Qed.

(** C3 on a server that answers 500 with ["corrupt file"], and on a server
    that cannot be reached. *)
Lemma C3_failure_examples :
  fst (Api.detectImage Sample.photo
         (Sample.rejecting
            (AxiosError "Request failed with status code 500"
               (Some {| http_status := 500;
                        data := Sample.failure (Some "corrupt file") |})
               true)))
  = Throw (Error "corrupt file")
  /\ fst (Api.detectVideo Sample.clip (Sample.rejecting Sample.unreachable))
     = Throw (Error "Cannot connect to server").
Proof.
  split.
  - destruct (C3_failure_taxonomy Sample.photo
                (Sample.rejecting
                   (AxiosError "Request failed with status code 500"
                      (Some {| http_status := 500;
                               data := Sample.failure (Some "corrupt file") |})
                      true))
                _ (fun r => eq_refl))
      as (mi & mv & wi & wv & Hi & _ & _ & _ & Hs & _).
    destruct (Hs _ "corrupt file" eq_refl eq_refl) as [-> _];
      [discriminate |].
    now rewrite Hi.
  - destruct (C3_failure_taxonomy Sample.clip
                (Sample.rejecting Sample.unreachable) _ (fun r => eq_refl))
      as (mi & mv & wi & wv & _ & Hv & _ & _ & _ & _ & Hc & _).
    destruct (Hc eq_refl eq_refl) as [_ ->].
    now rewrite Hv.
Defined.

(** The request [detectVideo] issues carries the constant 300000 ms, five
    minutes: below ten minutes, and the same for every file and world. *)
Lemma C6_video_timeout_is_five_minutes :
  requests (snd (Api.detectVideo Sample.clip Sample.offline_world))
  = [video_request Sample.clip]
  /\ timeout (video_request Sample.clip) = Some 300000
  /\ 300000 = 5 * 60 * 1000
  /\ 300000 < 10 * 60 * 1000
  /\ timeout (video_request Sample.long_clip)
     = timeout (video_request Sample.clip).
Proof. repeat split. Qed.

(** C6, as the code has it.  [detectVideo] does what [detectImage] does,
    against [/detect_video] and with the file under the form field [video]
    instead of [file]: one POST, the payload returned when the call
    succeeds, an [Error] raised when it fails.  Its request carries a fixed
    300000 ms (five minutes) timeout, where [detectImage] sets none. *)
Theorem C6_detectVideo_mirrors_detectImage :
  forall (file : File) (w : World),
    requests (snd (Api.detectImage file w))
    = (requests w ++ [image_request file])%list
    /\ requests (snd (Api.detectVideo file w))
       = (requests w ++ [video_request file])%list
    /\ timeout (image_request file) = None
    /\ timeout (video_request file) = Some (5 * 60 * 1000)
    /\ url (video_request file) = Api.API_BASE_URL ++ "/detect_video"
    /\ url (image_request file) = Api.API_BASE_URL ++ "/detect"
    /\ formData (video_request file) = [("video", file)]
    /\ formData (image_request file) = [("file", file)]
    /\ (forall body,
          (forall r, detect_endpoint w (List.length (requests w)) r
                     = Fulfilled body) ->
          fst (Api.detectImage file w) = Return body
          /\ fst (Api.detectVideo file w) = Return body)
    /\ (forall err,
          (forall r, detect_endpoint w (List.length (requests w)) r
                     = Rejected err) ->
          exists msgImage msgVideo,
            fst (Api.detectImage file w) = Throw (Error msgImage)
            /\ fst (Api.detectVideo file w) = Throw (Error msgVideo)
            /\ (response err = None -> request err = true ->
                msgImage = msgVideo)
            /\ (forall resp s,
                  response err = Some resp ->
                  payload_error (data resp) = Some s -> s <> "" ->
                  msgImage = s /\ msgVideo = s)).
Proof.
  intros file w.
  assert (Hlog :
    requests (snd (Api.detectImage file w))
    = (requests w ++ [image_request file])%list
    /\ requests (snd (Api.detectVideo file w))
       = (requests w ++ [video_request file])%list).
  { destruct (detect_endpoint w (List.length (requests w))
                (image_request file)) as [b | e] eqn:Hi;
    destruct (detect_endpoint w (List.length (requests w))
                (video_request file)) as [b' | e'] eqn:Hv;
    rewrite ?(detectImage_fulfilled _ _ _ Hi),
            ?(detectImage_rejected _ _ _ Hi),
            ?(detectVideo_fulfilled _ _ _ Hv),
            ?(detectVideo_rejected _ _ _ Hv);
    split; reflexivity. }
  destruct Hlog as [Hi Hv].
  repeat split; try assumption; try reflexivity.
  - now rewrite (detectImage_fulfilled _ _ _ (H _)).
  - now rewrite (detectVideo_fulfilled _ _ _ (H _)).
  - intros err Hrej. do 2 eexists.
    rewrite (detectImage_rejected _ _ _ (Hrej _)),
            (detectVideo_rejected _ _ _ (Hrej _)).
    repeat split.
    + intros Hr Hq. now rewrite Hr, Hq.
    + rewrite H, H0. now apply or_default_nonempty.
    + rewrite H, H0. now apply or_default_nonempty.
Qed.

(** C6 on a server that answers every upload with the same payload. *)
Lemma C6_same_payload_from_both :
  fst (Api.detectImage Sample.photo (Sample.answering Sample.video_ok))
  = Return Sample.video_ok
  /\ fst (Api.detectVideo Sample.clip (Sample.answering Sample.video_ok))
     = Return Sample.video_ok.
Proof.
  split.
  - destruct (C6_detectVideo_mirrors_detectImage Sample.photo
                (Sample.answering Sample.video_ok))
      as (_ & _ & _ & _ & _ & _ & _ & _ & H & _).
    apply (H Sample.video_ok). intros r. reflexivity.
  - destruct (C6_detectVideo_mirrors_detectImage Sample.clip
                (Sample.answering Sample.video_ok))
      as (_ & _ & _ & _ & _ & _ & _ & _ & H & _).
    apply (H Sample.video_ok). intros r. reflexivity.
Defined.

(** ** The controller *)

Lemma handleAnalyze_fulfilled (st : App.State) (w : World) (file : File)
  (payload : DetectionResult) :
  App.selectedFile st = Some file ->
  (forall r, detect_endpoint w (List.length (requests w)) r
             = Fulfilled payload) ->
  fst (App.handleAnalyze st w)
  = App.setLoading false
      (if App.flag (success payload) then
         App.setResult (Some payload)
           (App.setResult None (App.setError None (App.setLoading true st)))
       else
         App.setError
           (Some (or_default (payload_error payload) "Detection failed"))
           (App.setResult None (App.setError None (App.setLoading true st)))).
Proof.
  intros Hfile Hok. unfold App.handleAnalyze. rewrite Hfile.
  destruct (App.isVideo _).
  - rewrite (detectVideo_fulfilled _ _ _ (Hok _)). reflexivity.
  - rewrite (detectImage_fulfilled _ _ _ (Hok _)). reflexivity.
Qed.

(** [{success:false, error:""}] with status 200: the error string is
    there, and the error shown is the generic one. *)
Lemma C2_empty_payload_error_falls_back :
  let st := fst (App.handleAnalyze (Sample.selected Sample.photo 0%nat)
                   (Sample.answering (Sample.failure (Some "")))) in
  payload_error (Sample.failure (Some "")) = Some ""
  /\ App.error st = Some "Detection failed"
  /\ App.error st <> Some "".
Proof. repeat split. discriminate. Qed.

(** C2, as the code has it.  When the upload succeeds and the payload's
    [success] is not true, the error state becomes the payload's error
    string when that is a non-empty string, the generic "Detection failed"
    when it is absent or empty; no result is set and loading is over. *)
Theorem C2_payload_failure_sets_error :
  forall (st : App.State) (w : World) (file : File)
         (payload : DetectionResult),
    App.selectedFile st = Some file ->
    (forall r, detect_endpoint w (List.length (requests w)) r
               = Fulfilled payload) ->
    App.flag (success payload) = false ->
    App.result (fst (App.handleAnalyze st w)) = None
    /\ App.loading (fst (App.handleAnalyze st w)) = false
    /\ (forall s, payload_error payload = Some s -> s <> "" ->
        App.error (fst (App.handleAnalyze st w)) = Some s)
    /\ (payload_error payload = None \/ payload_error payload = Some "" ->
        App.error (fst (App.handleAnalyze st w)) = Some "Detection failed").
Proof.
  intros st w file payload Hfile Hok Hflag.
  rewrite (handleAnalyze_fulfilled st w file payload Hfile Hok), Hflag.
  repeat split.
  - intros s Hs Hne. simpl. rewrite Hs. f_equal.
    now apply or_default_nonempty.
  - intros Hmissing. simpl. f_equal. now apply or_default_missing.
Qed.

(** C2 on [{success:false, error:"corrupt file"}], for an image and for a
    video. *)
Lemma C2_corrupt_file_is_shown :
  App.error (fst (App.handleAnalyze (Sample.selected Sample.photo 0%nat)
                    (Sample.answering
                       (Sample.failure (Some "corrupt file")))))
  = Some "corrupt file"
  /\ App.error (fst (App.handleAnalyze (Sample.selected Sample.clip 0%nat)
                       (Sample.answering
                          (Sample.failure (Some "corrupt file")))))
     = Some "corrupt file".
Proof.
  split.
  - destruct (C2_payload_failure_sets_error
                (Sample.selected Sample.photo 0%nat)
                (Sample.answering (Sample.failure (Some "corrupt file")))
                Sample.photo (Sample.failure (Some "corrupt file"))
                eq_refl (fun r => eq_refl) eq_refl)
      as (_ & _ & H & _).
    apply H; [reflexivity | discriminate].
  - destruct (C2_payload_failure_sets_error
                (Sample.selected Sample.clip 0%nat)
                (Sample.answering (Sample.failure (Some "corrupt file")))
                Sample.clip (Sample.failure (Some "corrupt file"))
                eq_refl (fun r => eq_refl) eq_refl)
      as (_ & _ & H & _).
    apply H; [reflexivity | discriminate].
Defined.

(** C4. After the health check: [ready] when the health object is
    [{status:"ok", detector_ready:true}], [not_ready] for any other
    received health object, [offline] when the call throws.  In the states
    [not_ready] and [offline] the analyze button is rendered disabled. *)
Theorem C4_health_check_sets_apiStatus :
  forall (st : App.State) (w : World),
    (forall health,
       health_endpoint w (List.length (requests w)) = Fulfilled health ->
       (status health = Some "ok" -> detector_ready health = Some true ->
        App.apiStatus (fst (App.checkApiHealth st w)) = App.ready)
       /\ (status health <> Some "ok" \/ detector_ready health <> Some true ->
           App.apiStatus (fst (App.checkApiHealth st w)) = App.not_ready))
    /\ (forall err,
          health_endpoint w (List.length (requests w)) = Rejected err ->
          App.apiStatus (fst (App.checkApiHealth st w)) = App.offline)
    /\ (App.apiStatus (fst (App.checkApiHealth st w)) = App.not_ready
        \/ App.apiStatus (fst (App.checkApiHealth st w)) = App.offline ->
        App.analyzeDisabled (fst (App.checkApiHealth st w)) = true
        /\ App.offered (fst (App.checkApiHealth st w)) App.ClickAnalyze
           = false
        /\ exists label,
             App.analyze_button (fst (App.checkApiHealth st w))
             = el "div" [
                 Elem "Button"
                   [("onClick", VFun "handleAnalyze");
                    ("disabled", VBool true)]
                   label]).
Proof.
  intros st w. split; [| split].
  - intros health Hh. unfold App.checkApiHealth, Api.checkHealth, try_catch,
      axios_get.
    rewrite Hh. split.
    + intros Hs Hd. rewrite Hs, Hd. reflexivity.
    + intros Hother.
      destruct (status health) as [s |] eqn:Hs; [| reflexivity].
      destruct (String.eqb_spec s "ok") as [-> | Hne]; [| reflexivity].
      destruct (detector_ready health) as [[|] |]; try reflexivity.
      destruct Hother as [Hc | Hc]; now elim Hc.
  - intros err He. unfold App.checkApiHealth, Api.checkHealth, try_catch,
      axios_get.
    rewrite He. reflexivity.
  - intros Hstatus.
    assert (Hd : App.analyzeDisabled (fst (App.checkApiHealth st w)) = true).
    { unfold App.analyzeDisabled.
      destruct Hstatus as [-> | ->]; apply orb_true_r. }
    split; [exact Hd | split].
    + unfold App.offered. rewrite Hd.
      destruct (App.selectedFile _); [destruct (App.result _) |]; reflexivity.
    + unfold App.analyze_button. rewrite Hd. eexists; reflexivity.
Qed.

(** C4 on a ready server, on a server whose detector is still loading, and
    on an unreachable one. *)
Lemma C4_health_examples :
  App.apiStatus (fst (App.checkApiHealth App.initial
                        (Sample.answering Sample.video_ok))) = App.ready
  /\ App.apiStatus
       (fst (App.checkApiHealth App.initial
               (Sample.world
                  (fun _ => Fulfilled {| status := Some "ok";
                                         detector_ready := Some false |})
                  (fun _ _ => Rejected Sample.unreachable))))
     = App.not_ready
  /\ App.analyzeDisabled
       (fst (App.checkApiHealth App.initial Sample.offline_world)) = true.
Proof.
  split; [| split].
  - destruct (C4_health_check_sets_apiStatus App.initial
                (Sample.answering Sample.video_ok)) as (H & _).
    apply (H Sample.healthy); reflexivity.
  - destruct (C4_health_check_sets_apiStatus App.initial
                (Sample.world
                   (fun _ => Fulfilled {| status := Some "ok";
                                          detector_ready := Some false |})
                   (fun _ _ => Rejected Sample.unreachable))) as (H & _).
    apply (H {| status := Some "ok"; detector_ready := Some false |});
      [reflexivity |].
    right. discriminate.
  - destruct (C4_health_check_sets_apiStatus App.initial
                Sample.offline_world) as (_ & Hoff & H).
    apply H. right. apply (Hoff Sample.unreachable). reflexivity.
Defined.

(** ** The preview object URL *)

(** The image path: the URL made when the file is chosen is the one
    [handleRemove] revokes, once, and the state keeps no URL. *)
Lemma image_preview_url_released_once (file : File) (st : App.State)
  (w : World) :
  Forall (fun u => (u < List.length (created w))%nat) (revoked w) ->
  exists u st1 w1 st2 w2,
    App.handleFileSelect file st w = (Return st1, w1)
    /\ App.imageUrl st1 = Some u
    /\ releases u w1 = 0%nat
    /\ App.handleRemove st1 w1 = (Return st2, w2)
    /\ releases u w2 = 1%nat
    /\ App.imageUrl st2 = None
    /\ App.selectedFile st2 = None
    /\ App.result st2 = None
    /\ App.error st2 = None.
Proof.
  intros Hfresh.
  assert (H0 : releases (List.length (created w)) w = 0%nat).
  { unfold releases. apply count_occ_not_In. intros Hin.
    apply (proj1 (Forall_forall _ _) Hfresh) in Hin. lia. }
  exists (List.length (created w)).
  do 4 eexists.
  split; [reflexivity |]. split; [reflexivity |].
  split; [exact H0 |]. split; [reflexivity |].
  split; [| repeat split].
  unfold releases, ObjectURL in *. simpl. rewrite count_occ_app, H0. simpl.
  destruct (Nat.eq_dec _ _); [reflexivity | contradiction].
Qed.

(** C7 at a video: the page is opened, a video is chosen, analysed and
    removed, every event being on offer when it happens.  The URL made by
    the controller (number 0) is revoked once; the URLs made by
    [VideoPreview], one per render (numbers 1 and 2), are never revoked
    and stay registered after the file is gone. *)
Theorem C7_video_preview_urls_are_never_revoked :
  exists (st : App.State) (w : World),
    App.run [App.Mount; App.ChooseFile Sample.clip; App.ClickAnalyze;
             App.ClickRemove]
      (App.initial, Sample.answering Sample.video_ok) = Some (st, w)
    /\ App.selectedFile st = None
    /\ App.imageUrl st = None
    /\ created w = [(0, Sample.clip); (1, Sample.clip); (2, Sample.clip)]%nat
    /\ releases 0%nat w = 1%nat
    /\ releases 1%nat w = 0%nat
    /\ releases 2%nat w = 0%nat
    /\ live 1%nat w = true
    /\ live 2%nat w = true.
Proof.
  do 2 eexists. split; [vm_compute; reflexivity |].
  repeat split.
Qed.

(** The same session with an image: one URL, revoked once. *)
Lemma image_session_releases_its_url :
  exists (st : App.State) (w : World),
    App.run [App.Mount; App.ChooseFile Sample.photo; App.ClickAnalyze;
             App.ClickRemove]
      (App.initial, Sample.answering (Sample.fake_873 (Some []))) = Some (st, w)
    /\ created w = [(0%nat, Sample.photo)]
    /\ releases 0%nat w = 1%nat
    /\ live 0%nat w = false.
Proof.
  do 2 eexists. split; [vm_compute; reflexivity |].
  repeat split.
Qed.

(** *** The image path over whole sessions *)

Lemma mount_keeps_world (c : App.child) (w : World) :
  keeps_urls c -> snd (App.mount c w) = w.
Proof.
  destruct c; simpl; try reflexivity; contradiction.
Qed.

Lemma mount_all_keeps_world (cs : list App.child) (w : World) :
  Forall keeps_urls cs -> snd (App.mount_all cs w) = w.
Proof.
  induction 1 as [| c rest Hc _ IH]; [reflexivity |].
  simpl. pose proof (mount_keeps_world c w Hc) as Hw.
  destruct (App.mount c w) as [[n | e] w1]; simpl in Hw; subst w1;
    [| reflexivity].
  destruct (App.mount_all rest w) as [[ns | e] w2]; simpl in IH; subst w2;
    reflexivity.
Qed.

Lemma App_keeps_urls (st : App.State) :
  App.isVideo st = false -> Forall keeps_urls (App.App st).
Proof.
  intros Hv. unfold App.App, App.status_alerts.
  rewrite Hv.
  repeat (apply Forall_cons || apply Forall_app || split);
    try exact I; try apply Forall_nil.
  - destruct (App.selectedFile st); exact I.
  - destruct (App.selectedFile st); exact I.
  - destruct (App.selectedFile st), (App.result st); exact I.
  - destruct (App.error st) as [e |]; [| exact I].
    destruct (e === ""); exact I.
  - destruct (App.result st); repeat constructor.
Qed.

Lemma render_keeps_world (st : App.State) (w : World) :
  App.isVideo st = false -> snd (App.render st w) = w.
Proof.
  intros Hv. apply mount_all_keeps_world. now apply App_keeps_urls.
Qed.

Lemma checkApiHealth_keeps_urls (st : App.State) (w : World) :
  exists s,
    fst (App.checkApiHealth st w) = App.setApiStatus s st
    /\ created (snd (App.checkApiHealth st w)) = created w
    /\ revoked (snd (App.checkApiHealth st w)) = revoked w.
Proof.
  unfold App.checkApiHealth, Api.checkHealth, try_catch, axios_get.
  destruct (health_endpoint w (List.length (requests w))) as [h | e]; simpl.
  - destruct (match status h with Some s => s === "ok" | None => false end
              && App.flag (detector_ready h));
      eexists; repeat split.
  - eexists; repeat split.
Qed.

Lemma handleAnalyze_keeps_urls (st : App.State) (w : World) :
  App.selectedFile (fst (App.handleAnalyze st w)) = App.selectedFile st
  /\ App.imageUrl (fst (App.handleAnalyze st w)) = App.imageUrl st
  /\ created (snd (App.handleAnalyze st w)) = created w
  /\ revoked (snd (App.handleAnalyze st w)) = revoked w.
Proof.
  unfold App.handleAnalyze.
  destruct (App.selectedFile st) as [file |] eqn:Hf;
    [| simpl; repeat split; auto].
  destruct (App.isVideo _).
  - destruct (detect_endpoint w (List.length (requests w))
                (video_request file)) as [b | e] eqn:He.
    + rewrite (detectVideo_fulfilled _ _ _ He).
      destruct (App.flag (success b)); repeat split; simpl; auto.
    + rewrite (detectVideo_rejected _ _ _ He). repeat split; simpl; auto.
  - destruct (detect_endpoint w (List.length (requests w))
                (image_request file)) as [b | e] eqn:He.
    + rewrite (detectImage_fulfilled _ _ _ He).
      destruct (App.flag (success b)); repeat split; simpl; auto.
    + rewrite (detectImage_rejected _ _ _ He). repeat split; simpl; auto.
Qed.

Lemma chooseFile_effect (file : File) (st : App.State) (w : World) :
  (fst (App.handle (App.ChooseFile file) st w) = st
   /\ created (snd (App.handle (App.ChooseFile file) st w)) = created w
   /\ revoked (snd (App.handle (App.ChooseFile file) st w)) = revoked w)
  \/ (App.selectedFile (fst (App.handle (App.ChooseFile file) st w))
      = Some file
      /\ App.imageUrl (fst (App.handle (App.ChooseFile file) st w))
         = Some (List.length (created w))
      /\ created (snd (App.handle (App.ChooseFile file) st w))
         = (created w ++ [(List.length (created w), file)])%list
      /\ revoked (snd (App.handle (App.ChooseFile file) st w)) = revoked w).
Proof.
  unfold App.handle, UploadArea.handleFile.
  destruct (negb (String.prefix "image/" (type file))
            && negb (String.prefix "video/" (type file)));
    [left; repeat split |].
  destruct (N.ltb _ (size file)); [left; repeat split |].
  right. repeat split.
Qed.

Lemma remove_effect (st : App.State) (w : World) :
  App.selectedFile (fst (App.handle App.ClickRemove st w)) = None
  /\ App.imageUrl (fst (App.handle App.ClickRemove st w)) = None
  /\ created (snd (App.handle App.ClickRemove st w)) = created w
  /\ revoked (snd (App.handle App.ClickRemove st w))
     = match App.imageUrl st with
       | Some u => (revoked w ++ [u])%list
       | None => revoked w
       end.
Proof.
  unfold App.handle, App.handleRemove.
  destruct (App.imageUrl st); repeat split.
Qed.

Lemma isVideo_by_file (st st' : App.State) :
  App.selectedFile st' = App.selectedFile st ->
  App.isVideo st' = App.isVideo st.
Proof. unfold App.isVideo. now intros ->. Qed.

Lemma handle_keeps_accounts (ev : App.Event) (st : App.State) (w : World) :
  urls_accounted st w -> App.offered st ev = true -> no_video ev ->
  urls_accounted (fst (App.handle ev st w)) (snd (App.handle ev st w)).
Proof.
  intros [Hnone Hvid Hdup Hcr Hlive Hrest] Hoff Hev.
  destruct ev as [| | file | |].
  - (* Mount *)
    destruct (checkApiHealth_keeps_urls st w) as (s & Hst & Hc & Hr).
    simpl App.handle. rewrite Hst.
    constructor; rewrite ?Hc, ?Hr; auto.
  - (* Retry *)
    destruct (checkApiHealth_keeps_urls st w) as (s & Hst & Hc & Hr).
    simpl App.handle. rewrite Hst.
    constructor; rewrite ?Hc, ?Hr; auto.
  - (* ChooseFile *)
    assert (Hfree : App.selectedFile st = None).
    { simpl in Hoff. now destruct (App.selectedFile st). }
    specialize (Hnone Hfree).
    destruct (chooseFile_effect file st w)
      as [(Hst & Hc & Hr) | (Hsel & Hurl & Hc & Hr)].
    + rewrite Hst. constructor; rewrite ?Hc, ?Hr; auto.
    + constructor; rewrite ?Hc, ?Hr, ?Hurl, ?Hsel; auto.
      * discriminate.
      * unfold App.isVideo. rewrite Hsel. exact Hev.
      * intros u Hin. rewrite length_app. simpl.
        specialize (Hcr u Hin). lia.
      * intros u [= <-]. rewrite length_app. simpl. split; [lia |].
        intros Hin. specialize (Hcr _ Hin). lia.
      * intros u Hlt Hne. rewrite length_app in Hlt. simpl in Hlt.
        apply Hrest; [| rewrite Hnone; discriminate].
        assert (u <> List.length (created w)) by congruence. lia.
  - (* ClickRemove *)
    destruct (remove_effect st w) as (Hsel & Hurl & Hc & Hr).
    constructor; rewrite ?Hc, ?Hr, ?Hurl; auto.
    + unfold App.isVideo. now rewrite Hsel.
    + destruct (App.imageUrl st) as [u |] eqn:Hu; [| exact Hdup].
      apply NoDup_app; [exact Hdup | repeat constructor; intros [] |].
      intros x Hin [<- | []]. now apply (Hlive u eq_refl).
    + intros u Hin. destruct (App.imageUrl st) as [v |] eqn:Hv; auto.
      apply in_app_or in Hin. destruct Hin as [Hin | [<- | []]]; auto.
      now apply (Hlive v eq_refl).
    + discriminate.
    + intros u Hlt _. destruct (App.imageUrl st) as [v |] eqn:Hv.
      * apply in_or_app. destruct (Nat.eq_dec u v) as [-> | Hne].
        -- right. now left.
        -- left. apply Hrest; [exact Hlt | congruence].
      * apply Hrest; [exact Hlt | discriminate].
  - (* ClickAnalyze *)
    destruct (handleAnalyze_keeps_urls st w) as (Hsel & Hurl & Hc & Hr).
    simpl App.handle.
    constructor; rewrite ?Hc, ?Hr, ?Hurl, ?Hsel; auto.
    now rewrite (isVideo_by_file _ _ Hsel).
Qed.

Lemma step_keeps_accounts (ev : App.Event) (st : App.State) (w : World) :
  urls_accounted st w -> App.offered st ev = true -> no_video ev ->
  urls_accounted (fst (App.step ev (st, w))) (snd (App.step ev (st, w))).
Proof.
  intros Hinv Hoff Hev.
  pose proof (handle_keeps_accounts ev st w Hinv Hoff Hev) as H.
  unfold App.step. simpl fst. simpl snd.
  destruct (App.handle ev st w) as [st' w']. simpl in *.
  now rewrite (render_keeps_world st' w' (shows_no_video _ _ H)).
Qed.

(** Over any session in which no video is chosen, whatever the server
    answers: every object URL made is accounted for, so no URL is ever
    revoked twice, and once the file is removed every URL made has been
    revoked exactly once. *)
Lemma image_urls_released_exactly_once (evs : list App.Event) :
  Forall no_video evs ->
  forall (st0 : App.State) (w0 : World) (st : App.State) (w : World),
    urls_accounted st0 w0 ->
    App.run evs (st0, w0) = Some (st, w) ->
    urls_accounted st w
    /\ (forall u, (releases u w <= 1)%nat)
    /\ (App.selectedFile st = None ->
        forall u, (u < List.length (created w))%nat -> releases u w = 1%nat).
Proof.
  induction 1 as [| ev rest Hev _ IH]; intros st0 w0 st w Hinv Hrun.
  - injection Hrun as <- <-. split; [exact Hinv |].
    destruct Hinv as [Hnone Hvid Hdup Hcr Hlive Hrest]. split.
    + intros u. now apply (proj1 (NoDup_count_occ Nat.eq_dec _)).
    + intros Hfree u Hlt.
      apply (proj1 (NoDup_count_occ' Nat.eq_dec _) Hdup).
      apply Hrest; [exact Hlt |]. rewrite (Hnone Hfree). discriminate.
  - simpl in Hrun.
    destruct (App.offered st0 ev) eqn:Hoff; [| discriminate].
    pose proof (step_keeps_accounts ev st0 w0 Hinv Hoff Hev) as Hnext.
    destruct (App.step ev (st0, w0)) as [st1 w1].
    now apply (IH st1 w1).
Qed.

Lemma initial_urls_accounted (w : World) :
  created w = [] -> revoked w = [] -> urls_accounted App.initial w.
Proof.
  intros Hc Hr. constructor; rewrite ?Hc, ?Hr; simpl; try easy.
  - constructor.
Qed.

(** From the page load, in front of any server. *)
Corollary image_sessions_leak_no_url (evs : list App.Event) (w0 : World)
  (st : App.State) (w : World) :
  Forall no_video evs ->
  created w0 = [] -> revoked w0 = [] ->
  App.run evs (App.initial, w0) = Some (st, w) ->
  (forall u, (releases u w <= 1)%nat)
  /\ (App.selectedFile st = None ->
      forall u, (u < List.length (created w))%nat -> releases u w = 1%nat).
Proof.
  intros Hev Hc Hr Hrun.
  destruct (image_urls_released_exactly_once evs Hev App.initial w0 st w
              (initial_urls_accounted w0 Hc Hr) Hrun) as (_ & H1 & H2).
  split; assumption.
Qed.

(** * Further properties of the client and the controller *)

(** ** The health request *)

Lemma health_request_logged (w : World) :
  requests (snd (Api.checkHealth w))
  = (requests w
     ++ [{| method := "GET"; url := "http://localhost:5000/api/health";
            formData := []; headers := []; timeout := None |}])%list.
Proof.
  unfold Api.checkHealth, try_catch, axios_get.
  destruct (health_endpoint w (List.length (requests w))); reflexivity.
Qed.

(** X1. [checkHealth] sends one GET to [/health] and passes the outcome
    through: the health object as it came, or the very error axios
    rejected with, rethrown after one line on the console.  Unlike the two
    upload functions it does not wrap the error in a new [Error]. *)
Theorem checkHealth_passes_the_outcome_through :
  forall (w : World),
    (forall health,
       health_endpoint w (List.length (requests w)) = Fulfilled health ->
       fst (Api.checkHealth w) = Return health
       /\ console (snd (Api.checkHealth w)) = console w)
    /\ (forall err,
          health_endpoint w (List.length (requests w)) = Rejected err ->
          fst (Api.checkHealth w) = Throw err
          /\ console (snd (Api.checkHealth w))
             = (console w ++ ["Health check failed:"])%list)
    /\ List.length (requests (snd (Api.checkHealth w)))
       = S (List.length (requests w)).
Proof.
  intros w. split; [| split].
  - intros health H. unfold Api.checkHealth, try_catch, axios_get.
    rewrite H. split; reflexivity.
  - intros err H. unfold Api.checkHealth, try_catch, axios_get.
    rewrite H. split; reflexivity.
  - rewrite health_request_logged, length_app. simpl. lia.
Qed.

Lemma checkHealth_rethrows_network_error :
  fst (Api.checkHealth Sample.offline_world) = Throw Sample.unreachable
  /\ fst (Api.checkHealth (Sample.answering Sample.video_ok))
     = Return Sample.healthy.
Proof.
  split.
  - destruct (checkHealth_passes_the_outcome_through Sample.offline_world)
      as (_ & H & _).
    apply (H Sample.unreachable). reflexivity.
  - destruct (checkHealth_passes_the_outcome_through
                (Sample.answering Sample.video_ok)) as (H & _).
    apply (H Sample.healthy). reflexivity.
Defined.

(** ** One analysis *)

Lemma handleAnalyze_state (st : App.State) (w : World) (file : File) :
  App.selectedFile st = Some file ->
  fst (App.handleAnalyze st w)
  = App.setLoading false
      (let st1 :=
         App.setResult None (App.setError None (App.setLoading true st)) in
       match fst ((if String.prefix "video/" (type file)
                   then Api.detectVideo file
                   else Api.detectImage file) w) with
       | Return payload =>
           if App.flag (success payload)
           then App.setResult (Some payload) st1
           else App.setError
                  (Some (or_default (payload_error payload)
                                    "Detection failed")) st1
       | Throw err => App.setError (Some (message err)) st1
       end)
  /\ snd (App.handleAnalyze st w)
     = snd ((if String.prefix "video/" (type file)
             then Api.detectVideo file
             else Api.detectImage file) w).
Proof.
  intros Hfile. unfold App.handleAnalyze. rewrite Hfile.
  cbv zeta. unfold App.isVideo.
  change (App.selectedFile
            (App.setResult None
               (App.setError None (App.setLoading true st))))
    with (App.selectedFile st).
  rewrite Hfile.
  destruct (String.prefix "video/" (type file)).
  - destruct (Api.detectVideo file w) as [[payload | err] w'];
      split; reflexivity.
  - destruct (Api.detectImage file w) as [[payload | err] w'];
      split; reflexivity.
Qed.

Lemma upload_world (file : File) (w : World) :
  snd (Api.detectImage file w)
  = match detect_endpoint w (List.length (requests w))
            (image_request file) with
    | Fulfilled _ => log_request (image_request file) w
    | Rejected _ =>
        snd (console_error "Detection failed:"
               (log_request (image_request file) w))
    end
  /\ snd (Api.detectVideo file w)
     = match detect_endpoint w (List.length (requests w))
             (video_request file) with
       | Fulfilled _ => log_request (video_request file) w
       | Rejected _ =>
           snd (console_error "Video detection failed:"
                  (log_request (video_request file) w))
       end.
Proof.
  split.
  - destruct (detect_endpoint w (List.length (requests w))
                (image_request file)) as [b | e] eqn:H.
    + now rewrite (detectImage_fulfilled _ _ _ H).
    + now rewrite (detectImage_rejected _ _ _ H).
  - destruct (detect_endpoint w (List.length (requests w))
                (video_request file)) as [b | e] eqn:H.
    + now rewrite (detectVideo_fulfilled _ _ _ H).
    + now rewrite (detectVideo_rejected _ _ _ H).
Qed.

(** X2. Without a selected file [handleAnalyze] does nothing: the state
    and the world are left as they were, no request is sent.  With a file
    it sends exactly one request carrying that file: to [/detect_video]
    when the declared type starts with [video/], to [/detect] otherwise;
    it raises no alert and touches no object URL. *)
Theorem handleAnalyze_sends_one_upload_by_type :
  forall (st : App.State) (w : World),
    (App.selectedFile st = None -> App.handleAnalyze st w = (st, w))
    /\ (forall file,
          App.selectedFile st = Some file ->
          requests (snd (App.handleAnalyze st w))
          = (requests w
             ++ [if String.prefix "video/" (type file)
                 then video_request file else image_request file])%list
          /\ alerts (snd (App.handleAnalyze st w)) = alerts w
          /\ created (snd (App.handleAnalyze st w)) = created w
          /\ revoked (snd (App.handleAnalyze st w)) = revoked w).
Proof.
  intros st w. split.
  - intros Hnone. unfold App.handleAnalyze. now rewrite Hnone.
  - intros file Hfile.
    destruct (handleAnalyze_state st w file Hfile) as [_ ->].
    destruct (upload_world file w) as [Hi Hv].
    destruct (String.prefix "video/" (type file)).
    + rewrite Hv.
      destruct (detect_endpoint w _ (video_request file));
        repeat split.
    + rewrite Hi.
      destruct (detect_endpoint w _ (image_request file));
        repeat split.
Qed.

Lemma handleAnalyze_routes_clip_and_photo :
  requests (snd (App.handleAnalyze (Sample.selected Sample.clip 0%nat)
                   Sample.offline_world))
  = [video_request Sample.clip]
  /\ requests (snd (App.handleAnalyze (Sample.selected Sample.photo 0%nat)
                      Sample.offline_world))
     = [image_request Sample.photo]
  /\ App.handleAnalyze App.initial Sample.offline_world
     = (App.initial, Sample.offline_world).
Proof.
  split; [| split].
  - destruct (handleAnalyze_sends_one_upload_by_type
                (Sample.selected Sample.clip 0%nat) Sample.offline_world)
      as [_ H].
    destruct (H Sample.clip eq_refl) as [Hr _]. exact Hr.
  - destruct (handleAnalyze_sends_one_upload_by_type
                (Sample.selected Sample.photo 0%nat) Sample.offline_world)
      as [_ H].
    destruct (H Sample.photo eq_refl) as [Hr _]. exact Hr.
  - destruct (handleAnalyze_sends_one_upload_by_type
                App.initial Sample.offline_world) as [H _].
    apply H. reflexivity.
Defined.





(** ** What every session keeps *)

Lemma step_state (ev : App.Event) (st : App.State) (w : World) :
  fst (App.step ev (st, w)) = fst (App.handle ev st w).
Proof.
  unfold App.step. simpl fst. simpl snd.
  now destruct (App.handle ev st w).
Qed.

Lemma chooseFile_state (file : File) (st : App.State) (w : World) :
  fst (App.handle (App.ChooseFile file) st w) = st
  \/ fst (App.handle (App.ChooseFile file) st w)
     = App.setError None
         (App.setResult None
            (App.setImageUrl (Some (List.length (created w)))
               (App.setSelectedFile (Some file) st))).
Proof.
  unfold App.handle, UploadArea.handleFile.
  destruct (negb (String.prefix "image/" (type file))
            && negb (String.prefix "video/" (type file))); [now left |].
  destruct (N.ltb _ (size file)); [now left | now right].
Qed.

Lemma remove_state (st : App.State) (w : World) :
  fst (App.handle App.ClickRemove st w)
  = App.setError None
      (App.setResult None
         (App.setImageUrl None (App.setSelectedFile None st))).
Proof.
  unfold App.handle, App.handleRemove.
  destruct (App.imageUrl st); reflexivity.
Qed.

Lemma analyze_state_cases (st : App.State) (w : World) :
  fst (App.handleAnalyze st w) = st
  \/ (App.selectedFile st <> None
      /\ ((exists payload,
             fst (App.handleAnalyze st w)
             = App.setLoading false
                 (App.setResult (Some payload)
                    (App.setResult None
                       (App.setError None (App.setLoading true st)))))
          \/ (exists shown,
                fst (App.handleAnalyze st w)
                = App.setLoading false
                    (App.setError (Some shown)
                       (App.setResult None
                          (App.setError None (App.setLoading true st))))))).
Proof.
  destruct (App.selectedFile st) as [file |] eqn:Hfile.
  - right. split; [discriminate |].
    destruct (handleAnalyze_state st w file Hfile) as [-> _]. cbv zeta.
    destruct (fst ((if String.prefix "video/" (type file)
                    then Api.detectVideo file else Api.detectImage file) w))
      as [payload | err].
    + destruct (App.flag (success payload));
        [left | right]; eexists; reflexivity.
    + right. eexists; reflexivity.
  - left. unfold App.handleAnalyze. now rewrite Hfile.
Qed.

Lemma handle_keeps_consistent (ev : App.Event) (st : App.State)
  (w : World) :
  consistent st -> consistent (fst (App.handle ev st w)).
Proof.
  intros [Hload Hnone Hurl Hexcl].
  destruct ev as [| | file | |].
  - destruct (checkApiHealth_keeps_urls st w) as (s & Hst & _).
    simpl App.handle. rewrite Hst. now constructor.
  - destruct (checkApiHealth_keeps_urls st w) as (s & Hst & _).
    simpl App.handle. rewrite Hst. now constructor.
  - destruct (chooseFile_state file st w) as [-> | ->];
      [now constructor |].
    constructor; simpl; try easy.
  - rewrite remove_state. constructor; simpl; try easy.
  - simpl App.handle.
    destruct (analyze_state_cases st w)
      as [-> | (Hfile & [[payload ->] | [shown ->]])];
      [now constructor | |]; constructor; simpl; try easy;
      intros _; now apply Hurl.
Qed.

Lemma initial_consistent : consistent App.initial.
Proof. constructor; simpl; try easy. Qed.


(** ** Sessions with requests in flight *)

Lemma take_out_count {A : Type} (f : A -> bool) (i : nat) (l : list A)
  (x : A) (rest : list A) :
  Async.take_out i l = Some (x, rest) ->
  List.length (filter f l)
  = ((if f x then 1 else 0) + List.length (filter f rest))%nat.
Proof.
  revert i x rest. induction l as [| y l IH]; intros i x rest H.
  - destruct i; discriminate.
  - destruct i as [| j]; simpl in H.
    + injection H as <- <-. simpl. destruct (f y); reflexivity.
    + destruct (Async.take_out j l) as [[z rest'] |] eqn:Ht;
        [| discriminate].
      injection H as <- <-. pose proof (IH _ _ _ Ht) as Hrest. simpl.
      destruct (f y); destruct (f z); simpl in *; lia.
Qed.

Lemma settle_upload_state (c : Async.Call) (st : App.State) (w : World) :
  Async.is_upload c = true ->
  exists outcome,
    fst (Async.settle c st w) = Async.handleAnalyze_resumed outcome st.
Proof.
  destruct c as [answer | answer | answer]; [discriminate | |];
    intros _; simpl.
  - destruct (Async.detectImage_resumed answer w) as [o w']. now exists o.
  - destruct (Async.detectVideo_resumed answer w) as [o w']. now exists o.
Qed.

Lemma settle_health_state (answer : Outcome Health) (st : App.State)
  (w : World) :
  exists s,
    fst (Async.settle (Async.HealthCall answer) st w)
    = App.setApiStatus s st.
Proof.
  simpl. destruct (Async.checkHealth_resumed answer w) as [[h | e] w'].
  - destruct (_ && _); eexists; reflexivity.
  - eexists; reflexivity.
Qed.

Lemma handle_keeps_in_step (ev : Async.Event) (p : Async.Page) (w : World) :
  Async.offered p ev = true ->
  in_step p -> in_step (fst (Async.handle ev p w)).
Proof.
  intros Hoff [Hup Hload Hexcl Hnone Hurl].
  destruct p as [st calls]. unfold Async.uploads in Hup. simpl in *.
  assert (Hhealth : in_step
            {| Async.cells := st;
               Async.waiting := calls ++ [Async.HealthCall
                 (fst (Async.send_get (Api.API_BASE_URL ++ "/health") w))] |}).
  { constructor; simpl; auto. unfold Async.uploads. simpl.
    rewrite filter_app, length_app. simpl. lia. }
  destruct ev as [[| | file | |] | i].
  - exact Hhealth.
  - exact Hhealth.
  - unfold Async.handle. cbn [Async.cells Async.waiting].
    pose proof (chooseFile_state file st w) as Hst.
    destruct (App.handle (App.ChooseFile file) st w) as [st' w'].
    simpl in Hst. simpl.
    destruct Hst as [-> | ->]; constructor; unfold Async.uploads; simpl;
      auto; try easy.
  - unfold Async.handle. cbn [Async.cells Async.waiting].
    pose proof (remove_state st w) as Hst.
    destruct (App.handle App.ClickRemove st w) as [st' w'].
    simpl in Hst. simpl. subst st'.
    constructor; unfold Async.uploads; simpl; auto; try easy.
  - simpl in Hoff. simpl. unfold Async.handleAnalyze_begin. simpl.
    destruct (App.selectedFile st) as [file |] eqn:Hfile;
      [| discriminate Hoff].
    destruct (App.result st); [discriminate Hoff |].
    unfold App.analyzeDisabled in Hoff.
    destruct (App.loading st) eqn:Hl; [discriminate Hoff |].
    destruct (App.isVideo st); simpl; constructor;
      unfold Async.uploads; simpl; auto; try easy;
      try (intros _; apply Hurl; discriminate);
      try (intros Hn; congruence);
      rewrite filter_app, length_app; simpl; lia.
  - simpl.
    destruct (Async.take_out i calls) as [[c rest] |] eqn:Ht;
      [| now constructor].
    pose proof (take_out_count Async.is_upload i calls c rest Ht) as Hc.
    destruct (Async.is_upload c) eqn:Hu.
    + destruct (settle_upload_state c st w Hu) as [outcome Hst].
      destruct (Async.settle c st w) as [st' w']. simpl in Hst. simpl.
      subst st'.
      destruct (App.loading st) eqn:Hl; [| lia].
      destruct (Hload eq_refl) as [Hr He].
      assert (Hrest : List.length (filter Async.is_upload rest) = 0%nat)
        by lia.
      unfold Async.handleAnalyze_resumed.
      destruct outcome as [response | err];
        [destruct (App.flag (success response)) |];
        constructor; unfold Async.uploads; simpl; auto; try easy.
    + destruct c as [answer | |]; try discriminate Hu.
      destruct (settle_health_state answer st w) as [s Hst].
      destruct (Async.settle (Async.HealthCall answer) st w) as [st' w'].
      simpl in Hst. simpl. subst st'.
      constructor; simpl; auto. unfold Async.uploads. simpl. lia.
Qed.

Lemma initial_in_step : in_step Async.initial.
Proof. constructor; simpl; try easy. Qed.

Lemma async_step_page (ev : Async.Event) (p : Async.Page) (w : World) :
  fst (Async.step ev (p, w)) = fst (Async.handle ev p w).
Proof.
  unfold Async.step. simpl fst. simpl snd.
  now destruct (Async.handle ev p w).
Qed.

Lemma async_run_keeps_in_step (evs : list Async.Event) :
  forall p0 w0 p w,
    in_step p0 -> Async.run evs (p0, w0) = Some (p, w) -> in_step p.
Proof.
  induction evs as [| ev rest IH]; intros p0 w0 p w H0 Hrun.
  - now injection Hrun as <- <-.
  - simpl in Hrun. destruct (Async.offered p0 ev) eqn:Hoff; [| discriminate].
    pose proof (async_step_page ev p0 w0) as Hp.
    destruct (Async.step ev (p0, w0)) as [p1 w1]. simpl in Hp.
    apply (IH p1 w1 p w); [| exact Hrun].
    rewrite Hp. now apply handle_keeps_in_step.
Qed.

(** A health check or an upload that settles at once is the handler run to
    completion. *)
Lemma checkApiHealth_settling_at_once (st : App.State) (w : World) :
  Async.handle (Async.Settles 0)
    (fst (Async.handle (Async.User App.Retry)
            {| Async.cells := st; Async.waiting := [] |} w))
    (snd (Async.handle (Async.User App.Retry)
            {| Async.cells := st; Async.waiting := [] |} w))
  = ({| Async.cells := fst (App.checkApiHealth st w); Async.waiting := [] |},
     snd (App.checkApiHealth st w)).
Proof.
  unfold App.checkApiHealth, Api.checkHealth, try_catch, axios_get.
  simpl. unfold Async.checkHealth_resumed, try_catch, Async.settled.
  destruct (health_endpoint w (List.length (requests w))) as [h | e].
  - destruct (_ && _); reflexivity.
  - reflexivity.
Qed.

Lemma handleAnalyze_settling_at_once (st : App.State) (w : World) :
  App.selectedFile st <> None ->
  Async.handle (Async.Settles 0)
    (fst (Async.handle (Async.User App.ClickAnalyze)
            {| Async.cells := st; Async.waiting := [] |} w))
    (snd (Async.handle (Async.User App.ClickAnalyze)
            {| Async.cells := st; Async.waiting := [] |} w))
  = ({| Async.cells := fst (App.handleAnalyze st w); Async.waiting := [] |},
     snd (App.handleAnalyze st w)).
Proof.
  intros Hfile. simpl. unfold Async.handleAnalyze_begin, App.handleAnalyze.
  simpl. destruct (App.selectedFile st) as [file |] eqn:Hf; [| easy].
  unfold App.isVideo. simpl. rewrite Hf.
  destruct (String.prefix "video/" (type file)); simpl.
  - unfold Api.detectVideo, Async.detectVideo_resumed, try_catch,
      axios_post, Async.settled. simpl.
    destruct (detect_endpoint w _ _) as [body | err]; simpl.
    + reflexivity.
    + destruct (response err); [reflexivity |].
      destruct (request err); reflexivity.
  - unfold Api.detectImage, Async.detectImage_resumed, try_catch,
      axios_post, Async.settled. simpl.
    destruct (detect_endpoint w _ _) as [body | err]; simpl.
    + reflexivity.
    + destruct (response err); [reflexivity |].
      destruct (request err); reflexivity.
Qed.

(** X5. In every session in which a health check or an upload settles at
    any later moment, with other events between the click and the answer:
    loading is on exactly while an upload is in flight, and there is never
    more than one; while loading is on, result and error are empty; a
    result and an error are never both set; a file is selected exactly when
    an object URL is held.  Nothing ties the result to the file: removing
    an image during its upload does not cancel the upload, and its result
    arrives on a page without a file. *)
Theorem sessions_keep_the_cells_in_step :
  forall (evs : list Async.Event) (w0 : World) (p : Async.Page) (w : World),
    Async.run evs (Async.initial, w0) = Some (p, w) ->
    Async.uploads p = (if App.loading (Async.cells p) then 1 else 0)%nat
    /\ (App.loading (Async.cells p) = true ->
        App.result (Async.cells p) = None
        /\ App.error (Async.cells p) = None)
    /\ (App.result (Async.cells p) <> None ->
        App.error (Async.cells p) = None)
    /\ (App.selectedFile (Async.cells p) = None ->
        App.imageUrl (Async.cells p) = None)
    /\ (App.selectedFile (Async.cells p) <> None ->
        App.imageUrl (Async.cells p) <> None).
Proof.
  intros evs w0 p w Hrun.
  destruct (async_run_keeps_in_step evs Async.initial w0 p w
              initial_in_step Hrun) as [H1 H2 H3 H4 H5].
  repeat split; auto; now apply H2.
Qed.

Lemma removal_during_an_upload :
  exists p w,
    Async.run [Async.User App.Mount; Async.Settles 0;
               Async.User (App.ChooseFile Sample.photo);
               Async.User App.ClickAnalyze;
               Async.User App.ClickRemove;
               Async.Settles 0]
      (Async.initial, Sample.answering (Sample.fake_873 (Some [])))
    = Some (p, w)
    /\ Async.uploads p = 0%nat
    /\ App.loading (Async.cells p) = false
    /\ App.error (Async.cells p) = None
    /\ App.selectedFile (Async.cells p) = None
    /\ App.imageUrl (Async.cells p) = None
    /\ App.result (Async.cells p) = Some (Sample.fake_873 (Some [])).
Proof.
  destruct (Async.run [Async.User App.Mount; Async.Settles 0;
                       Async.User (App.ChooseFile Sample.photo);
                       Async.User App.ClickAnalyze;
                       Async.User App.ClickRemove;
                       Async.Settles 0]
              (Async.initial, Sample.answering (Sample.fake_873 (Some []))))
    as [[p w] |] eqn:Hrun; [| vm_compute in Hrun; discriminate Hrun].
  exists p, w. split; [reflexivity |].
  destruct (sessions_keep_the_cells_in_step _ _ _ _ Hrun)
    as (H1 & H2 & H3 & H4 & H5).
  assert (Hcells : App.selectedFile (Async.cells p) = None
                   /\ App.result (Async.cells p)
                      = Some (Sample.fake_873 (Some []))).
  { pose proof Hrun as Hc. vm_compute in Hc. injection Hc as <- _.
    split; vm_compute; reflexivity. }
  destruct Hcells as [Hfile Hres].
  assert (Herr : App.error (Async.cells p) = None)
    by (apply H3; rewrite Hres; discriminate).
  destruct (App.loading (Async.cells p)) eqn:Hl.
  - destruct (H2 eq_refl) as [Hr _]. rewrite Hres in Hr. discriminate Hr.
  - repeat split; auto.
Defined.




(** ** What rendering and the handlers leave alone in the world *)

Lemma same_but_created_refl (w : World) : same_but_created w w.
Proof. repeat split. Qed.

Lemma same_but_created_trans (w1 w2 w3 : World) :
  same_but_created w1 w2 -> same_but_created w2 w3 ->
  same_but_created w1 w3.
Proof.
  intros (a1 & b1 & c1 & d1 & e1 & f1) (a2 & b2 & c2 & d2 & e2 & f2).
  repeat split; congruence.
Qed.

Lemma mount_same_but_created (c : App.child) (w : World) :
  same_but_created w (snd (App.mount c w)).
Proof.
  destruct c; try apply same_but_created_refl.
  simpl. unfold VideoPreview.VideoPreview. simpl.
  destruct (VideoPreview.formatFileSize _); repeat split.
Qed.

Lemma render_same_but_created (st : App.State) (w : World) :
  same_but_created w (snd (App.render st w)).
Proof.
  unfold App.render. generalize (App.App st) as cs. intros cs. revert w.
  induction cs as [| c rest IH]; intros w; [apply same_but_created_refl |].
  simpl. pose proof (mount_same_but_created c w) as Hc.
  destruct (App.mount c w) as [[n | e] w1]; simpl in Hc; [| exact Hc].
  specialize (IH w1).
  destruct (App.mount_all rest w1) as [[ns | e] w2]; simpl in IH |- *;
    now apply same_but_created_trans with w1.
Qed.

Lemma handle_keeps_endpoints (ev : App.Event) (st : App.State) (w : World) :
  health_endpoint (snd (App.handle ev st w)) = health_endpoint w
  /\ detect_endpoint (snd (App.handle ev st w)) = detect_endpoint w.
Proof.
  destruct ev as [| | file | |].
  - simpl. unfold App.checkApiHealth, Api.checkHealth, try_catch, axios_get.
    destruct (health_endpoint w _) as [h | e]; simpl;
      [destruct (_ && _) |]; split; reflexivity.
  - simpl. unfold App.checkApiHealth, Api.checkHealth, try_catch, axios_get.
    destruct (health_endpoint w _) as [h | e]; simpl;
      [destruct (_ && _) |]; split; reflexivity.
  - unfold App.handle, UploadArea.handleFile.
    destruct (_ && _); [split; reflexivity |].
    destruct (N.ltb _ _); split; reflexivity.
  - unfold App.handle, App.handleRemove.
    destruct (App.imageUrl st); split; reflexivity.
  - simpl App.handle.
    destruct (App.selectedFile st) as [file |] eqn:Hfile.
    + destruct (handleAnalyze_state st w file Hfile) as [_ ->].
      destruct (upload_world file w) as [Hi Hv].
      destruct (String.prefix "video/" (type file)).
      * rewrite Hv. clear Hi Hv.
        destruct (detect_endpoint w _ (video_request file));
          split; reflexivity.
      * rewrite Hi. clear Hi Hv.
        destruct (detect_endpoint w _ (image_request file));
          split; reflexivity.
    + unfold App.handleAnalyze. rewrite Hfile. split; reflexivity.
Qed.

(** The request to [/health]. *)
Lemma handle_requests_without_analysis (ev : App.Event) (st : App.State)
  (w : World) :
  ev <> App.ClickAnalyze ->
  Forall (fun r => method r = "GET") (requests w) ->
  Forall (fun r => method r = "GET") (requests (snd (App.handle ev st w))).
Proof.
  intros Hev Hall. destruct ev as [| | file | |]; try contradiction.
  - simpl. unfold App.checkApiHealth.
    pose proof (health_request_logged w) as Hlog.
    destruct (Api.checkHealth w) as [[h | e] w']; simpl in Hlog |- *;
      [destruct (_ && _) |]; simpl; rewrite Hlog;
      apply Forall_app; split; auto; repeat constructor.
  - simpl. unfold App.checkApiHealth.
    pose proof (health_request_logged w) as Hlog.
    destruct (Api.checkHealth w) as [[h | e] w']; simpl in Hlog |- *;
      [destruct (_ && _) |]; simpl; rewrite Hlog;
      apply Forall_app; split; auto; repeat constructor.
  - unfold App.handle, UploadArea.handleFile.
    destruct (_ && _); [exact Hall |].
    destruct (N.ltb _ _); exact Hall.
  - unfold App.handle, App.handleRemove.
    destruct (App.imageUrl st); exact Hall.
Qed.

(** While the server cannot be reached: the status is not [ready], the
    health endpoint keeps rejecting, only GET requests were sent. *)
Lemma offline_step (ev : App.Event) (st : App.State) (w : World) :
  App.apiStatus st <> App.ready ->
  (forall n, exists err, health_endpoint w n = Rejected err) ->
  Forall (fun r => method r = "GET") (requests w) ->
  App.result st = None ->
  App.offered st ev = true ->
  App.apiStatus (fst (App.step ev (st, w))) <> App.ready
  /\ (forall n, exists err,
        health_endpoint (snd (App.step ev (st, w))) n = Rejected err)
  /\ Forall (fun r => method r = "GET")
       (requests (snd (App.step ev (st, w))))
  /\ App.result (fst (App.step ev (st, w))) = None.
Proof.
  intros Hst Hdown Hget Hres Hoff.
  assert (Hev : ev <> App.ClickAnalyze).
  { intros ->. simpl in Hoff.
    destruct (App.selectedFile st); [| discriminate].
    rewrite Hres in Hoff. unfold App.analyzeDisabled in Hoff.
    destruct (App.apiStatus st); try contradiction;
      rewrite orb_true_r in Hoff; discriminate. }
  pose proof (handle_keeps_endpoints ev st w) as [Hh _].
  pose proof (handle_requests_without_analysis ev st w Hev Hget) as Hreq.
  assert (Hstatus : App.apiStatus (fst (App.handle ev st w)) <> App.ready
                    /\ App.result (fst (App.handle ev st w)) = None).
  { destruct ev as [| | file | |]; try contradiction.
    - simpl. unfold App.checkApiHealth, Api.checkHealth, try_catch,
        axios_get.
      destruct (Hdown (List.length (requests w))) as [err ->]. simpl.
      split; [discriminate | exact Hres].
    - simpl. unfold App.checkApiHealth, Api.checkHealth, try_catch,
        axios_get.
      destruct (Hdown (List.length (requests w))) as [err ->]. simpl.
      split; [discriminate | exact Hres].
    - destruct (chooseFile_state file st w) as [-> | ->]; simpl; auto.
    - rewrite remove_state. simpl. auto. }
  unfold App.step. simpl fst. simpl snd.
  destruct (App.handle ev st w) as [st1 w1]. simpl in *.
  destruct (render_same_but_created st1 w1) as (_ & _ & Hr & _ & He & _).
  rewrite Hr, He, Hh. tauto.
Qed.

(** X7. While the server cannot be reached, no file leaves the browser:
    in every session in front of a server whose health endpoint rejects
    every call, the status never becomes [ready], the analyze action is
    never on offer, and every request sent is a GET (the health check of
    the page load and of the retries); no result is ever shown. *)
Theorem nothing_is_uploaded_while_the_api_is_unreachable :
  forall (evs : list App.Event) (w0 : World) (st : App.State) (w : World),
    (forall n, exists err, health_endpoint w0 n = Rejected err) ->
    requests w0 = [] ->
    App.run evs (App.initial, w0) = Some (st, w) ->
    Forall (fun r => method r = "GET") (requests w)
    /\ App.apiStatus st <> App.ready
    /\ App.offered st App.ClickAnalyze = false
    /\ App.result st = None.
Proof.
  intros evs w0 st w Hdown Hreq Hrun.
  assert (Hgen : forall evs st0 w0,
            App.apiStatus st0 <> App.ready ->
            (forall n, exists err, health_endpoint w0 n = Rejected err) ->
            Forall (fun r => method r = "GET") (requests w0) ->
            App.result st0 = None ->
            App.run evs (st0, w0) = Some (st, w) ->
            Forall (fun r => method r = "GET") (requests w)
            /\ App.apiStatus st <> App.ready /\ App.result st = None).
  { clear. induction evs as [| ev rest IH];
      intros st0 w0 Hst Hdown Hget Hres Hrun.
    - injection Hrun as <- <-. auto.
    - simpl in Hrun. destruct (App.offered st0 ev) eqn:Hoff;
        [| discriminate].
      destruct (offline_step ev st0 w0 Hst Hdown Hget Hres Hoff)
        as (H1 & H2 & H3 & H4).
      destruct (App.step ev (st0, w0)) as [st1 w1].
      now apply (IH st1 w1). }
  destruct (Hgen evs App.initial w0) as (H1 & H2 & H3); auto.
  - discriminate.
  - rewrite Hreq. constructor.
  - repeat split; auto.
    unfold App.offered, App.analyzeDisabled.
    destruct (App.selectedFile st); [| reflexivity].
    destruct (App.result st); [reflexivity |].
    destruct (App.apiStatus st); try contradiction;
      now rewrite orb_true_r.
Qed.

Lemma offline_session_sends_health_checks_only :
  exists st w,
    App.run [App.Mount; App.ChooseFile Sample.clip; App.Retry]
      (App.initial, Sample.offline_world) = Some (st, w)
    /\ Forall (fun r => method r = "GET") (requests w)
    /\ App.offered st App.ClickAnalyze = false.
Proof.
  destruct (App.run [App.Mount; App.ChooseFile Sample.clip; App.Retry]
              (App.initial, Sample.offline_world))
    as [[st w] |] eqn:Hrun; [| vm_compute in Hrun; discriminate Hrun].
  exists st, w. split; [reflexivity |].
  destruct (nothing_is_uploaded_while_the_api_is_unreachable
              _ Sample.offline_world st w
              (fun n => ex_intro _ Sample.unreachable eq_refl)
              eq_refl Hrun) as (H1 & _ & H2 & _).
  split; assumption.
Defined.

(** ** The image preview never dangles *)

Lemma handle_keeps_file_url (ev : App.Event) (st : App.State) (w : World) :
  (forall f u, App.selectedFile st = Some f -> App.imageUrl st = Some u ->
               In (u, f) (created w)) ->
  forall f u,
    App.selectedFile (fst (App.handle ev st w)) = Some f ->
    App.imageUrl (fst (App.handle ev st w)) = Some u ->
    In (u, f) (created (snd (App.handle ev st w))).
Proof.
  intros Hinv f u.
  destruct ev as [| | file | |].
  - destruct (checkApiHealth_keeps_urls st w) as (s & Hst & Hc & _).
    simpl App.handle. rewrite Hst, Hc. simpl. apply Hinv.
  - destruct (checkApiHealth_keeps_urls st w) as (s & Hst & Hc & _).
    simpl App.handle. rewrite Hst, Hc. simpl. apply Hinv.
  - destruct (chooseFile_effect file st w)
      as [(Hst & Hc & _) | (Hsel & Hurl & Hc & _)].
    + rewrite Hst, Hc. apply Hinv.
    + rewrite Hsel, Hurl, Hc. intros [= <-] [= <-].
      apply in_or_app. right. now left.
  - rewrite remove_state. simpl. discriminate.
  - destruct (handleAnalyze_keeps_urls st w) as (Hsel & Hurl & Hc & _).
    simpl App.handle. rewrite Hsel, Hurl, Hc. apply Hinv.
Qed.

Lemma image_sessions_keep_previews (evs : list App.Event) :
  Forall no_video evs ->
  forall (st0 : App.State) (w0 : World) (st : App.State) (w : World),
    urls_accounted st0 w0 -> consistent st0 ->
    (forall f u, App.selectedFile st0 = Some f -> App.imageUrl st0 = Some u ->
                 In (u, f) (created w0)) ->
    App.run evs (st0, w0) = Some (st, w) ->
    urls_accounted st w /\ consistent st
    /\ (forall f u, App.selectedFile st = Some f -> App.imageUrl st = Some u ->
                    In (u, f) (created w)).
Proof.
  induction 1 as [| ev rest Hev _ IH];
    intros st0 w0 st w Hacc Hcons Hfile Hrun.
  - injection Hrun as <- <-. auto.
  - simpl in Hrun. destruct (App.offered st0 ev) eqn:Hoff; [| discriminate].
    pose proof (handle_keeps_accounts ev st0 w0 Hacc Hoff Hev) as Hacc1.
    pose proof (handle_keeps_consistent ev st0 w0 Hcons) as Hcons1.
    pose proof (handle_keeps_file_url ev st0 w0 Hfile) as Hfile1.
    unfold App.step in Hrun. simpl fst in Hrun. simpl snd in Hrun.
    destruct (App.handle ev st0 w0) as [st1 w1]. simpl in *.
    rewrite (render_keeps_world st1 w1 (shows_no_video _ _ Hacc1)) in Hrun.
    now apply (IH st1 w1).
Qed.

(** X8. In a session without videos, whenever a file is selected the page
    mounts [ImagePreview] with that file and with an object URL that was
    made for that very file and has not been revoked: the image shown never
    points at a released URL.  Without a file the upload area is mounted
    and no preview at all. *)
Theorem image_preview_never_dangles :
  forall (evs : list App.Event) (w0 : World) (st : App.State) (w : World),
    Forall no_video evs ->
    created w0 = [] -> revoked w0 = [] ->
    App.run evs (App.initial, w0) = Some (st, w) ->
    (forall file,
       App.selectedFile st = Some file ->
       exists u,
         In (App.ImagePreviewEl file (Some u)) (App.App st)
         /\ In (u, file) (created w)
         /\ live u w = true)
    /\ (App.selectedFile st = None ->
        In App.UploadAreaEl (App.App st)
        /\ forall file url, ~ In (App.ImagePreviewEl file url) (App.App st)).
Proof.
  intros evs w0 st w Hev Hc Hr Hrun.
  destruct (image_sessions_keep_previews evs Hev App.initial w0 st w)
    as (Hacc & Hcons & Hfile); auto.
  { now apply initial_urls_accounted. }
  { apply initial_consistent. }
  { discriminate. }
  split.
  - intros file Hsel.
    destruct (App.imageUrl st) as [u |] eqn:Hurl.
    2:{ exfalso. apply (file_has_url _ Hcons); [now rewrite Hsel | exact Hurl]. }
    exists u. split; [| split].
    + unfold App.App, App.status_alerts.
      rewrite Hsel, Hurl, (shows_no_video _ _ Hacc).
      simpl. auto 10.
    + now apply Hfile.
    + unfold live. apply andb_true_intro. split.
      * apply existsb_exists. exists (u, file). split.
        -- now apply Hfile.
        -- apply Nat.eqb_refl.
      * apply negb_true_iff.
        destruct (existsb (Nat.eqb u) (revoked w)) eqn:Hex; [| reflexivity].
        apply existsb_exists in Hex. destruct Hex as (x & Hin & Heq).
        apply Nat.eqb_eq in Heq. subst x.
        now destruct (held_is_live _ _ Hacc u Hurl).
  - intros Hsel. unfold App.App, App.status_alerts. rewrite Hsel.
    split; [simpl; auto 10 |].
    intros file url Hin.
    destruct (App.error st) as [e |]; try destruct (e === "");
      destruct (App.result st) as [r |]; try destruct (App.isVideo st);
      simpl in Hin;
      repeat (destruct Hin as [Hin | Hin]; [discriminate Hin |]);
      exact Hin.
Qed.

Lemma photo_preview_is_live :
  exists st w,
    App.run [App.Mount; App.ChooseFile Sample.photo; App.ClickRemove;
             App.ChooseFile Sample.big_photo; App.ChooseFile Sample.photo]
      (App.initial, Sample.offline_world) = Some (st, w)
    /\ exists u,
         In (App.ImagePreviewEl Sample.photo (Some u)) (App.App st)
         /\ live u w = true.
Proof.
  destruct (App.run [App.Mount; App.ChooseFile Sample.photo; App.ClickRemove;
                     App.ChooseFile Sample.big_photo;
                     App.ChooseFile Sample.photo]
              (App.initial, Sample.offline_world))
    as [[st w] |] eqn:Hrun; [| vm_compute in Hrun; discriminate Hrun].
  exists st, w. split; [reflexivity |].
  assert (Hev : Forall no_video
                  [App.Mount; App.ChooseFile Sample.photo; App.ClickRemove;
                   App.ChooseFile Sample.big_photo;
                   App.ChooseFile Sample.photo])
    by (repeat constructor).
  destruct (image_preview_never_dangles _ Sample.offline_world st w
              Hev eq_refl eq_refl Hrun) as [H _].
  assert (Hsel : App.selectedFile st = Some Sample.photo).
  { vm_compute in Hrun. injection Hrun as <- _. reflexivity. }
  destruct (H Sample.photo Hsel) as (u & H1 & _ & H3).
  exists u. split; assumption.
Defined.

(** ** Removing twice *)

(** X9. [handleRemove] empties the four cells of the selection (file, URL,
    result, error) and leaves loading and the API status alone; it revokes
    the held URL if there is one.  Run again on the state it left, it
    changes nothing and revokes nothing: a URL is not released a second
    time by removing again. *)
Theorem removing_again_changes_nothing :
  forall (st : App.State) (w : World),
    exists (st1 : App.State) (w1 : World),
      App.handleRemove st w = (Return st1, w1)
      /\ App.handleRemove st1 w1 = (Return st1, w1)
      /\ st1 = {| App.selectedFile := None; App.imageUrl := None;
                  App.loading := App.loading st; App.result := None;
                  App.error := None; App.apiStatus := App.apiStatus st |}
      /\ revoked w1 = match App.imageUrl st with
                      | Some u => (revoked w ++ [u])%list
                      | None => revoked w
                      end
      /\ created w1 = created w
      /\ forall file, App.offered st1 (App.ChooseFile file) = true.
Proof.
  intros st w. unfold App.handleRemove.
  destruct (App.imageUrl st) as [u |]; simpl;
    eexists; eexists; repeat split.
Qed.

(** ** Sizes shown by the video preview *)

Lemma below (P : nat -> bool) (lo len : nat) :
  forallb P (seq lo len) = true ->
  forall k, (lo <= k < lo + len)%nat -> P k = true.
Proof.
  intros Hall k Hk.
  apply (proj1 (forallb_forall P (seq lo len)) Hall).
  apply in_seq. exact Hk.
Qed.

(** X10. [formatFileSize] picks the unit before it rounds.  A size below
    1024 bytes is shown as it is, in B.  The 51 sizes from 1048525 to
    1048575 bytes are below 1024 * 1024, so they are shown in KB, and
    rounded to one decimal they read "1024.0 KB", not "1.0 MB". *)
Theorem formatFileSize_picks_the_unit_before_rounding :
  forall n : N,
    ((n < 1024)%N ->
     VideoPreview.formatFileSize (Num.of_N n)
     = Return (VStr [NumText (Num.of_N n); Chars " B"]))
    /\ ((1048525 <= n < 1048576)%N ->
        VideoPreview.formatFileSize (Num.of_N n)
        = Return (VStr [Chars "1024.0"; Chars " KB"])).
Proof.
  intros n. split.
  - intros Hn.
    assert (Hlt : Num.lt (Num.of_N n) (Num.of_Z 1024) = true).
    { pose proof (below
        (fun k => Num.lt (Num.of_N (N.of_nat k)) (Num.of_Z 1024))
        0 1024 ltac:(vm_compute; reflexivity) (N.to_nat n)) as H.
      cbv beta in H. rewrite N2Nat.id in H. apply H. lia. }
    unfold VideoPreview.formatFileSize. rewrite Hlt. reflexivity.
  - intros Hn.
    pose proof (below
      (fun k =>
         match VideoPreview.formatFileSize
                 (Num.of_N (1048525 + N.of_nat k)) with
         | Return (VStr [Chars s; Chars u]) =>
             (s === "1024.0") && (u === " KB")
         | _ => false
         end)
      0 51 ltac:(vm_compute; reflexivity) (N.to_nat (n - 1048525))) as H.
    cbv beta in H. rewrite N2Nat.id in H.
    replace (1048525 + (n - 1048525))%N with n in H by lia.
    assert (Hk : (0 <= N.to_nat (n - 1048525) < 0 + 51)%nat) by lia.
    specialize (H Hk).
    destruct (VideoPreview.formatFileSize (Num.of_N n))
      as [[| | | | [| [s | |] [| [u | |] [|]]] | |] |]; try discriminate H.
    apply andb_prop in H. destruct H as [Hs Hu].
    apply String.eqb_eq in Hs, Hu. now subst.
Qed.

Lemma formatFileSize_examples :
  VideoPreview.formatFileSize (Num.of_N 1023)
  = Return (VStr [NumText (Num.of_N 1023); Chars " B"])
  /\ VideoPreview.formatFileSize (Num.of_N 1048575)
     = Return (VStr [Chars "1024.0"; Chars " KB"]).
Proof.
  split.
  - apply (formatFileSize_picks_the_unit_before_rounding 1023). reflexivity.
  - apply (formatFileSize_picks_the_unit_before_rounding 1048575).
    split; [discriminate | reflexivity].
Defined.

(** ** Lists in the rendered trees *)

Lemma map_from_nth {A B : Type} (f : A -> nat -> js B) (xs : list A) :
  forall idx ys,
    map_from f idx xs = Return ys ->
    List.length ys = List.length xs
    /\ forall i x,
         nth_error xs i = Some x ->
         exists y, f x (idx + i)%nat = Return y /\ nth_error ys i = Some y.
Proof.
  induction xs as [| x rest IH]; intros idx ys Hmap; simpl in Hmap.
  - injection Hmap as <-. split; [reflexivity |].
    intros [| i] x Hx; discriminate Hx.
  - destruct (f x idx) as [y | e] eqn:Hy; [| discriminate Hmap].
    destruct (map_from f (S idx) rest) as [ys' | e] eqn:Hrest;
      [| discriminate Hmap].
    injection Hmap as <-.
    destruct (IH (S idx) ys' Hrest) as [Hlen Hnth].
    split; [simpl; congruence |].
    intros [| i] x' Hx'; simpl in Hx'.
    + injection Hx' as <-. exists y. rewrite Nat.add_0_r. now split.
    + destruct (Hnth i x' Hx') as (y' & Hf & Hy').
      exists y'. rewrite Nat.add_succ_r. now split.
Qed.

(** The first element on which the callback throws decides the outcome. *)
Lemma map_from_throws {A B : Type} (f : A -> nat -> js B) (xs : list A) :
  forall idx e,
    map_from f idx xs = Throw e ->
    exists i x, nth_error xs i = Some x /\ f x (idx + i)%nat = Throw e.
Proof.
  induction xs as [| x rest IH]; intros idx e Hmap; simpl in Hmap;
    [discriminate Hmap |].
  destruct (f x idx) as [y | e'] eqn:Hy.
  - destruct (map_from f (S idx) rest) as [ys' | e''] eqn:Hrest;
      [discriminate Hmap |].
    injection Hmap as ->.
    destruct (IH (S idx) e Hrest) as (i & x' & Hx' & Hf).
    exists (S i), x'. rewrite Nat.add_succ_r. now split.
  - injection Hmap as ->. exists 0%nat, x. rewrite Nat.add_0_r. now split.
Qed.

(** X11. The confidence timeline has one bar per entry, in the order of
    the list: bar [i] is keyed [i], as tall as entry [i] percent, coloured
    by [bar_color] of entry [i], and titled with the frame number [i] and
    the entry with one decimal.  The caption under the bars names the last
    frame as the number of entries minus one. *)
Theorem timeline_has_one_bar_per_entry :
  forall (result : DetectionResult) (timeline : list number),
    confidence_timeline result = Some timeline ->
    exists bars,
      VideoResults.timeline_card result
      = Return (el "Card" [
          el "Card.Header" [el "h5" [T "Confidence Timeline"]];
          el "Card.Body" [
            Elem "div" [("className", str "confidence-timeline")] bars;
            el "div" [
              el "span" [T "Frame 0"];
              el "span" [T "Frame ";
                         Val (VNum (Num.sub
                                      (Num.of_Z
                                         (Z.of_nat (List.length timeline)))
                                      (Num.of_Z 1)))]];
            el "small"
              [T "Hover over bars to see individual frame confidence"]]])
      /\ List.length bars = List.length timeline
      /\ forall i c,
           nth_error timeline i = Some c ->
           exists shown,
             Fixed.toFixed c 1 = Return shown
             /\ nth_error bars i
                = Some (Elem "div"
                          [VideoResults.key i;
                           ("style.height", VStr [NumText c; Chars "%"]);
                           ("style.backgroundColor",
                            str (VideoResults.bar_color c));
                           ("title",
                            VStr ([Chars "Frame ";
                                   NumText (Num.of_Z (Z.of_nat i));
                                   Chars ": "] ++ shown
                                  ++ [Chars "%"])%list)]
                          []).
Proof.
  intros result timeline Htl.
  unfold VideoResults.timeline_card. rewrite Htl. simpl Array_map.
  destruct (map_from_total VideoResults.timeline_bar timeline)
    with (idx := 0%nat) as (bars & Hbars & Hlen).
  { apply Forall_forall. intros c _ i. unfold VideoResults.timeline_bar.
    destruct (call_toFixed_number c "confidence" 1) as [t Ht]; [lia |].
    rewrite Ht. eexists; reflexivity. }
  exists bars. rewrite Hbars. simpl.
  split; [reflexivity | split; [exact Hlen |]].
  intros i c Hc.
  destruct (map_from_nth _ _ _ _ Hbars) as [_ Hnth].
  destruct (Hnth i c Hc) as (bar & Hbar & Hi). simpl in Hbar.
  unfold VideoResults.timeline_bar in Hbar. simpl call_toFixed in Hbar.
  destruct (Fixed.toFixed c 1) as [shown | e]; [| discriminate Hbar].
  exists shown. split; [reflexivity |].
  simpl in Hbar. injection Hbar as <-. exact Hi.
Qed.

Lemma timeline_of_two_frames :
  exists bars,
    VideoResults.timeline_card
      {| success := Some true; error := None; verdict := None;
         confidence := None; fake_probability := None;
         real_probability := None; agreement_level := None;
         individual_results := None; recommendation := None;
         analysis := None; video_info := None;
         processing_time_seconds := None; model_breakdown := None;
         suspicious_frames := None;
         confidence_timeline := Some [Num.decimal 712 1; Num.of_Z 20] |}
    = Return (el "Card" [
        el "Card.Header" [el "h5" [T "Confidence Timeline"]];
        el "Card.Body" [
          Elem "div" [("className", str "confidence-timeline")] bars;
          el "div" [
            el "span" [T "Frame 0"];
            el "span" [T "Frame "; Val (VNum (Num.of_Z 1))]];
          el "small"
            [T "Hover over bars to see individual frame confidence"]]])
    /\ List.length bars = 2%nat.
Proof.
  destruct (timeline_has_one_bar_per_entry
              {| success := Some true; error := None; verdict := None;
                 confidence := None; fake_probability := None;
                 real_probability := None; agreement_level := None;
                 individual_results := None; recommendation := None;
                 analysis := None; video_info := None;
                 processing_time_seconds := None; model_breakdown := None;
                 suspicious_frames := None;
                 confidence_timeline :=
                   Some [Num.decimal 712 1; Num.of_Z 20] |}
              [Num.decimal 712 1; Num.of_Z 20] eq_refl)
    as (bars & H1 & H2 & _).
  exists bars. split; [exact H1 | exact H2].
Defined.

(** X12. On whole percentages from 0 to 100 the bar colours change
    strictly above the thresholds: red above 70, yellow above 50 up to and
    including 70, green up to and including 50.  A NaN entry is green. *)
Theorem bar_color_thresholds_are_strict :
  forall k : Z,
    0 <= k <= 100 ->
    VideoResults.bar_color (Num.of_Z k)
    = (if 70 <? k then "#dc3545"
       else if 50 <? k then "#ffc107" else "#198754")
    /\ VideoResults.bar_color Num.NaN = "#198754".
Proof.
  intros k Hk. split; [| reflexivity].
  pose proof (below
    (fun n =>
       VideoResults.bar_color (Num.of_Z (Z.of_nat n))
       === (if 70 <? Z.of_nat n then "#dc3545"
            else if 50 <? Z.of_nat n then "#ffc107" else "#198754"))
    0 101 ltac:(vm_compute; reflexivity) (Z.to_nat k)) as H.
  cbv beta in H. rewrite Z2Nat.id in H by lia.
  apply String.eqb_eq. apply H. lia.
Qed.

Lemma bar_color_at_the_thresholds :
  VideoResults.bar_color (Num.of_Z 70) = "#ffc107"
  /\ VideoResults.bar_color (Num.of_Z 71) = "#dc3545"
  /\ VideoResults.bar_color (Num.of_Z 50) = "#198754".
Proof.
  split; [| split].
  - apply (bar_color_thresholds_are_strict 70). lia.
  - apply (bar_color_thresholds_are_strict 71). lia.
  - apply (bar_color_thresholds_are_strict 50). lia.
Defined.

(** ** When the image renderer throws *)

(** X13. The image renderer returns a tree exactly when [confidence] is
    there, [individual_results] is there and each of its rows has a
    confidence; in every other case it throws a [TypeError].  What else is
    missing (verdict, probabilities, agreement, recommendation) never
    makes it throw. *)
Theorem image_renderer_returns_exactly_when :
  forall result : DetectionResult,
    ((exists tree, Results.Results result = Return tree)
     <-> (confidence result <> None
          /\ exists rows, individual_results result = Some rows
                          /\ Forall Results.has_confidence rows))
    /\ ((forall tree, Results.Results result <> Return tree) ->
        exists msg, Results.Results result = Throw (TypeError msg)).
Proof.
  intros result.
  assert (Hchar :
    (exists tree, Results.Results result = Return tree)
    <-> (confidence result <> None
         /\ exists rows, individual_results result = Some rows
                         /\ Forall Results.has_confidence rows)).
  { split.
    - intros [tree Htree]. unfold Results.Results, Results.banner in Htree.
      destruct (confidence result) as [c |]; [| discriminate Htree].
      split; [discriminate |].
      simpl of_number in Htree. simpl call_toFixed in Htree.
      destruct (Fixed.toFixed c 2) as [shown | e]; [| discriminate Htree].
      simpl bind in Htree.
      destruct (Results.segment "danger" _ _ _) as [fake | e];
        [| discriminate Htree].
      destruct (Results.segment "success" _ _ _) as [real | e];
        [| discriminate Htree].
      simpl bind in Htree.
      destruct (individual_results result) as [rows |];
        [| discriminate Htree].
      exists rows. split; [reflexivity |]. simpl Array_map in Htree.
      destruct (map_from Results.model_card 0 rows) as [cards | e] eqn:Hmap;
        [| discriminate Htree].
      destruct (map_from_nth _ _ _ _ Hmap) as [_ Hnth].
      apply Forall_forall. intros row Hin.
      apply In_nth_error in Hin. destruct Hin as [i Hi].
      destruct (Hnth i row Hi) as (card & Hcard & _).
      unfold Results.has_confidence. unfold Results.model_card in Hcard.
      destruct (row_confidence row); [discriminate | discriminate Hcard].
    - intros (Hc & rows & Hrows & Hall).
      destruct (confidence result) as [c |] eqn:Hconf; [| contradiction].
      destruct (toFixed_returns c 2) as [shown Hshown]; [lia |].
      destruct (segment_total "danger" (fake_probability result) "% Fake" 1)
        as [fake Hfake].
      destruct (segment_total "success" (real_probability result) "% Real" 2)
        as [real Hreal].
      destruct (map_from_total Results.model_card rows) with (idx := 0%nat)
        as (cards & Hcards & _).
      { apply Forall_forall. intros row Hin i. apply model_card_total.
        now apply (proj1 (Forall_forall _ _) Hall). }
      unfold Results.Results, Results.banner.
      rewrite Hconf. simpl of_number. simpl call_toFixed. rewrite Hshown.
      simpl bind. rewrite Hfake, Hreal, Hrows. simpl Array_map.
      rewrite Hcards. eexists; reflexivity. }
  split; [exact Hchar |].
  intros Hnot. unfold Results.Results, Results.banner in *.
  destruct (confidence result) as [c |]; [| eexists; reflexivity].
  simpl of_number in *. simpl call_toFixed in *.
  destruct (toFixed_returns c 2) as [shown Hshown]; [lia |].
  rewrite Hshown in *. simpl bind in *.
  destruct (segment_total "danger" (fake_probability result) "% Fake" 1)
    as [fake Hfake].
  destruct (segment_total "success" (real_probability result) "% Real" 2)
    as [real Hreal].
  rewrite Hfake, Hreal in *. simpl bind in *.
  destruct (individual_results result) as [rows |];
    [| eexists; reflexivity].
  simpl Array_map in *.
  destruct (map_from Results.model_card 0 rows) as [cards | e] eqn:Hmap.
  - exfalso. eapply Hnot. reflexivity.
  - destruct (map_from_throws _ _ _ _ Hmap) as (i & row & _ & Hrow).
    unfold Results.model_card in Hrow.
    destruct (row_confidence row) as [c' |].
    + simpl of_number in Hrow. simpl call_toFixed in Hrow.
      destruct (toFixed_returns c' 1) as [t Ht]; [lia |].
      rewrite Ht in Hrow. discriminate Hrow.
    + simpl in Hrow. injection Hrow as <-. eexists; reflexivity.
Qed.

Lemma image_renderer_needs_row_confidence :
  (exists tree,
     Results.Results (Sample.fake_873 (Some [Sample.one_row])) = Return tree)
  /\ ~ (exists tree,
          Results.Results
            (Sample.fake_873
               (Some [{| row_model := Some "Xception";
                         row_prediction := Some "REAL";
                         row_confidence := None |}])) = Return tree).
Proof.
  split.
  - apply (proj1 (image_renderer_returns_exactly_when
                    (Sample.fake_873 (Some [Sample.one_row])))).
    split; [discriminate |].
    exists [Sample.one_row]. split; [reflexivity |].
    repeat constructor. discriminate.
  - intros H.
    apply (proj1 (image_renderer_returns_exactly_when _)) in H.
    destruct H as (_ & rows & [= <-] & Hall).
    inversion Hall as [| row rest Hrow _]. now apply Hrow.
Defined.

(** What a missing scalar shows instead of throwing: with
    [fake_probability] or [real_probability] absent the proportion bar
    gets a segment whose value is NaN and whose label is "NaN% Fake" or
    "NaN% Real"; in the video renderer an absent [confidence] gives the
    label "undefined%" on the confidence bar. *)
Theorem missing_scalars_are_shown_as_NaN_or_undefined :
  forall (result : DetectionResult),
    (fake_probability result = None ->
     Results.segment "danger" (fake_probability result) "% Fake" 1
     = Return (Elem "ProgressBar"
                 [("variant", str "danger"); ("now", VNum Num.NaN);
                  ("label", VStr [NumText Num.NaN; Chars "% Fake"]);
                  ("key", VNum (Num.of_Z 1))] []))
    /\ (real_probability result = None ->
        Results.segment "success" (real_probability result) "% Real" 2
        = Return (Elem "ProgressBar"
                    [("variant", str "success"); ("now", VNum Num.NaN);
                     ("label", VStr [NumText Num.NaN; Chars "% Real"]);
                     ("key", VNum (Num.of_Z 2))] []))
    /\ (confidence result = None ->
        exists banner badges,
          VideoResults.verdict_card result
          = el "Card" [el "Card.Body" [el "div" (banner ++ [
              el "h4" [Val VUndefined; T "% Confidence"];
              Elem "ProgressBar"
                [("now", VUndefined);
                 ("variant",
                  str (VideoResults.getVerdictColor (verdict result)));
                 ("label", VStr [Chars "undefined"; Chars "%"])] [];
              badges])]]).
Proof.
  intros result. split; [| split].
  - intros ->. reflexivity.
  - intros ->. reflexivity.
  - intros Hc. unfold VideoResults.verdict_card. rewrite Hc.
    eexists [_; _]. eexists. reflexivity.
Qed.

Lemma missing_scalars_on_the_empty_object :
  Results.segment "danger" (fake_probability empty_result) "% Fake" 1
  = Return (Elem "ProgressBar"
              [("variant", str "danger"); ("now", VNum Num.NaN);
               ("label", VStr [NumText Num.NaN; Chars "% Fake"]);
               ("key", VNum (Num.of_Z 1))] []).
Proof.
  apply (missing_scalars_are_shown_as_NaN_or_undefined empty_result).
  reflexivity.
Defined.

(** ** The image-only revision against the video-aware one *)

(** X14. The two revisions of the intake agree on every file declared as
    an image: same alert above 16MB, same hand-over below.  On a file
    declared as a video the image-only revision raises "Please select an
    image file" and does not run the callback, whatever the size; on any
    other type both reject, each with its own wording. *)
Theorem intake_revisions_agree_on_images :
  forall (R : Type) (onFileSelect : File -> M R) (file : File) (w : World),
    (String.prefix "image/" (type file) = true ->
     ImageOnly.handleFile onFileSelect file w
     = UploadArea.handleFile onFileSelect file w)
    /\ (String.prefix "image/" (type file) = false ->
        ImageOnly.handleFile onFileSelect file w
        = (alert "Please select an image file" ;;; ret None) w)
    /\ (String.prefix "image/" (type file) = false ->
        String.prefix "video/" (type file) = false ->
        UploadArea.handleFile onFileSelect file w
        = (alert "Please select an image or video file" ;;; ret None) w).
Proof.
  intros R onFileSelect file w.
  unfold ImageOnly.handleFile, UploadArea.handleFile.
  split; [| split].
  - intros Hi. rewrite Hi, (image_is_not_video _ Hi). reflexivity.
  - intros Hi. now rewrite Hi.
  - intros Hi Hv. now rewrite Hi, Hv.
Qed.

Lemma intake_revisions_on_photo_and_clip :
  ImageOnly.handleFile (fun f => App.handleFileSelect f App.initial)
    Sample.photo Sample.offline_world
  = UploadArea.handleFile (fun f => App.handleFileSelect f App.initial)
      Sample.photo Sample.offline_world
  /\ ImageOnly.handleFile (fun f => App.handleFileSelect f App.initial)
       Sample.clip Sample.offline_world
     = (alert "Please select an image file" ;;; ret None)
         Sample.offline_world.
Proof.
  split.
  - destruct (intake_revisions_agree_on_images _
                (fun f => App.handleFileSelect f App.initial)
                Sample.photo Sample.offline_world) as (H & _).
    apply H. reflexivity.
  - destruct (intake_revisions_agree_on_images _
                (fun f => App.handleFileSelect f App.initial)
                Sample.clip Sample.offline_world) as (_ & H & _).
    apply H. reflexivity.
Defined.

(** X15. The two revisions of [handleAnalyze] do the same, state and
    world, whenever the selected file is not declared as a video, and when
    no file is selected.  On a video they differ in the request only: the
    image-only revision posts it to [/detect] under the field [file]. *)
Theorem analyze_revisions_agree_off_videos :
  forall (st : App.State) (w : World),
    (App.isVideo st = false ->
     ImageOnly.handleAnalyze st w = App.handleAnalyze st w)
    /\ (forall file,
          App.selectedFile st = Some file ->
          requests (snd (ImageOnly.handleAnalyze st w))
          = (requests w ++ [image_request file])%list).
Proof.
  intros st w. split.
  - intros Hv. unfold ImageOnly.handleAnalyze, App.handleAnalyze.
    destruct (App.selectedFile st) as [file |] eqn:Hfile; [| reflexivity].
    cbv zeta.
    change (App.isVideo
              (App.setResult None
                 (App.setError None (App.setLoading true st))))
      with (App.isVideo st).
    now rewrite Hv.
  - intros file Hfile. unfold ImageOnly.handleAnalyze. rewrite Hfile.
    destruct (upload_world file w) as [Hi _].
    destruct (Api.detectImage file w) as [outcome w'] eqn:Hd.
    simpl in Hi |- *. rewrite Hi.
    destruct (detect_endpoint w _ (image_request file)); reflexivity.
Qed.

Lemma analyze_revisions_on_photo_and_clip :
  ImageOnly.handleAnalyze (Sample.selected Sample.photo 0%nat)
    (Sample.answering (Sample.fake_873 (Some [])))
  = App.handleAnalyze (Sample.selected Sample.photo 0%nat)
      (Sample.answering (Sample.fake_873 (Some [])))
  /\ requests (snd (ImageOnly.handleAnalyze
                      (Sample.selected Sample.clip 0%nat)
                      Sample.offline_world))
     = [image_request Sample.clip].
Proof.
  split.
  - destruct (analyze_revisions_agree_off_videos
                (Sample.selected Sample.photo 0%nat)
                (Sample.answering (Sample.fake_873 (Some [])))) as [H _].
    apply H. reflexivity.
  - destruct (analyze_revisions_agree_off_videos
                (Sample.selected Sample.clip 0%nat) Sample.offline_world)
      as [_ H].
    apply (H Sample.clip). reflexivity.
Defined.

(** ** Dropping files on the upload area *)

(** X16. A drop ends the dragging highlight and looks at the first file
    only.  Wired to the controller, a drop (or a choice in the file dialog)
    does one of three things: nothing at all for an empty list; one alert
    and no selection; or the selection of the first file with one new
    object URL and no alert.  It never alerts and selects at once, and no
    file after the first is ever selected. *)
Theorem drop_selects_at_most_the_first_file :
  forall (st : App.State) (files : list File) (dragging : bool) (w : World),
    let dropped :=
      UploadArea.handleDrop (fun f => App.handleFileSelect f st)
        files dragging in
    fst dropped = false
    /\ snd dropped
       = UploadArea.handleFileInput (fun f => App.handleFileSelect f st) files
    /\ ((files = [] /\ snd dropped w = (Return None, w))
        \/ (exists msg,
              fst (snd dropped w) = Return None
              /\ alerts (snd (snd dropped w)) = (alerts w ++ [msg])%list
              /\ created (snd (snd dropped w)) = created w)
        \/ (exists first rest st',
              files = first :: rest
              /\ fst (snd dropped w) = Return (Some st')
              /\ App.selectedFile st' = Some first
              /\ alerts (snd (snd dropped w)) = alerts w
              /\ created (snd (snd dropped w))
                 = (created w ++ [(List.length (created w), first)])%list)).
Proof.
  intros st files dragging w dropped. subst dropped.
  split; [reflexivity | split; [reflexivity |]].
  destruct files as [| first rest]; [left; now split | right].
  simpl. unfold UploadArea.handleFile.
  destruct (negb (String.prefix "image/" (type first))
            && negb (String.prefix "video/" (type first))).
  - left. eexists. repeat split.
  - destruct (N.ltb _ (size first)).
    + left. eexists. repeat split.
    + right. exists first, rest. eexists. repeat split.
Qed.

Lemma drop_of_pdf_then_photo_selects_nothing :
  fst (snd (UploadArea.handleDrop
              (fun f => App.handleFileSelect f App.initial)
              [Sample.notes; Sample.photo] true) Sample.offline_world)
  = Return None
  /\ fst (UploadArea.handleDrop
            (fun f => App.handleFileSelect f App.initial)
            [Sample.notes; Sample.photo] true) = false.
Proof.
  destruct (drop_selects_at_most_the_first_file App.initial
              [Sample.notes; Sample.photo] true Sample.offline_world)
    as (H1 & _ & _).
  split; [reflexivity | exact H1].
Defined.

(** ** What the page offers *)

(** X17. The events a session may contain are the handlers the rendered
    page is wired to.  The retry handler is on the page exactly when the
    status is not [ready]; the file handler exactly when no file is
    selected; the remove handler exactly when a result is shown or an
    image is previewed (a video preview has no remove button); the analyze
    handler exactly when a file is selected, no result is shown, no
    request is running and the status is [ready]. *)
Theorem page_wires_exactly_the_offered_handlers :
  forall st : App.State,
    (App.offered st App.Retry = true
     <-> In "checkApiHealth" (page_handlers st))
    /\ (forall file,
          App.offered st (App.ChooseFile file) = true
          <-> In "handleFileSelect" (page_handlers st))
    /\ (App.offered st App.ClickRemove = true
        <-> In "handleRemove" (page_handlers st))
    /\ (App.offered st App.ClickAnalyze = true
        <-> In "handleAnalyze" (page_handlers st))
    /\ (App.offered st App.ClickAnalyze = true
        <-> (App.selectedFile st <> None /\ App.result st = None
             /\ App.loading st = false /\ App.apiStatus st = App.ready)).
Proof.
  intros [sel url load res err status].
  unfold page_handlers, App.App, App.status_alerts, App.offered,
    App.analyze_button, App.analyzeDisabled, App.isVideo.
  cbn [App.selectedFile App.imageUrl App.loading App.result App.error
       App.apiStatus].
  destruct sel as [f |]; [destruct (String.prefix "video/" (type f)) |];
    destruct res as [r |];
    (destruct err as [e |]; [destruct (e === "") |]);
    destruct load; destruct status;
    vm_compute;
    repeat split; intros;
    repeat match goal with
           | H : _ /\ _ |- _ => destruct H
           | H : _ \/ _ |- _ => destruct H
           | H : False |- _ => destruct H
           | H : ?x <> ?x |- _ => now elim H
           | H : _ = _ |- _ => discriminate H
           end;
    try reflexivity; try discriminate; auto 8.
Qed.

Lemma page_of_a_selected_photo :
  In "handleAnalyze" (page_handlers (Sample.selected Sample.photo 0%nat))
  /\ In "handleRemove" (page_handlers (Sample.selected Sample.photo 0%nat))
  /\ ~ In "handleRemove" (page_handlers (Sample.selected Sample.clip 0%nat)).
Proof.
  split; [| split].
  - apply (page_wires_exactly_the_offered_handlers
             (Sample.selected Sample.photo 0%nat)). reflexivity.
  - apply (page_wires_exactly_the_offered_handlers
             (Sample.selected Sample.photo 0%nat)). reflexivity.
  - intros H.
    apply (page_wires_exactly_the_offered_handlers
             (Sample.selected Sample.clip 0%nat)) in H.
    discriminate H.
Defined.

(** ** Choosing and removing *)

(** X18. Choosing a file that the intake accepts and removing it again
    brings the controller back to the state it was in, when that state had
    no selection: a round trip.  In the world it leaves one object URL
    made and the same URL revoked, and no alert. *)
Theorem choose_then_remove_is_a_round_trip :
  forall (st : App.State) (w : World) (file : File),
    App.selectedFile st = None -> App.imageUrl st = None ->
    App.result st = None -> App.error st = None ->
    (String.prefix "image/" (type file) = true
     /\ (size file <= 16 * 1024 * 1024)%N)
    \/ (String.prefix "video/" (type file) = true
        /\ (size file <= 50 * 1024 * 1024)%N) ->
    exists (st1 : App.State) (w1 w2 : World),
      App.handle (App.ChooseFile file) st w = (st1, w1)
      /\ App.selectedFile st1 = Some file
      /\ App.offered st1 App.ClickAnalyze
         = negb (App.analyzeDisabled st)
      /\ App.handle App.ClickRemove st1 w1 = (st, w2)
      /\ created w2 = (created w ++ [(List.length (created w), file)])%list
      /\ revoked w2 = (revoked w ++ [List.length (created w)])%list
      /\ alerts w2 = alerts w.
Proof.
  intros [sel url load res err status] w file Hsel Hurl Hres Herr Hok.
  simpl in Hsel, Hurl, Hres, Herr. subst sel url res err.
  assert (Hintake :
    UploadArea.handleFile
      (fun f => App.handleFileSelect f
                  {| App.selectedFile := None; App.imageUrl := None;
                     App.loading := load; App.result := None;
                     App.error := None; App.apiStatus := status |}) file w
    = (r <- App.handleFileSelect file
              {| App.selectedFile := None; App.imageUrl := None;
                 App.loading := load; App.result := None;
                 App.error := None; App.apiStatus := status |} ;;
       ret (Some r)) w).
  { unfold UploadArea.handleFile.
    destruct Hok as [[Hi Hsz] | [Hv Hsz]].
    - rewrite Hi, (image_is_not_video _ Hi). cbn [negb andb].
      destruct (N.ltb_spec (16 * 1024 * 1024) (size file));
        [lia | reflexivity].
    - rewrite Hv, andb_false_r.
      destruct (N.ltb_spec (50 * 1024 * 1024) (size file));
        [lia | reflexivity]. }
  unfold App.handle at 1. rewrite Hintake.
  do 3 eexists. repeat split.
Qed.

Lemma choose_then_remove_photo :
  exists st1 w1 w2,
    App.handle (App.ChooseFile Sample.photo) App.initial Sample.offline_world
    = (st1, w1)
    /\ App.handle App.ClickRemove st1 w1 = (App.initial, w2)
    /\ revoked w2 = [0%nat].
Proof.
  destruct (choose_then_remove_is_a_round_trip App.initial
              Sample.offline_world Sample.photo
              eq_refl eq_refl eq_refl eq_refl)
    as (st1 & w1 & w2 & H1 & _ & _ & H2 & _ & H3 & _).
  { left. split; [reflexivity | discriminate]. }
  exists st1, w1, w2. repeat split; assumption.
Defined.

(** ** The preview components inside the page *)

(** X19. The page mounts the video preview only for a selected file whose
    declared type starts with [video/]; the type is then not empty, so the
    Format line shows the type and the fallback "Unknown" is never what
    the page shows. *)
Theorem video_preview_never_shows_unknown :
  forall (st : App.State) (file : File) (w : World),
    In (App.VideoPreviewEl file) (App.App st) ->
    App.selectedFile st = Some file
    /\ String.prefix "video/" (type file) = true
    /\ or_else (str (type file)) (str "Unknown") = str (type file)
    /\ exists shown,
         App.mount (App.VideoPreviewEl file) w
         = (Return (el "Card" [el "Card.Body" [
              el "h5" [T "Video Preview"];
              el "div" [
                Elem "video" [("controls", VBool true)] [
                  Elem "source"
                    [("src", VUrl (List.length (created w)));
                     ("type", str (type file))] [];
                  T "Your browser does not support the video tag."]];
              el "div" [
                el "div" [el "span" [T "Filename:"];
                          el "span" [T (name file)]];
                el "div" [el "span" [T "Format:"];
                          el "span" [T (type file)]];
                el "div" [el "span" [T "Size:"];
                          el "span" [Val shown]]]]]),
            snd (createObjectURL file w)).
Proof.
  intros st file w Hin.
  assert (Hsel : App.selectedFile st = Some file
                 /\ String.prefix "video/" (type file) = true).
  { unfold App.App, App.status_alerts, App.isVideo in Hin.
    destruct (App.selectedFile st) as [f |];
      [destruct (String.prefix "video/" (type f)) eqn:Hv |];
      (destruct (App.error st) as [e |]; [destruct (e === "") |]);
      destruct (App.result st) as [r |]; simpl in Hin;
      repeat (destruct Hin as [Hin | Hin];
              [try discriminate Hin;
               try (injection Hin as ->; now split) |]);
      destruct Hin. }
  destruct Hsel as [Hsel Hv]. split; [exact Hsel | split; [exact Hv |]].
  assert (Htype : or_else (str (type file)) (str "Unknown")
                  = str (type file)).
  { destruct (type file) as [| c t]; [discriminate Hv | reflexivity]. }
  split; [exact Htype |].
  simpl App.mount. unfold VideoPreview.VideoPreview.
  assert (Hsize : exists shown,
            VideoPreview.formatFileSize (Num.of_N (size file))
            = Return shown).
  { unfold VideoPreview.formatFileSize.
    destruct (Num.lt _ _); [eexists; reflexivity |].
    destruct (Num.lt _ _).
    - destruct (call_toFixed_number
                  (Num.div (Num.of_N (size file)) (Num.of_Z 1024))
                  "bytes / 1024" 1) as [t Ht]; [lia |].
      rewrite Ht. eexists; reflexivity.
    - destruct (call_toFixed_number
                  (Num.div (Num.of_N (size file)) (Num.of_Z (1024 * 1024)))
                  "bytes / (1024 * 1024)" 1) as [t Ht]; [lia |].
      rewrite Ht. eexists; reflexivity. }
  destruct Hsize as [shown Hshown]. exists shown.
  simpl. unfold lift. rewrite Hshown. simpl. rewrite Htype. reflexivity.
Qed.

Lemma video_preview_of_clip :
  or_else (str (type Sample.clip)) (str "Unknown") = str "video/mp4".
Proof.
  apply (video_preview_never_shows_unknown
           (Sample.selected Sample.clip 0%nat) Sample.clip
           Sample.offline_world).
  vm_compute. auto 10.
Defined.

(** X20. The suspicious-frames card lists one badge per flagged frame, in
    the order of the list, each showing the frame index as the server
    sent it; the number in the sentence above the badges is the length of
    that same list, so the count and the badges always agree. *)
Theorem suspicious_count_matches_the_badges :
  forall (result : DetectionResult) (frames : list number),
    suspicious_frames result = Some frames ->
    exists badges,
      VideoResults.suspicious_card result
      = Return (el "Card" [
          el "Card.Header" [el "h5" [T "⚠️ Suspicious Frames Detected"]];
          el "Card.Body" [
            el "p" [
              el "strong"
                [Val (VNum (Num.of_Z (Z.of_nat (List.length badges))))];
              T " frames show high probability of manipulation:"];
            el "div" badges;
            el "small" [T "Suspicious frames have >70% fake probability"]]])
      /\ List.length badges = List.length frames
      /\ forall i frameIdx,
           nth_error frames i = Some frameIdx ->
           nth_error badges i
           = Some (Elem "Badge"
                     [VideoResults.key i; ("bg", str "danger")]
                     [T "Frame "; Val (VNum frameIdx)]).
Proof.
  intros result frames Hf.
  unfold VideoResults.suspicious_card. rewrite Hf. simpl.
  destruct (map_from_total VideoResults.suspicious_badge frames)
    with (idx := 0%nat) as (badges & Hb & Hlen).
  { apply Forall_forall. intros frame _ i. eexists; reflexivity. }
  exists badges. rewrite Hb. simpl. rewrite Hlen.
  split; [reflexivity | split; [reflexivity |]].
  intros i frameIdx Hi.
  destruct (map_from_nth _ _ _ _ Hb) as [_ Hnth].
  destruct (Hnth i frameIdx Hi) as (badge & Hbadge & Hnb).
  simpl in Hbadge. unfold VideoResults.suspicious_badge in Hbadge.
  injection Hbadge as <-. exact Hnb.
Qed.

Lemma suspicious_card_of_two_frames :
  exists badges,
    VideoResults.suspicious_card
      {| success := Some true; error := None; verdict := None;
         confidence := None; fake_probability := None;
         real_probability := None; agreement_level := None;
         individual_results := None; recommendation := None;
         analysis := None; video_info := None;
         processing_time_seconds := None; model_breakdown := None;
         suspicious_frames := Some [Num.of_Z 4; Num.of_Z 9];
         confidence_timeline := None |}
    = Return (el "Card" [
        el "Card.Header" [el "h5" [T "⚠️ Suspicious Frames Detected"]];
        el "Card.Body" [
          el "p" [
            el "strong"
              [Val (VNum (Num.of_Z (Z.of_nat (List.length badges))))];
            T " frames show high probability of manipulation:"];
          el "div" badges;
          el "small" [T "Suspicious frames have >70% fake probability"]]])
    /\ List.length badges = 2%nat.
Proof.
  destruct (suspicious_count_matches_the_badges
              {| success := Some true; error := None; verdict := None;
                 confidence := None; fake_probability := None;
                 real_probability := None; agreement_level := None;
                 individual_results := None; recommendation := None;
                 analysis := None; video_info := None;
                 processing_time_seconds := None; model_breakdown := None;
                 suspicious_frames := Some [Num.of_Z 4; Num.of_Z 9];
                 confidence_timeline := None |}
              [Num.of_Z 4; Num.of_Z 9] eq_refl) as (badges & H1 & H2 & _).
  exists badges. split; assumption.
Defined.

(** ** A payload the page cannot render *)




(** ** Sizes shown by the image preview *)

(** X22. The image preview has one unit.  For every file it returns a
    tree whose Size line is the text that [(file.size / 1024).toFixed(2)]
    gives, followed by " KB": there is no switch to B or MB as in the video
    preview.  For the sizes up to 2048 bytes that text is checked digit by
    digit: it is the size over 1024 rounded to the nearest hundredth,
    halves up, with two decimals, so that up to 5 bytes read "0.00" and
    1024 bytes read "1.00".  Of the text above 2048 bytes only its origin
    is stated. *)
Theorem image_preview_size_in_KB :
  forall (file : File) (url : value),
    exists kb head tail,
      Fixed.toFixed (Num.div (Num.of_N (size file)) (Num.of_Z 1024)) 2
      = Return kb
      /\ ImagePreview.ImagePreview file url
         = Return (el "Card" [el "Card.Body" (head ++ [
             el "div" [
               el "div" [el "strong" [T "File:"]; T " "; T (name file)];
               el "div" [el "strong" [T "Size:"]; T " "; Val (VStr kb);
                         T " KB"];
               tail]])])
      /\ ((size file <= 2048)%N ->
          kb = [Chars (Fixed.place_point
                         ((200 * Z.of_N (size file) + 1024) / 2048) 2)]).
Proof.
  intros file url.
  destruct (toFixed_returns
              (Num.div (Num.of_N (size file)) (Num.of_Z 1024)) 2)
    as [kb Hkb]; [lia |].
  exists kb. eexists [_; _]. eexists. split; [exact Hkb | split].
  - unfold ImagePreview.ImagePreview, call_toFixed. rewrite Hkb.
    reflexivity.
  - intros Hsz.
    pose proof (below
      (fun k =>
         match Fixed.toFixed
                 (Num.div (Num.of_N (N.of_nat k)) (Num.of_Z 1024)) 2 with
         | Return [Chars s] =>
             s === Fixed.place_point
                     ((200 * Z.of_N (N.of_nat k) + 1024) / 2048) 2
         | _ => false
         end)
      0 2049 ltac:(vm_compute; reflexivity) (N.to_nat (size file))) as H.
    cbv beta in H. rewrite N2Nat.id in H.
    assert (Hk : (0 <= N.to_nat (size file) < 0 + 2049)%nat) by lia.
    specialize (H Hk). rewrite Hkb in H.
    destruct kb as [| [s | |] [|]]; try discriminate H.
    apply String.eqb_eq in H. now subst.
Qed.

Lemma image_preview_of_five_bytes :
  exists head tail,
    ImagePreview.ImagePreview
      {| name := "dot.png"; type := "image/png"; size := 5 |} (VUrl 0%nat)
    = Return (el "Card" [el "Card.Body" (head ++ [
        el "div" [
          el "div" [el "strong" [T "File:"]; T " "; T "dot.png"];
          el "div" [el "strong" [T "Size:"]; T " "; T "0.00"; T " KB"];
          tail]])]).
Proof.
  destruct (image_preview_size_in_KB
              {| name := "dot.png"; type := "image/png"; size := 5 |}
              (VUrl 0%nat)) as (kb & head & tail & _ & Htree & Hkb).
  exists head, tail. rewrite Htree.
  rewrite (Hkb ltac:(discriminate)). reflexivity.
Defined.

(** The portrait of 2048000 bytes reads "2000.00 KB". *)
Example image_preview_of_the_portrait :
  Fixed.toFixed (Num.div (Num.of_N (size Sample.photo)) (Num.of_Z 1024)) 2
  = Return [Chars "2000.00"].
Proof. vm_compute. reflexivity. Qed.

(** ** A video result can always be drawn *)

Lemma formatFileSize_returns (bytes : number) :
  exists shown, VideoPreview.formatFileSize bytes = Return shown.
Proof.
  unfold VideoPreview.formatFileSize.
  destruct (Num.lt _ _); [eexists; reflexivity |].
  destruct (Num.lt _ _).
  - destruct (call_toFixed_number (Num.div bytes (Num.of_Z 1024))
                "bytes / 1024" 1) as [t Ht]; [lia |].
    rewrite Ht. eexists; reflexivity.
  - destruct (call_toFixed_number
                (Num.div bytes (Num.of_Z (1024 * 1024)))
                "bytes / (1024 * 1024)" 1) as [t Ht]; [lia |].
    rewrite Ht. eexists; reflexivity.
Qed.

Lemma VideoPreview_returns (file : File) (w : World) :
  exists tree,
    VideoPreview.VideoPreview file w
    = (Return tree, snd (createObjectURL file w)).
Proof.
  unfold VideoPreview.VideoPreview.
  destruct (formatFileSize_returns (Num.of_N (size file))) as [shown Hs].
  simpl. unfold lift. rewrite Hs. eexists; reflexivity.
Qed.

Lemma VideoResults_returns (result : DetectionResult) :
  exists tree, VideoResults.VideoResults result = Return tree.
Proof.
  unfold VideoResults.VideoResults, VideoResults.fakePercent,
    VideoResults.realPercent.
  destruct (percent_total (VideoResults.fakeFrames result)
              (VideoResults.totalFrames result)) as [fp ->].
  destruct (percent_total (VideoResults.realFrames result)
              (VideoResults.totalFrames result)) as [rp ->].
  destruct (when_nonempty_total (model_breakdown result)
              "result.model_breakdown" (VideoResults.breakdown_card result))
    as (b & Hb & _); [intros xs; apply breakdown_card_total |].
  destruct (when_nonempty_total (suspicious_frames result)
              "result.suspicious_frames"
              (VideoResults.suspicious_card result))
    as (s & Hs & _); [intros xs; apply suspicious_card_total |].
  destruct (when_nonempty_total (confidence_timeline result)
              "result.confidence_timeline"
              (VideoResults.timeline_card result))
    as (t & Ht & _); [intros xs; apply timeline_card_total |].
  simpl bind. rewrite Hb, Hs, Ht. eexists; reflexivity.
Qed.

Lemma video_render :
  forall (st : App.State) (w : World) (file : File),
    App.selectedFile st = Some file ->
    String.prefix "video/" (type file) = true ->
    exists nodes,
      App.render st w = (Return nodes, snd (createObjectURL file w)).
Proof.
  intros [sel url load res err status] w file Hsel Hv.
  simpl in Hsel. subst sel.
  destruct (VideoPreview_returns file w) as [preview Hpreview].
  unfold App.render, App.App, App.status_alerts, App.isVideo.
  cbn [App.selectedFile App.imageUrl App.loading App.result App.error
       App.apiStatus].
  rewrite Hv.
  destruct res as [r |];
    [destruct (VideoResults_returns r) as [drawn Hdrawn] |];
    (destruct err as [e |]; [destruct (e === "") |]);
    cbn [app App.mount_all App.mount bind ret M_monad lift];
    rewrite Hpreview; cbn [bind ret M_monad];
    rewrite ?Hdrawn; eexists; reflexivity.
Qed.

(** X23. While a video is selected the page can always be drawn, whatever
    result the server sent: every component on it returns, the video
    renderer included, and the only trace the render leaves in the world
    is the one object URL the video preview makes. *)
Theorem video_page_always_renders :
  forall (st : App.State) (w : World) (file : File),
    App.selectedFile st = Some file ->
    String.prefix "video/" (type file) = true ->
    exists nodes,
      App.render st w = (Return nodes, snd (createObjectURL file w)).
Proof.
  intros st w file Hsel Hv. exact (video_render st w file Hsel Hv).
Qed.

Lemma video_page_of_clip_renders :
  exists nodes,
    App.render (Sample.selected Sample.clip 0%nat) Sample.offline_world
    = (Return nodes, snd (createObjectURL Sample.clip Sample.offline_world)).
Proof.
  apply (video_page_always_renders (Sample.selected Sample.clip 0%nat)
           Sample.offline_world Sample.clip); reflexivity.
Defined.

(** ** After a video, an object URL stays behind *)

Lemma render_created (st : App.State) (w : World) :
  revoked (snd (App.render st w)) = revoked w
  /\ (List.length (created w)
      <= List.length (created (snd (App.render st w))))%nat
  /\ (App.isVideo st = true ->
      List.length (created (snd (App.render st w)))
      = S (List.length (created w))).
Proof.
  destruct (render_same_but_created st w) as (_ & _ & _ & Hr & _).
  split; [exact Hr |].
  destruct (App.isVideo st) eqn:Hv.
  - unfold App.isVideo in Hv.
    destruct (App.selectedFile st) as [file |] eqn:Hsel; [| discriminate].
    destruct (video_render st w file Hsel Hv) as [nodes ->].
    simpl. rewrite length_app. simpl. split; [lia |]. intros _. lia.
  - rewrite (render_keeps_world st w Hv). split; [lia | discriminate].
Qed.

(** Object URLs made, against those revoked or still held. *)
Lemma step_keeps_the_surplus (ev : App.Event) (st : App.State) (w : World)
  (k : nat) :
  (List.length (revoked w)
   + match App.imageUrl st with Some _ => 1 | None => 0 end + k
   <= List.length (created w))%nat ->
  (List.length (revoked (snd (App.step ev (st, w))))
   + match App.imageUrl (fst (App.step ev (st, w))) with
     | Some _ => 1
     | None => 0
     end + k
   <= List.length (created (snd (App.step ev (st, w)))))%nat
  /\ (App.isVideo (fst (App.step ev (st, w))) = true ->
      (List.length (revoked (snd (App.step ev (st, w))))
       + match App.imageUrl (fst (App.step ev (st, w))) with
         | Some _ => 1
         | None => 0
         end + S k
       <= List.length (created (snd (App.step ev (st, w)))))%nat).
Proof.
  intros Hk.
  assert (Hh :
    (List.length (revoked (snd (App.handle ev st w)))
     + match App.imageUrl (fst (App.handle ev st w)) with
       | Some _ => 1
       | None => 0
       end + k
     <= List.length (created (snd (App.handle ev st w))))%nat).
  { destruct ev as [| | file | |].
    - destruct (checkApiHealth_keeps_urls st w) as (s & Hst & Hc & Hr).
      simpl App.handle. now rewrite Hst, Hc, Hr.
    - destruct (checkApiHealth_keeps_urls st w) as (s & Hst & Hc & Hr).
      simpl App.handle. now rewrite Hst, Hc, Hr.
    - destruct (chooseFile_effect file st w)
        as [(Hst & Hc & Hr) | (_ & Hurl & Hc & Hr)].
      + now rewrite Hst, Hc, Hr.
      + rewrite Hurl, Hc, Hr, length_app. simpl.
        destruct (App.imageUrl st); lia.
    - destruct (remove_effect st w) as (_ & Hurl & Hc & Hr).
      rewrite Hurl, Hc, Hr.
      destruct (App.imageUrl st); [rewrite length_app; simpl |]; lia.
    - destruct (handleAnalyze_keeps_urls st w) as (_ & Hurl & Hc & Hr).
      simpl App.handle. now rewrite Hurl, Hc, Hr. }
  unfold App.step. simpl fst. simpl snd.
  destruct (App.handle ev st w) as [st1 w1]. simpl in *.
  destruct (render_created st1 w1) as (Hr & Hle & Hvid).
  rewrite Hr. split; [lia |].
  intros Hv. rewrite (Hvid Hv). lia.
Qed.

Lemma run_keeps_the_surplus (evs : list App.Event) (k : nat) :
  forall (st0 : App.State) (w0 : World) (st : App.State) (w : World),
    (List.length (revoked w0)
     + match App.imageUrl st0 with Some _ => 1 | None => 0 end + k
     <= List.length (created w0))%nat ->
    App.run evs (st0, w0) = Some (st, w) ->
    (List.length (revoked w)
     + match App.imageUrl st with Some _ => 1 | None => 0 end + k
     <= List.length (created w))%nat.
Proof.
  induction evs as [| ev rest IH]; intros st0 w0 st w Hk Hrun.
  - now injection Hrun as <- <-.
  - simpl in Hrun. destruct (App.offered st0 ev); [| discriminate].
    destruct (step_keeps_the_surplus ev st0 w0 k Hk) as [H _].
    destruct (App.step ev (st0, w0)) as [st1 w1].
    now apply (IH st1 w1).
Qed.

Lemma accepted_video_is_selected (file : File) (st : App.State)
  (w : World) :
  String.prefix "video/" (type file) = true ->
  (size file <= 50 * 1024 * 1024)%N ->
  App.isVideo (fst (App.step (App.ChooseFile file) (st, w))) = true.
Proof.
  intros Hv Hsz. rewrite step_state.
  unfold App.handle, UploadArea.handleFile.
  rewrite Hv, andb_false_r.
  destruct (N.ltb_spec (50 * 1024 * 1024) (size file)); [lia |].
  simpl. unfold App.isVideo. simpl. exact Hv.
Qed.

(** X24. Once a video that the intake accepts has been chosen, an object
    URL stays behind for the rest of the session, whatever the user does
    next and whatever the server answers: strictly more object URLs were
    made than were revoked or are still held by the controller.  Removing
    the video does not help, since the URL in excess was made by the video
    preview. *)
Theorem a_chosen_video_leaves_a_url_behind :
  forall (evs : list App.Event) (file : File) (w0 : World)
         (st : App.State) (w : World),
    In (App.ChooseFile file) evs ->
    String.prefix "video/" (type file) = true ->
    (size file <= 50 * 1024 * 1024)%N ->
    created w0 = [] -> revoked w0 = [] ->
    App.run evs (App.initial, w0) = Some (st, w) ->
    (List.length (revoked w)
     + match App.imageUrl st with Some _ => 1 | None => 0 end
     < List.length (created w))%nat.
Proof.
  intros evs file w0 st w Hin Hv Hsz Hc Hr Hrun.
  assert (Hgen : forall evs st0 w0,
            In (App.ChooseFile file) evs ->
            (List.length (revoked w0)
             + match App.imageUrl st0 with Some _ => 1 | None => 0 end + 0
             <= List.length (created w0))%nat ->
            App.run evs (st0, w0) = Some (st, w) ->
            (List.length (revoked w)
             + match App.imageUrl st with Some _ => 1 | None => 0 end + 1
             <= List.length (created w))%nat).
  { clear - Hv Hsz. induction evs as [| ev rest IH];
      intros st0 w0 Hin H0 Hrun; [destruct Hin |].
    simpl in Hrun. destruct (App.offered st0 ev); [| discriminate].
    destruct (step_keeps_the_surplus ev st0 w0 0 H0) as [Hkeep Hvideo].
    destruct Hin as [-> | Hin].
    - pose proof (accepted_video_is_selected file st0 w0 Hv Hsz) as Hsel.
      specialize (Hvideo Hsel).
      destruct (App.step (App.ChooseFile file) (st0, w0)) as [st1 w1].
      now apply (run_keeps_the_surplus rest 1 st1 w1).
    - destruct (App.step ev (st0, w0)) as [st1 w1].
      now apply (IH st1 w1). }
  specialize (Hgen evs App.initial w0 Hin).
  rewrite Hc, Hr in Hgen. simpl in Hgen.
  specialize (Hgen (Nat.le_refl 0) Hrun). lia.
Qed.

Lemma clip_session_leaves_a_url_behind :
  exists st w,
    App.run [App.Mount; App.ChooseFile Sample.clip; App.ClickAnalyze;
             App.ClickRemove; App.ChooseFile Sample.photo]
      (App.initial, Sample.answering Sample.video_ok) = Some (st, w)
    /\ (List.length (revoked w)
        + match App.imageUrl st with Some _ => 1 | None => 0 end
        < List.length (created w))%nat.
Proof.
  destruct (App.run [App.Mount; App.ChooseFile Sample.clip; App.ClickAnalyze;
                     App.ClickRemove; App.ChooseFile Sample.photo]
              (App.initial, Sample.answering Sample.video_ok))
    as [[st w] |] eqn:Hrun; [| vm_compute in Hrun; discriminate Hrun].
  exists st, w. split; [reflexivity |].
  apply (a_chosen_video_leaves_a_url_behind
           [App.Mount; App.ChooseFile Sample.clip; App.ClickAnalyze;
            App.ClickRemove; App.ChooseFile Sample.photo]
           Sample.clip (Sample.answering Sample.video_ok) st w);
    [right; left; reflexivity | reflexivity | discriminate
     | reflexivity | reflexivity | exact Hrun].
Defined.
